(** * Hospital-Management: billing derivation and appointment booking

    A shallow embedding of the billing pre-save hook
    ([server/models/Billing.js]), the billing routes
    ([server/routes/billing.js]), the appointment routes
    ([server/routes/appointments.js]) and the slot enumeration of the
    booking page ([client/src/pages/BookAppointment.jsx]); then the
    middleware of [server/middleware/auth.js], the route tables of the
    routers mounted by [server/server.js], the paginated listings, the
    date filter of [GET /api/doctors/available], the statistics routes and
    the client's navigation ([Layout.jsx], [App.jsx]).

    Conventions.
    - A JavaScript [Number] holding money or a quantity is an IEEE 754
      double, Rocq's primitive [float]: [+], [-] and [*] round as the
      host's do and every comparison with NaN is false.
    - A JavaScript [Date] is its time value in milliseconds, an integer,
      [None] being the NaN time value of an [Invalid Date].
    - A JavaScript string is the sequence of its code units, taken below
      256; the white space [trim] strips is then the code units 9 to 13, 32
      and 160.
    - A request body is JSON of the expected types: a number where the
      schema has a [Number], a string where the route reads a string, an
      id where it reads an [ObjectId].
    - A MongoDB collection is a finite map from [_id] to document; an
      [ObjectId] is a [nat].
    - A handler is modelled from the point where the authentication
      middleware has set [req.user]; it returns its HTTP response together
      with the next database. The middleware and the dispatch to a handler
      are modelled apart, in [Express], [Auth] and [Routers].
    - Schema paths that none of the modelled handlers reads (names, notes,
      symptoms, duration, payment method, timestamps) are left out of the
      records, and a request is taken not to send them, except for the
      [required] ones ([billNumber], which it sends fresh, and
      [generatedBy], which the route sets). *)

From Stdlib Require Import ZArith List String Ascii Bool Lia.
From Corelib Require Import PrimFloat FloatOps FloatAxioms SpecFloat.
From stdpp Require Import gmap strings list fin_maps.
From Equations Require Import Equations.

Local Open Scope Z_scope.

(** ** The JavaScript host *)

Module Js.

(** What the host is free to decide: the [Date] string parser (only the
    ISO layouts are fixed by the language), the zone offset in minutes and
    express-validator's [isISO8601]. *)
Class Host := {
  Date_parse : string -> option Z;
  tzOffset : Z;
  isISO8601 : string -> bool
}.

Inductive Error := RangeError | CastError | ValidationError.

(** A completion: a value, or a thrown error. *)
Inductive Completion (A : Type) :=
| Normal (a : A)
| Throw (e : Error).
Arguments Normal {A} a.
Arguments Throw {A} e.

(** Relational operators on time values: every comparison with NaN is
    false. *)
Definition date_lt (a b : option Z) : bool :=
  match a, b with Some x, Some y => x <? y | _, _ => false end.
Definition date_le (a b : option Z) : bool :=
  match a, b with Some x, Some y => x <=? y | _, _ => false end.
Definition date_ge (a b : option Z) : bool := date_le b a.
Definition date_gt (a b : option Z) : bool := date_lt b a.

Definition msPerMinute : Z := 60000.
Definition msPerDay : Z := 86400000.

Definition localTime `{Host} (t : Z) : Z := t + tzOffset * msPerMinute.

(** [getDay]: 0 is Sunday; 1970-01-01 was a Thursday. *)
Definition getDay `{Host} (t : Z) : Z := (localTime t / msPerDay + 4) mod 7.

Definition weekdayLong (d : Z) : string :=
  match d with
  | 0 => "Sunday" | 1 => "Monday" | 2 => "Tuesday" | 3 => "Wednesday"
  | 4 => "Thursday" | 5 => "Friday" | _ => "Saturday"
  end%string.

Definition weekdayName (style : string) (d : Z) : string :=
  if String.eqb style "long" then weekdayLong d
  else if String.eqb style "short" then String.substring 0 3 (weekdayLong d)
  else String.substring 0 1 (weekdayLong d).

(** [date.toLocaleDateString('en-US', { weekday: style })]. An invalid
    date answers "Invalid Date" before the options are read; otherwise the
    [Intl.DateTimeFormat] constructor accepts only "narrow", "short" and
    "long" for [weekday] and throws a [RangeError] on any other string. *)
Definition toLocaleDateString_weekday `{Host}
    (date : option Z) (style : string) : Completion string :=
  match date with
  | None => Normal "Invalid Date"%string
  | Some t =>
      if existsb (String.eqb style) ["narrow"; "short"; "long"]%string
      then Normal (weekdayName style (getDay t))
      else Throw RangeError
  end.

Definition lowerAscii (c : ascii) : ascii :=
  let n := nat_of_ascii c in
  if ((65 <=? n) && (n <=? 90))%nat then ascii_of_nat (n + 32) else c.

Fixpoint toLowerCase (s : string) : string :=
  match s with
  | EmptyString => EmptyString
  | String c r => String (lowerAscii c) (toLowerCase r)
  end.

Definition digit (n : Z) : string :=
  String (ascii_of_nat (48 + Z.to_nat n)) EmptyString.
Definition twoDigits (n : Z) : string :=
  (digit (n / 10) ++ digit (n mod 10))%string.

(** [date.toLocaleTimeString('en-US', { hour: '2-digit', minute: '2-digit',
    hour12: true })]. The separator before AM/PM is written as a plain
    space (hosts with a recent ICU emit U+202F there). *)
Definition toLocaleTimeString_hm12 `{Host} (t : Z) : string :=
  let minutes := (localTime t / msPerMinute) mod 1440 in
  let h := minutes / 60 in
  let m := minutes mod 60 in
  let h12 := if h mod 12 =? 0 then 12 else h mod 12 in
  let suffix := if h <? 12 then " AM"%string else " PM"%string in
  (twoDigits h12 ++ ":" ++ twoDigits m ++ suffix)%string.

(** White space and line terminators among the code units below 256: tab,
    line feed, vertical tab, form feed, carriage return, space and the
    no-break space. *)
Definition isSpace (c : ascii) : bool :=
  let n := nat_of_ascii c in
  ((9 <=? n) && (n <=? 13))%nat || (n =? 32)%nat || (n =? 160)%nat.

Fixpoint trimStart (s : string) : string :=
  match s with
  | String c r => if isSpace c then trimStart r else s
  | EmptyString => EmptyString
  end.

Fixpoint reverse (s acc : string) : string :=
  match s with
  | EmptyString => acc
  | String c r => reverse r (String c acc)
  end.

(** [s.trim()], and express-validator's [trim()] sanitizer. *)
Definition trim (s : string) : string :=
  reverse (trimStart (reverse (trimStart s) EmptyString)) EmptyString.

(** Truthiness of a string: only the empty string is falsy. *)
Definition truthy (s : string) : bool := negb (String.eqb s "").

(** *** Numbers *)

Definition le (x y : float) : Prop := (x <=? y)%float = true.
Definition lt (x y : float) : Prop := (x <? y)%float = true.

(** Truthiness of a number: 0, -0 and NaN are falsy. *)
Definition truthyNumber (x : float) : bool :=
  negb (x =? 0)%float && (x =? x)%float.

Definition isFinite (x : float) : bool :=
  (neg_infinity <? x)%float && (x <? infinity)%float.

(** [Math.max(0, x)] *)
Definition max0 (x : float) : float :=
  if (x <? 0)%float then 0%float else x.

Definition two52 : float := 4503599627370496%float.

(** A non-negative double has no fractional part: below 2^52 adding and
    subtracting 2^52 rounds the fraction away; from 2^52 on every finite
    double is an integer. *)
Definition isInteger (x : float) : bool :=
  if (x <? two52)%float then ((x + two52) - two52 =? x)%float
  else (x <? infinity)%float.

(** express-validator's [isFloat({ min: 0 })] on a JSON number: the number
    is printed and read back, which refuses the infinities. *)
Definition isFloat_min0 (x : float) : bool :=
  isFinite x && (0 <=? x)%float.

(** express-validator's [isInt({ min: 1 })] on a JSON number: its printed
    form is a digit string, which it is for an integer below 1e21. *)
Definition isInt_min1 (x : float) : bool :=
  (1 <=? x)%float && isInteger x && (x <? 1e21)%float.

(** A schema's [min: [0, ...]] validator. *)
Definition min0 (x : float) : bool := (0 <=? x)%float.

(** A schema's [maxlength: [n, ...]] validator. *)
Definition maxlength (n : nat) (s : string) : bool :=
  (String.length s <=? n)%nat.

End Js.

(** ** Billing: schema, pre-save hook and routes *)

Module Billing.

Local Open Scope float_scope.

Inductive Status := pending | partial | paid | overdue | cancelled.

Record Item := {
  description : string;
  quantity : float;
  unitPrice : float;
  total : float
}.

Record Bill := {
  patientId : nat;
  dueDate : Z;
  items : list Item;
  subtotal : float;
  tax : float;
  discount : float;
  totalAmount : float;
  paidAmount : float;
  balance : float;
  status : Status;
  paymentDate : option Z
}.

(** [billingSchema.pre('save', ...)], the specification's [recompute], with
    the clock read by [new Date()] passed as [now]. *)
Definition pre_save (now : Z) (this : Bill) : Bill :=
  let subtotal' := fold_left (fun sum item => sum + total item) (items this) 0 in
  let totalAmount' := subtotal' + tax this - discount this in
  let balance' := totalAmount' - paidAmount this in
  let status' :=
    if balance' <=? 0 then paid
    else if 0 <? paidAmount this then partial
    else if (now >? dueDate this)%Z then overdue
    else status this in
  {| patientId := patientId this; dueDate := dueDate this;
     items := items this; subtotal := subtotal';
     tax := tax this; discount := discount this;
     totalAmount := totalAmount'; paidAmount := paidAmount this;
     balance := balance'; status := status';
     paymentDate := paymentDate this |}.

(** An item of a request body: [total] may or may not be sent. *)
Record ItemInput := {
  in_description : string;
  in_quantity : float;
  in_unitPrice : float;
  in_total : option float
}.

(** The body of [POST /api/billing]; an absent field is [None]. *)
Record CreateBody := {
  c_patientId : nat;
  c_dueDate : Z;
  c_items : list ItemInput;
  c_subtotal : option float;
  c_tax : option float;
  c_discount : option float;
  c_totalAmount : option float;
  c_paidAmount : option float;
  c_balance : option float;
  c_status : option Status;
  c_paymentDate : option Z
}.

(** The body of [PUT /api/billing/:id]: any path of the schema may be
    sent. *)
Record UpdateBody := {
  u_patientId : option nat;
  u_dueDate : option Z;
  u_items : option (list Item);
  u_subtotal : option float;
  u_tax : option float;
  u_discount : option float;
  u_totalAmount : option float;
  u_paidAmount : option float;
  u_balance : option float;
  u_status : option Status;
  u_paymentDate : option Z
}.

Record DB := {
  patients : gset nat;
  bills : gmap nat Bill
}.

(** [Created] and [Ok] carry the document sent as [data]; [Deleted] is
    [{ success: true, message: 'Billing record deleted successfully' }]. *)
Inductive Response :=
| Created (id : nat) (b : Bill)
| Ok (b : Bill)
| Deleted
| BadRequest
| NotFound
| ServerError.

(** [body(f).optional().isFloat({ min: 0 })] *)
Definition optionalIsFloat_min0 (o : option float) : bool :=
  match o with Some x => Js.isFloat_min0 x | None => true end.

(** A [min: [0, ...]] validator on a path that an update may leave out. *)
Definition optMin0 (o : option float) : bool :=
  match o with Some x => Js.min0 x | None => true end.

(** The express-validator chain of [POST /api/billing]. *)
Definition validCreate (body : CreateBody) : bool :=
  (1 <=? Z.of_nat (length (c_items body)))%Z
  && forallb (fun i => Js.truthy (in_description i)
                       && Js.isInt_min1 (in_quantity i)
                       && Js.isFloat_min0 (in_unitPrice i))
             (c_items body)
  && optionalIsFloat_min0 (c_tax body) && optionalIsFloat_min0 (c_discount body).

(** [items.map(item => ({ ...item, total: item.quantity * item.unitPrice }))] *)
Definition calculatedItems (its : list ItemInput) : list Item :=
  map (fun item => {| description := in_description item;
                      quantity := in_quantity item;
                      unitPrice := in_unitPrice item;
                      total := in_quantity item * in_unitPrice item |}) its.

(** The validators of [billingSchema.items]. *)
Definition itemValid (i : Item) : bool :=
  Js.truthy (description i) && (1 <=? quantity i)
  && Js.min0 (unitPrice i) && Js.min0 (total i).

(** The schema's validators on a document about to be saved. [subtotal] and
    [totalAmount] are [required], so [schemaDoc] fails when they are not
    sent; the other fields take the schema's defaults. *)
Definition schemaValid (b : Bill) : bool :=
  forallb itemValid (items b)
  && Js.min0 (subtotal b) && Js.min0 (tax b) && Js.min0 (discount b)
  && Js.min0 (totalAmount b) && Js.min0 (paidAmount b).

Definition schemaDoc (body : CreateBody) : option Bill :=
  match c_subtotal body, c_totalAmount body with
  | Some st, Some ta =>
      Some {| patientId := c_patientId body; dueDate := c_dueDate body;
              items := calculatedItems (c_items body); subtotal := st;
              tax := default 0 (c_tax body);
              discount := default 0 (c_discount body);
              totalAmount := ta;
              paidAmount := default 0 (c_paidAmount body);
              balance := default 0 (c_balance body);
              status := default pending (c_status body);
              paymentDate := c_paymentDate body |}
  | _, _ => None
  end.

(** [Billing.create(billingData)]: build the document, validate it, run the
    pre-save hook, insert it under a fresh [_id]. The validators run before
    the hook, so what the hook computes is stored unvalidated. *)
Definition create (now : Z) (db : DB) (body : CreateBody) : option (nat * Bill * DB) :=
  match schemaDoc body with
  | Some doc =>
      if schemaValid doc then
        let saved := pre_save now doc in
        let id := fresh (dom (bills db)) in
        Some (id, saved, {| patients := patients db;
                            bills := <[id := saved]> (bills db) |})
      else None
  | None => None
  end.

(** [POST /api/billing] *)
Definition post_billing (now : Z) (db : DB) (body : CreateBody) : Response * DB :=
  if negb (validCreate body) then (BadRequest, db)
  else if negb (bool_decide (c_patientId body ∈ patients db)) then (NotFound, db)
  else match create now db body with
       | Some (id, b, db') => (Created id b, db')
       | None => (ServerError, db)
       end.

(** The update document [{ ...req.body }] applied as a [$set]; when a
    positive [paidAmount] is sent the route overwrites [paymentDate] with
    the current time (lines 195-200). *)
Definition applyUpdate (now : Z) (body : UpdateBody) (b : Bill) : Bill :=
  {| patientId := default (patientId b) (u_patientId body);
     dueDate := default (dueDate b) (u_dueDate body);
     items := default (items b) (u_items body);
     subtotal := default (subtotal b) (u_subtotal body);
     tax := default (tax b) (u_tax body);
     discount := default (discount b) (u_discount body);
     totalAmount := default (totalAmount b) (u_totalAmount body);
     paidAmount := default (paidAmount b) (u_paidAmount body);
     balance := default (balance b) (u_balance body);
     status := default (status b) (u_status body);
     paymentDate :=
       let sent := match u_paymentDate body with
                   | Some d => Some d
                   | None => paymentDate b
                   end in
       match u_paidAmount body with
       | Some paidAmount =>
           if Js.truthyNumber paidAmount && (0 <? paidAmount)
           then Some now else sent
       | None => sent
       end |}.

(** The update validators of [runValidators: true] look only at the paths
    the update sets. *)
Definition updateValid (body : UpdateBody) : bool :=
  match u_items body with
  | Some its => forallb itemValid its
  | None => true
  end
  && optMin0 (u_subtotal body) && optMin0 (u_tax body)
  && optMin0 (u_discount body) && optMin0 (u_totalAmount body)
  && optMin0 (u_paidAmount body).

(** [Billing.findByIdAndUpdate(id, updateData, { new: true, runValidators:
    true })]: a query, so document middleware such as [pre('save')] is not
    run. The update validators run on the update document before the query
    is sent, whether or not a bill has that id. *)
Definition findByIdAndUpdate (now : Z) (db : DB) (id : nat) (body : UpdateBody)
  : Js.Completion (option Bill * DB) :=
  if negb (updateValid body) then Js.Throw Js.ValidationError
  else
    match bills db !! id with
    | None => Js.Normal (None, db)
    | Some b =>
        let b' := applyUpdate now body b in
        Js.Normal (Some b', {| patients := patients db;
                               bills := <[id := b']> (bills db) |})
    end.

(** [PUT /api/billing/:id] *)
Definition put_billing_id (now : Z) (db : DB) (id : nat) (body : UpdateBody)
  : Response * DB :=
  if negb (optionalIsFloat_min0 (u_paidAmount body)) then (BadRequest, db)
  else match findByIdAndUpdate now db id body with
       | Js.Normal (Some b, db') => (Ok b, db')
       | Js.Normal (None, _) => (NotFound, db)
       | Js.Throw _ => (ServerError, db)
       end.

(** [DELETE /api/billing/:id] *)
Definition delete_billing_id (db : DB) (id : nat) : Response * DB :=
  match bills db !! id with
  | Some _ => (Deleted, {| patients := patients db; bills := delete id (bills db) |})
  | None => (NotFound, db)
  end.

(** The sum the specification calls [Σ lineTotal], added up as [reduce]
    does. *)
Definition lineTotals (its : list Item) : float :=
  fold_left (fun sum i => sum + quantity i * unitPrice i) its 0.

Definition storedTotals (its : list Item) : float :=
  fold_left (fun sum i => sum + total i) its 0.

End Billing.

(** ** Appointments: schemas, routes and the booking page *)

Module Appt.

Inductive Status :=
  scheduled | confirmed | in_progress | completed | cancelled | no_show.

Inductive DoctorStatus := active | inactive | on_leave.

Module Role.
Inductive t := admin | doctor | receptionist | patient.
End Role.

#[global] Instance Status_eq_dec : EqDecision Status.
Proof. solve_decision. Defined.
#[global] Instance DoctorStatus_eq_dec : EqDecision DoctorStatus.
Proof. solve_decision. Defined.
#[global] Instance Role_eq_dec : EqDecision Role.t.
Proof. solve_decision. Defined.

(** One day of [doctorSchema.availability]. [start] and [end] are optional
    strings that the routes only read inside a template literal or a
    concatenation; an absent one is held as the text it yields there,
    "undefined". [available] has a default, so it is always there. *)
Record DayAvailability := {
  start : string;
  end_ : string;
  available : bool
}.

(** [availability] is read by key, [doctor.availability[dayOfWeek]]; a
    stored doctor has the seven weekday keys of the schema. *)
Record Doctor := {
  name : string;
  status : DoctorStatus;
  availability : gmap string DayAvailability
}.

Record User := {
  user_id : nat;
  role : Role.t
}.

Record Appointment := {
  patientId : nat;
  doctorId : nat;
  appointmentDate : Z;
  appointmentTime : string;
  a_status : Status;
  type_ : string;
  priority : string;
  reason : string;
  cancelledBy : option nat;
  cancelledAt : option Z
}.

(** [req.body]: an absent field is [None]; dates, times and enumerated
    fields arrive as strings. *)
Record Body := {
  b_patientId : option nat;
  b_doctorId : option nat;
  b_appointmentDate : option string;
  b_appointmentTime : option string;
  b_status : option string;
  b_type : option string;
  b_priority : option string;
  b_reason : option string
}.

Record DB := {
  doctors : gmap nat Doctor;
  patients : gset nat;
  appointments : gmap nat Appointment
}.

(** [res.status(code).json(...)]: the status code with the message, the
    created or updated document, or the validator's error array. *)
Inductive Response :=
| Json (code : Z) (message : string)
| JsonData (code : Z) (id : nat) (data : Appointment)
| JsonErrors (code : Z).

Definition statusOfString (s : string) : option Status :=
  if String.eqb s "scheduled" then Some scheduled
  else if String.eqb s "confirmed" then Some confirmed
  else if String.eqb s "in_progress" then Some in_progress
  else if String.eqb s "completed" then Some completed
  else if String.eqb s "cancelled" then Some cancelled
  else if String.eqb s "no_show" then Some no_show
  else None.

Definition types : list string :=
  ["consultation"; "follow_up"; "emergency"; "routine_checkup"]%string.
Definition priorities : list string :=
  ["low"; "medium"; "high"; "urgent"]%string.

Definition isIn (l : list string) (s : string) : bool := existsb (String.eqb s) l.

(** [body(f).optional().isIn(l)] *)
Definition optionalIsIn (l : list string) (o : option string) : bool :=
  match o with Some s => isIn l s | None => true end.

(** [req.body.f || d] *)
Definition orDefault (o : option string) (d : string) : string :=
  match o with Some s => if Js.truthy s then s else d | None => d end.

(** The filter [{ doctorId, appointmentDate, appointmentTime }] shared by
    the conflict queries: equality of ids, of time values and of strings. *)
Definition sameSlot (d : nat) (date : Z) (time : string) (a : Appointment) : bool :=
  (doctorId a =? d)%nat && (appointmentDate a =? date) && String.eqb (appointmentTime a) time.

(** [status: { $in: ['scheduled', 'confirmed'] }] *)
Definition in_scheduled_confirmed (s : Status) : bool :=
  match s with scheduled | confirmed => true | _ => false end.

(** [status: { $nin: ['cancelled', 'completed'] }] *)
Definition nin_cancelled_completed (s : Status) : bool :=
  match s with cancelled | completed => false | _ => true end.

(** [Appointment.findOne(filter)] *)
Definition findOne (filter : Appointment -> bool) (db : DB) : option (nat * Appointment) :=
  List.find (fun kv => filter (snd kv)) (map_to_list (appointments db)).

(** The conflict query of the two booking routes (lines 302-307 and
    388-393): the specification's [checkConflict] at booking time. *)
Definition conflictingAppointment (db : DB) (doctorId : nat) (date : Z)
    (time : string) : option (nat * Appointment) :=
  findOne (fun a => sameSlot doctorId date time a
                    && nin_cancelled_completed (a_status a)) db.

(** The conflict query of the availability check (lines 226-231): the
    specification's [checkConflict] as a pre-check. *)
Definition existingAppointment (db : DB) (doctorId : nat) (date : Z)
    (time : string) : option (nat * Appointment) :=
  findOne (fun a => sameSlot doctorId date time a
                    && in_scheduled_confirmed (a_status a)) db.

Definition withAppointments (db : DB) (m : gmap nat Appointment) : DB :=
  {| doctors := doctors db; patients := patients db; appointments := m |}.

(** The validators of [appointmentSchema] on the paths of the record: the
    [required] strings, the two enumerations and the [maxlength] of
    [reason]. *)
Definition schemaValid (a : Appointment) : bool :=
  Js.truthy (appointmentTime a)
  && isIn types (type_ a) && isIn priorities (priority a)
  && Js.truthy (reason a) && Js.maxlength 500 (reason a).

(** [Appointment.create(doc)] for a document that passes [schemaValid]:
    insertion under a fresh [_id]. One that does not is rejected, which the
    routes report as a 500. *)
Definition create (db : DB) (a : Appointment) : nat * DB :=
  let id := fresh (dom (appointments db)) in
  (id, withAppointments db (<[id := a]> (appointments db))).

(** *** [POST /api/appointments/check-availability] *)

(** Line 203: the weekday key of the requested instant. *)
Definition dayOfWeek_server `{Js.Host} (appointmentDateTime : option Z)
  : Js.Completion string :=
  Js.toLocaleDateString_weekday appointmentDateTime "lowercase".

(** Line 206: [!dayAvailability || !dayAvailability.available], negated;
    the specification's [isDayAvailable] once the entry is looked up. *)
Definition dayIsAvailable (dayAvailability : option DayAvailability) : bool :=
  match dayAvailability with
  | Some d => available d
  | None => false
  end.

(** Lines 214-218: the complement of
    [appointmentTimeObj < startTime || appointmentTimeObj >= endTime]. *)
Definition withinWorkingHours `{Js.Host}
    (dayAvailability : DayAvailability) (appointmentTime : string) : bool :=
  let appointmentTimeObj := Js.Date_parse ("2000-01-01T" ++ appointmentTime) in
  let startTime := Js.Date_parse ("2000-01-01T" ++ start dayAvailability) in
  let endTime := Js.Date_parse ("2000-01-01T" ++ end_ dayAvailability) in
  negb (Js.date_lt appointmentTimeObj startTime
        || Js.date_ge appointmentTimeObj endTime).

Definition post_check_availability `{Js.Host} (now : Z) (db : DB) (body : Body)
  : Response :=
  match b_doctorId body, b_appointmentDate body, b_appointmentTime body with
  | Some doctorId, Some appointmentDate, Some appointmentTime =>
    if negb (Js.truthy appointmentDate && Js.truthy appointmentTime)
    then Json 400 "Doctor ID, appointment date, and time are required"
    else
    match doctors db !! doctorId with
    | None => Json 400 "Doctor not found or not available"
    | Some doctor =>
      if negb (bool_decide (status doctor = active))
      then Json 400 "Doctor not found or not available"
      else
      let appointmentDateTime :=
        Js.Date_parse (appointmentDate ++ "T" ++ appointmentTime) in
      if Js.date_le appointmentDateTime (Some now)
      then Json 400 "Appointment date and time must be in the future"
      else
      match dayOfWeek_server appointmentDateTime with
      | Js.Throw _ => Json 500 "Server error while checking availability"
      | Js.Normal dayOfWeek =>
        let dayAvailability := availability doctor !! dayOfWeek in
        match dayAvailability with
        | None => Json 400 "Doctor is not available on this day"
        | Some day =>
          if negb (dayIsAvailable dayAvailability)
          then Json 400 "Doctor is not available on this day"
          else if negb (withinWorkingHours day appointmentTime)
          then Json 400 "Appointment time is outside doctor's working hours"
          else
          match Js.Date_parse appointmentDate with
          | None => Json 500 "Server error while checking availability"
          | Some date =>
            match existingAppointment db doctorId date appointmentTime with
            | Some _ =>
              Json 400 "This time slot is already booked. Please choose another time."
            | None => Json 200 "Appointment slot is available"
            end
          end
        end
      end
    end
  | _, _, _ => Json 400 "Doctor ID, appointment date, and time are required"
  end.

(** *** [POST /api/appointments/patient] *)

Definition post_appointments_patient `{Js.Host} (db : DB) (user : User) (body : Body)
  : Response * DB :=
  match b_doctorId body, b_appointmentDate body, b_appointmentTime body,
        b_reason body with
  | Some doctorId, Some appointmentDate, Some appointmentTime, Some reason0 =>
    if negb (Js.isISO8601 appointmentDate && Js.truthy appointmentTime
             && Js.truthy (Js.trim reason0)
             && optionalIsIn types (b_type body)
             && optionalIsIn priorities (b_priority body))
    then (JsonErrors 400, db)
    else if negb (bool_decide (role user = Role.patient))
    then (Json 403 "Only patients can book appointments using this route", db)
    else
    let patientId := user_id user in
    match doctors db !! doctorId with
    | None => (Json 404 "Doctor not found or not available", db)
    | Some doctor =>
      if negb (bool_decide (status doctor = active))
      then (Json 404 "Doctor not found or not available", db)
      else
      match Js.Date_parse appointmentDate with
      | None => (Json 500 "Server error while booking appointment", db)
      | Some date =>
        match conflictingAppointment db doctorId date appointmentTime with
        | Some _ => (Json 400 "Time slot is already booked for this doctor", db)
        | None =>
          let appointmentData :=
            {| patientId := patientId; doctorId := doctorId;
               appointmentDate := date; appointmentTime := appointmentTime;
               a_status := scheduled;
               type_ := orDefault (b_type body) "consultation";
               priority := orDefault (b_priority body) "medium";
               reason := Js.trim reason0;
               cancelledBy := None; cancelledAt := None |} in
          if negb (schemaValid appointmentData)
          then (Json 500 "Server error while booking appointment", db)
          else
          let (id, db') := create db appointmentData in
          (JsonData 201 id appointmentData, db')
        end
      end
    end
  | _, _, _, _ => (JsonErrors 400, db)
  end.

(** *** [POST /api/appointments] *)

Definition post_appointments `{Js.Host} (db : DB) (body : Body) : Response * DB :=
  match b_patientId body, b_doctorId body, b_appointmentDate body,
        b_appointmentTime body, b_reason body with
  | Some patientId, Some doctorId, Some appointmentDate, Some appointmentTime,
    Some reason0 =>
    if negb (Js.isISO8601 appointmentDate && Js.truthy appointmentTime
             && Js.truthy (Js.trim reason0)
             && optionalIsIn types (b_type body)
             && optionalIsIn priorities (b_priority body))
    then (JsonErrors 400, db)
    else if negb (bool_decide (patientId ∈ patients db))
    then (Json 404 "Patient not found", db)
    else
    match doctors db !! doctorId with
    | None => (Json 404 "Doctor not found", db)
    | Some doctor =>
      match Js.Date_parse appointmentDate with
      | None => (Json 500 "Server error while creating appointment", db)
      | Some date =>
        match conflictingAppointment db doctorId date appointmentTime with
        | Some _ => (Json 400 "Time slot is already booked for this doctor", db)
        | None =>
          match match b_status body with
                | Some s => statusOfString s
                | None => Some scheduled
                end with
          | None => (Json 500 "Server error while creating appointment", db)
          | Some st =>
            let doc :=
              {| patientId := patientId; doctorId := doctorId;
                 appointmentDate := date; appointmentTime := appointmentTime;
                 a_status := st;
                 type_ := default "consultation"%string (b_type body);
                 priority := default "medium"%string (b_priority body);
                 reason := Js.trim reason0;
                 cancelledBy := None; cancelledAt := None |} in
            if negb (schemaValid doc)
            then (Json 500 "Server error while creating appointment", db)
            else
            let (id, db') := create db doc in
            (JsonData 201 id doc, db')
          end
        end
      end
    end
  | _, _, _, _, _ => (JsonErrors 400, db)
  end.

(** *** [PUT /api/appointments/:id] *)

(** The update document [req.body] applied as a [$set]. *)
Definition applyUpdate (body : Body) (date : option Z) (st : option Status)
    (a : Appointment) : Appointment :=
  {| patientId := default (patientId a) (b_patientId body);
     doctorId := default (doctorId a) (b_doctorId body);
     appointmentDate := default (appointmentDate a) date;
     appointmentTime := default (appointmentTime a) (b_appointmentTime body);
     a_status := default (a_status a) st;
     type_ := default (type_ a) (b_type body);
     priority := default (priority a) (b_priority body);
     reason := default (reason a) (b_reason body);
     cancelledBy := cancelledBy a; cancelledAt := cancelledAt a |}.

(** [Appointment.findByIdAndUpdate(req.params.id, req.body, { new: true,
    runValidators: true })]: the date is cast, the enumerated and required
    paths that are set are validated, and the document is replaced. No
    other appointment is read. *)
Definition findByIdAndUpdate `{Js.Host} (db : DB) (id : nat) (body : Body)
  : Js.Completion (option Appointment * DB) :=
  match match b_appointmentDate body with
        | Some s => match Js.Date_parse s with
                    | Some d => Some (Some d)
                    | None => None
                    end
        | None => Some None
        end with
  | None => Js.Throw Js.CastError
  | Some date =>
    if negb (optionalIsIn types (b_type body)
             && optionalIsIn priorities (b_priority body)
             && match b_reason body with
                | Some r => Js.truthy r && Js.maxlength 500 r
                | None => true
                end
             && match b_appointmentTime body with
                | Some t => Js.truthy t | None => true end)
    then Js.Throw Js.ValidationError
    else
    match appointments db !! id with
    | None => Js.Normal (None, db)
    | Some a =>
      let a' := applyUpdate body date (b_status body ≫= statusOfString) a in
      Js.Normal (Some a', withAppointments db (<[id := a']> (appointments db)))
    end
  end.

Definition put_appointments_id `{Js.Host} (db : DB) (id : nat) (body : Body)
  : Response * DB :=
  if negb (match b_status body with
           | Some s => bool_decide (is_Some (statusOfString s))
           | None => true
           end)
  then (JsonErrors 400, db)
  else match findByIdAndUpdate db id body with
       | Js.Normal (Some a, db') => (JsonData 200 id a, db')
       | Js.Normal (None, _) => (Json 404 "Appointment not found", db)
       | Js.Throw _ => (Json 500 "Server error while updating appointment", db)
       end.

(** *** [DELETE /api/appointments/:id] *)

Definition delete_appointments_id (db : DB) (id : nat) : Response * DB :=
  match appointments db !! id with
  | Some _ => (Json 200 "Appointment deleted successfully",
               withAppointments db (delete id (appointments db)))
  | None => (Json 404 "Appointment not found", db)
  end.

(** *** [PUT /api/appointments/:id/cancel] *)

(** [populate('patientId', ...)] leaves [null] when no patient document has
    that id; reading [appointment.patientId._id] then throws, which the
    handler reports as a 500. The comparison is only evaluated for a
    patient. *)
Definition put_appointments_id_cancel (now : Z) (db : DB) (user : User) (id : nat)
  : Response * DB :=
  match appointments db !! id with
  | None => (Json 404 "Appointment not found", db)
  | Some appointment =>
    if bool_decide (role user = Role.patient)
       && negb (bool_decide (patientId appointment ∈ patients db))
    then (Json 500 "Server error while cancelling appointment", db)
    else if bool_decide (role user = Role.patient)
            && negb (patientId appointment =? user_id user)%nat
    then (Json 403 "You can only cancel your own appointments", db)
    else if bool_decide (a_status appointment = completed)
            || bool_decide (a_status appointment = cancelled)
    then (Json 400 "This appointment cannot be cancelled", db)
    else
      let appointment' :=
        {| patientId := patientId appointment; doctorId := doctorId appointment;
           appointmentDate := appointmentDate appointment;
           appointmentTime := appointmentTime appointment;
           a_status := cancelled;
           type_ := type_ appointment; priority := priority appointment;
           reason := reason appointment;
           cancelledBy := Some (user_id user); cancelledAt := Some now |} in
      (JsonData 200 id appointment',
       withAppointments db (<[id := appointment']> (appointments db)))
  end.

(** *** The exposed write operations and the states they reach *)

Inductive Op :=
| OpCreate (body : Body)
| OpBook (user : User) (body : Body)
| OpUpdate (id : nat) (body : Body)
| OpCancel (user : User) (id : nat)
| OpDelete (id : nat).

Definition step `{Js.Host} (now : Z) (db : DB) (op : Op) : DB :=
  match op with
  | OpCreate body => snd (post_appointments db body)
  | OpBook user body => snd (post_appointments_patient db user body)
  | OpUpdate id body => snd (put_appointments_id db id body)
  | OpCancel user id => snd (put_appointments_id_cancel now db user id)
  | OpDelete id => snd (delete_appointments_id db id)
  end.

Definition run `{Js.Host} (now : Z) (db : DB) (ops : list Op) : DB :=
  fold_left (step now) ops db.

Definition nonTerminal (a : Appointment) : bool :=
  nin_cancelled_completed (a_status a).

(** No two non-terminal appointments share [(doctorId, appointmentDate,
    appointmentTime)]. *)
Definition uniqueSlots (db : DB) : Prop :=
  forall i j a b,
    appointments db !! i = Some a -> appointments db !! j = Some b ->
    i <> j -> nonTerminal a = true -> nonTerminal b = true ->
    sameSlot (doctorId a) (appointmentDate a) (appointmentTime a) b = false.

End Appt.

(** ** The booking page ([BookAppointment.jsx]) *)

Module Client.
Import Appt.

Definition slotStep : Z := 30 * Js.msPerMinute.

(** The number of iterations left in the slot loop. *)
Definition slotCount (start end_ : Z) : nat :=
  Z.to_nat ((end_ - start + slotStep - 1) / slotStep).

(** The [while (start < end)] loop of [getAvailableTimeSlots], on time
    values: push [start], then [start.setMinutes(start.getMinutes() + 30)].
    It terminates because each pass leaves one iteration fewer. *)
Equations? slotLoop (start end_ : Z) : list Z by wf (slotCount start end_) lt :=
  slotLoop start end_ with Z_lt_dec start end_ => {
    | left _ := start :: slotLoop (start + slotStep) end_;
    | right _ := [] }.
Proof.
  unfold slotCount.
  assert (0 < slotStep) as Hpos by reflexivity.
  match goal with
  | |- (_ < Z.to_nat (?x / _))%nat =>
      replace x with ((x - slotStep) + 1 * slotStep) by lia
  end.
  rewrite Z.div_add by lia.
  rewrite Z2Nat.inj_add; [|apply Z.div_pos; lia|lia].
  match goal with
  | |- (Z.to_nat (?a / _) < Z.to_nat (?b / _) + _)%nat =>
      replace a with b by lia
  end.
  simpl. lia.
Qed.

(** [getAvailableTimeSlots(doctor, date)], the specification's
    [enumerateSlots] with its step fixed at 30 minutes. *)
Definition getAvailableTimeSlots `{Js.Host} (doctor : option Doctor) (date : string)
  : Js.Completion (list string) :=
  match doctor with
  | None => Js.Normal []
  | Some doctor =>
    if negb (Js.truthy date) then Js.Normal []
    else
    match Js.toLocaleDateString_weekday (Js.Date_parse date) "long" with
    | Js.Throw e => Js.Throw e
    | Js.Normal weekday =>
      let dayOfWeek := Js.toLowerCase weekday in
      match availability doctor !! dayOfWeek with
      | None => Js.Normal []
      | Some availability =>
        if negb (available availability) then Js.Normal []
        else
        match Js.Date_parse ("2000-01-01 " ++ start availability),
              Js.Date_parse ("2000-01-01 " ++ end_ availability) with
        | Some start, Some end_ =>
            Js.Normal (map Js.toLocaleTimeString_hm12 (slotLoop start end_))
        | _, _ => Js.Normal []
        end
      end
    end
  end.

(** The two requests of [handleSubmit], which together play the part of
    the specification's [tryBook]: axios rejects on a status outside 2xx,
    so the booking request is only sent after a 200 from the availability
    check. [None] is the early return on an incomplete form. *)
Definition handleSubmit `{Js.Host} (now : Z) (db : DB) (user : User)
    (selectedDoctor : option nat) (selectedDate selectedTime reason : string)
    (appointmentType priority : string) : option Response * DB :=
  match selectedDoctor with
  | None => (None, db)
  | Some doctorId =>
    if negb (Js.truthy selectedDate && Js.truthy selectedTime
             && Js.truthy (Js.trim reason))
    then (None, db)
    else
    let availabilityCheck :=
      post_check_availability now db
        {| b_patientId := None; b_doctorId := Some doctorId;
           b_appointmentDate := Some selectedDate;
           b_appointmentTime := Some selectedTime;
           b_status := None; b_type := None; b_priority := None;
           b_reason := None |} in
    match availabilityCheck with
    | Json 200 _ =>
      let (response, db') :=
        post_appointments_patient db user
          {| b_patientId := Some (user_id user); b_doctorId := Some doctorId;
             b_appointmentDate := Some selectedDate;
             b_appointmentTime := Some selectedTime;
             b_status := None; b_type := Some appointmentType;
             b_priority := Some priority;
             b_reason := Some (Js.trim reason) |} in
      (Some response, db')
    | failure => (Some failure, db)
    end
  end.

End Client.

(** ** A reference host

  A host in the UTC zone whose [Date] parser reads the layouts the
  application builds: [YYYY-MM-DD], [YYYY-MM-DDTHH:mm] and
  [YYYY-MM-DD HH:mm]; and the same host in another zone. They instantiate
  the statements below on concrete requests. *)

Module RefHost.

Definition digitVal (c : ascii) : option Z :=
  let n := nat_of_ascii c in
  if ((48 <=? n) && (n <=? 57))%nat then Some (Z.of_nat (n - 48)) else None.

Fixpoint number (acc : Z) (s : string) : option Z :=
  match s with
  | EmptyString => Some acc
  | String c r =>
      match digitVal c with
      | Some d => number (10 * acc + d) r
      | None => None
      end
  end.

Definition field (from len : nat) (s : string) : option Z :=
  let f := String.substring from len s in
  if (String.length f =? len)%nat then number 0 f else None.

(** Days from 1970-01-01 to the civil date [y-m-d]. *)
Definition daysFromCivil (y m d : Z) : Z :=
  let y' := if m <=? 2 then y - 1 else y in
  let era := y' / 400 in
  let yoe := y' - era * 400 in
  let mp := if m >? 2 then m - 3 else m + 9 in
  let doy := (153 * mp + 2) / 5 + d - 1 in
  let doe := yoe * 365 + yoe / 4 - yoe / 100 + doy in
  era * 146097 + doe - 719468.

Definition parseDay (s : string) : option Z :=
  match field 0 4 s, String.get 4 s, field 5 2 s, String.get 7 s, field 8 2 s with
  | Some y, Some "-"%char, Some m, Some "-"%char, Some d =>
      if (1 <=? m) && (m <=? 12) && (1 <=? d) && (d <=? 31)
      then Some (daysFromCivil y m d * Js.msPerDay) else None
  | _, _, _, _, _ => None
  end.

Definition parseClock (s : string) : option Z :=
  match field 0 2 s, String.get 2 s, field 3 2 s with
  | Some h, Some ":"%char, Some m =>
      if (h <=? 23) && (m <=? 59) && (String.length s =? 5)%nat
      then Some ((60 * h + m) * Js.msPerMinute) else None
  | _, _, _ => None
  end.

Definition parse (s : string) : option Z :=
  if (String.length s =? 10)%nat then parseDay s
  else
    match parseDay (String.substring 0 10 s), String.get 10 s,
          parseClock (String.substring 11 5 s) with
    | Some d, Some c, Some t =>
        if ((String.length s =? 16)%nat
            && (Ascii.eqb c "T" || Ascii.eqb c " "))%bool
        then Some (d + t) else None
    | _, _, _ => None
    end.

#[local] Instance host : Js.Host :=
  {| Js.Date_parse := parse;
     Js.tzOffset := 0;
     Js.isISO8601 := fun s => bool_decide (is_Some (parse s)) |}.

(** The same parser on a host whose zone is [tz] minutes ahead of UTC: the
    date-only layout is read as UTC midnight, the layouts with a time as
    local time. *)
Definition parseAt (tz : Z) (s : string) : option Z :=
  if (String.length s =? 10)%nat then parseDay s
  else
    match parse s with
    | Some t => Some (t - tz * Js.msPerMinute)
    | None => None
    end.

Definition hostAt (tz : Z) : Js.Host :=
  {| Js.Date_parse := parseAt tz;
     Js.tzOffset := tz;
     Js.isISO8601 := fun s => bool_decide (is_Some (parse s)) |}.

(** New York in winter, five hours behind UTC. *)
Definition newYork : Js.Host := hostAt (-300).

End RefHost.

(** ** Concrete bills *)

Module BillingExamples.
Import Billing.

Local Open Scope float_scope.

Definition db0 : DB := {| patients := {[ 1%nat ]}; bills := ∅ |}.

Definition consultation : ItemInput :=
  {| in_description := "Consultation Fee"; in_quantity := 2;
     in_unitPrice := 50; in_total := None |}.

Definition xray : ItemInput :=
  {| in_description := "X-Ray"; in_quantity := 1; in_unitPrice := 10;
     in_total := None |}.

(** [{ items: [{quantity: 2, unitPrice: 50}], tax: 10 }], due at 1000. *)
Definition invoice : CreateBody :=
  {| c_patientId := 1; c_dueDate := 1000; c_items := [consultation];
     c_subtotal := Some 100; c_tax := Some 10; c_discount := None;
     c_totalAmount := Some 110; c_paidAmount := None; c_balance := None;
     c_status := None; c_paymentDate := None |}.

(** A discount larger than the subtotal plus the tax. *)
Definition overDiscounted : CreateBody :=
  {| c_patientId := 1; c_dueDate := 1000; c_items := [xray];
     c_subtotal := Some 10; c_tax := None; c_discount := Some 20;
     c_totalAmount := Some 0; c_paidAmount := None; c_balance := None;
     c_status := None; c_paymentDate := None |}.

(** The invoice sent with an explicit status. *)
Definition invoiceWithStatus (s : Status) (paid : option float) : CreateBody :=
  {| c_patientId := 1; c_dueDate := 1000; c_items := [consultation];
     c_subtotal := Some 100; c_tax := Some 10; c_discount := None;
     c_totalAmount := Some 110; c_paidAmount := paid; c_balance := None;
     c_status := Some s; c_paymentDate := None |}.

(** [PUT /api/billing/:id] with [{ paidAmount: p }]. *)
Definition payment (p : float) : UpdateBody :=
  {| u_patientId := None; u_dueDate := None; u_items := None;
     u_subtotal := None; u_tax := None;
     u_discount := None; u_totalAmount := None; u_paidAmount := Some p;
     u_balance := None; u_status := None; u_paymentDate := None |}.

(** [PUT /api/billing/:id] with [{ totalAmount: t }]. *)
Definition setTotal (t : float) : UpdateBody :=
  {| u_patientId := None; u_dueDate := None; u_items := None;
     u_subtotal := None; u_tax := None;
     u_discount := None; u_totalAmount := Some t; u_paidAmount := None;
     u_balance := None; u_status := None; u_paymentDate := None |}.

(** [PUT /api/billing/:id] with [{ patientId: p, paymentDate: d }]. *)
Definition reassign (p : nat) (d : Z) : UpdateBody :=
  {| u_patientId := Some p; u_dueDate := None; u_items := None;
     u_subtotal := None; u_tax := None;
     u_discount := None; u_totalAmount := None; u_paidAmount := None;
     u_balance := None; u_status := None; u_paymentDate := Some d |}.

Definition storedBill (r : Response * DB) (id : nat) : option Bill :=
  bills (snd r) !! id.

(** What the specification says of [recompute]. *)
Definition spec_derived (now : Z) (b : Bill) : Prop :=
  let b' := pre_save now b in
  subtotal b' = lineTotals (items b)
  /\ totalAmount b' = Js.max0 (subtotal b' + tax b - discount b)
  /\ balance b' = totalAmount b' - paidAmount b.

Definition spec_status (now : Z) (b : Bill) : Prop :=
  let b' := pre_save now b in
  status b' =
    if balance b' <=? 0 then paid
    else if 0 <? paidAmount b' then partial
    else if (now >? dueDate b')%Z then overdue
    else pending.

Definition spec_cancelled_kept (now : Z) (b : Bill) : Prop :=
  status b = cancelled -> status (pre_save now b) = cancelled.

(** The derived fields agree with the inputs. *)
Definition consistent (b : Bill) : Prop :=
  subtotal b = lineTotals (items b)
  /\ totalAmount b = subtotal b + tax b - discount b
  /\ balance b = totalAmount b - paidAmount b.

End BillingExamples.

(** ** Concrete doctors, users and requests *)

Module ApptExamples.
Import Appt.

Definition officeHours : DayAvailability :=
  {| start := "09:00"; end_ := "17:00"; available := true |}.

Definition weekend : DayAvailability :=
  {| start := "09:00"; end_ := "13:00"; available := false |}.

(** A day entry holding the schema's default only: no hours. *)
Definition noHours : DayAvailability :=
  {| start := "undefined"; end_ := "undefined"; available := true |}.

(** The week of the seeded doctors: 09:00 to 17:00 from Monday to Friday,
    Saturday and Sunday off. *)
Definition seedWeek : gmap string DayAvailability :=
  {[ "monday"%string := officeHours; "tuesday"%string := officeHours;
     "wednesday"%string := officeHours; "thursday"%string := officeHours;
     "friday"%string := officeHours; "saturday"%string := weekend;
     "sunday"%string := weekend ]}.

Definition drGrey : Doctor :=
  {| name := "Dr. Grey"; status := active; availability := seedWeek |}.

Definition db0 : DB :=
  {| doctors := {[ 1%nat := drGrey ]}; patients := {[ 5%nat ]};
     appointments := ∅ |}.

Definition alice : User := {| user_id := 7; role := Role.patient |}.
Definition bob : User := {| user_id := 8; role := Role.patient |}.
Definition frontDesk : User := {| user_id := 2; role := Role.receptionist |}.

(** 2030-01-07 is a Monday, 2020-01-06 a Monday in the past of [now0]. *)
Definition monday : string := "2030-01-07".
Definition lastMonday : string := "2020-01-06".
Definition now0 : Z := 1700000000000.

(** A booking request for doctor 1. *)
Definition request (date time : string) : Body :=
  {| b_patientId := None; b_doctorId := Some 1%nat;
     b_appointmentDate := Some date; b_appointmentTime := Some time;
     b_status := None; b_type := None; b_priority := None;
     b_reason := Some "checkup"%string |}.

(** The same request with [patientId] and [status] set in the body. *)
Definition withPatientStatus (body : Body) (p : option nat) (s : option string) : Body :=
  {| b_patientId := p; b_doctorId := b_doctorId body;
     b_appointmentDate := b_appointmentDate body;
     b_appointmentTime := b_appointmentTime body;
     b_status := s; b_type := b_type body; b_priority := b_priority body;
     b_reason := b_reason body |}.

(** An update that sets one field. *)
Definition noChange : Body :=
  {| b_patientId := None; b_doctorId := None; b_appointmentDate := None;
     b_appointmentTime := None; b_status := None; b_type := None;
     b_priority := None; b_reason := None |}.

Definition setStatus (s : string) : Body :=
  withPatientStatus noChange None (Some s).

Definition setTime (t : string) : Body :=
  {| b_patientId := None; b_doctorId := None; b_appointmentDate := None;
     b_appointmentTime := Some t; b_status := None; b_type := None;
     b_priority := None; b_reason := None |}.

(** The conflict check as the specification words it: a match on the exact
    tuple with a status among scheduled, confirmed and in_progress. *)
Definition spec_blocking (s : Status) : bool :=
  match s with scheduled | confirmed | in_progress => true | _ => false end.

Definition spec_checkConflict (existingAppointments : list Appointment)
    (doctorId : nat) (date : Z) (time : string) : bool :=
  existsb (fun a => sameSlot doctorId date time a && spec_blocking (a_status a))
          existingAppointments.

Definition stored (db : DB) : list Appointment :=
  map snd (map_to_list (appointments db)).

(** The document [POST /api/appointments/patient] hands to
    [Appointment.create]. *)
Definition bookedDoc (user : User) (body : Body) (d : nat) (date : Z)
    (t r : string) : Appointment :=
  {| patientId := user_id user; doctorId := d;
     appointmentDate := date; appointmentTime := t;
     a_status := scheduled;
     type_ := orDefault (b_type body) "consultation";
     priority := orDefault (b_priority body) "medium";
     reason := Js.trim r;
     cancelledBy := None; cancelledAt := None |}.

(** The document the cancel route saves. *)
Definition cancelledDoc (now : Z) (user : User) (a : Appointment) : Appointment :=
  {| patientId := patientId a; doctorId := doctorId a;
     appointmentDate := appointmentDate a;
     appointmentTime := appointmentTime a;
     a_status := cancelled;
     type_ := type_ a; priority := priority a;
     reason := reason a;
     cancelledBy := Some (user_id user); cancelledAt := Some now |}.

(** Alice's and Bob's bookings of doctor 1 on [monday]. *)
Definition mondayDate : Z := 1893974400000.

Definition aliceAt10 : Appointment :=
  bookedDoc alice (request monday "10:00") 1 mondayDate "10:00" "checkup".

Definition bobAt10 : Appointment :=
  bookedDoc bob (request monday "10:00") 1 mondayDate "10:00" "checkup".

(** 09:00 and 17:00 on 2000-01-01, as time values. *)
Definition nineAM : Z := 946717200000.
Definition fivePM : Z := 946746000000.

Definition isUpdate (op : Op) : bool :=
  match op with OpUpdate _ _ => true | _ => false end.

(** The grid the slot loop walks. *)
Definition grid (start : Z) (n : nat) : list Z :=
  map (fun k => start + Z.of_nat k * Client.slotStep) (seq 0 n).

End ApptExamples.

(** ** The handlers as one function of the operation *)

Module ApptOps.
Import Appt.

(** The response and the next store of a write operation; [step] is its
    second component. *)
Definition respond `{Js.Host} (now : Z) (db : DB) (op : Op) : Response * DB :=
  match op with
  | OpCreate body => post_appointments db body
  | OpBook user body => post_appointments_patient db user body
  | OpUpdate id body => put_appointments_id db id body
  | OpCancel user id => put_appointments_id_cancel now db user id
  | OpDelete id => delete_appointments_id db id
  end.

(** A response with [success: false]: a validator's error array or a status
    code from 400 up. *)
Definition isFailure (r : Response) : bool :=
  match r with
  | Json code _ => 400 <=? code
  | JsonErrors _ => true
  | JsonData code _ _ => 400 <=? code
  end.

End ApptOps.

(** ** Further concrete requests *)

Module BillingCases.
Import Billing.

Local Open Scope float_scope.

(** The invoice of [BillingExamples], for a patient the store does not
    know. *)
Definition strangerInvoice : CreateBody :=
  {| c_patientId := 9; c_dueDate := 1000; c_items := [BillingExamples.consultation];
     c_subtotal := Some 100; c_tax := Some 10; c_discount := None;
     c_totalAmount := Some 110; c_paidAmount := None; c_balance := None;
     c_status := None; c_paymentDate := None |}.

End BillingCases.

Module ApptCases.
Import Appt ApptExamples.

(** An update that sets none of the fields the conflict query reads:
    doctor, date, time and status. *)
Definition slotNeutral (op : Op) : bool :=
  match op with
  | OpUpdate _ body =>
      bool_decide (b_doctorId body = None)
      && bool_decide (b_appointmentDate body = None)
      && bool_decide (b_appointmentTime body = None)
      && bool_decide (b_status body = None)
  | _ => true
  end.

(** The document [POST /api/appointments] hands to [Appointment.create]. *)
Definition createdDoc (body : Body) (p d : nat) (date : Z) (t r : string)
    (st : Status) : Appointment :=
  {| patientId := p; doctorId := d;
     appointmentDate := date; appointmentTime := t;
     a_status := st;
     type_ := default "consultation"%string (b_type body);
     priority := default "medium"%string (b_priority body);
     reason := Js.trim r;
     cancelledBy := None; cancelledAt := None |}.

(** An appointment with its status replaced. *)
Definition withStatus (a : Appointment) (st : Status) : Appointment :=
  {| patientId := patientId a; doctorId := doctorId a;
     appointmentDate := appointmentDate a;
     appointmentTime := appointmentTime a;
     a_status := st;
     type_ := type_ a; priority := priority a; reason := reason a;
     cancelledBy := cancelledBy a; cancelledAt := cancelledAt a |}.

(** A store with a second doctor who is on leave, and a staff request for
    patient 5. *)
Definition drHouse : Doctor :=
  {| name := "Dr. House"; status := on_leave; availability := seedWeek |}.

Definition db1 : DB :=
  {| doctors := {[ 1%nat := drGrey; 2%nat := drHouse ]};
     patients := {[ 5%nat ]}; appointments := ∅ |}.

Definition staffRequest (doctorId : nat) (time : string) (st : option string) : Body :=
  {| b_patientId := Some 5%nat; b_doctorId := Some doctorId;
     b_appointmentDate := Some monday; b_appointmentTime := Some time;
     b_status := st; b_type := None; b_priority := None;
     b_reason := Some "follow-up"%string |}.

(** A body with its reason replaced, and a reason of 510 characters. *)
Definition withReason (body : Body) (r : string) : Body :=
  {| b_patientId := b_patientId body; b_doctorId := b_doctorId body;
     b_appointmentDate := b_appointmentDate body;
     b_appointmentTime := b_appointmentTime body;
     b_status := b_status body; b_type := b_type body;
     b_priority := b_priority body; b_reason := Some r |}.

Definition longReason : string :=
  fold_right String.append ""%string (repeat "0123456789"%string 51).

Definition setReason (r : string) : Body :=
  {| b_patientId := None; b_doctorId := None; b_appointmentDate := None;
     b_appointmentTime := None; b_status := None; b_type := None;
     b_priority := None; b_reason := Some r |}.

End ApptCases.

(** ** Routing and access control

  Express routing as the routers use it ([router.METHOD(path, ...chain)],
  first declared route that matches wins), the middleware of
  [server/middleware/auth.js], and the route tables of the five routers
  mounted by [server/server.js]. *)

Module Express.
Import Appt.

Inductive Method := GET | POST | PUT | DELETE.

#[global] Instance Method_eq_dec : EqDecision Method.
Proof. solve_decision. Defined.

(** One segment of a request path: the 24-digit hexadecimal form of an
    ObjectId, or any other non-empty text. *)
Inductive Piece := ObjectId (id : nat) | Text (s : string).

#[global] Instance Piece_eq_dec : EqDecision Piece.
Proof. solve_decision. Defined.

(** One segment of a route path: a literal word or a [:name] parameter. *)
Inductive Segment := Lit (s : string) | Param (name : string).

(** The parts of [req] the middleware reads and writes. *)
Record Request := {
  req_authorization : option string;
  req_user : option User;
  req_params : list (string * Piece)
}.

(** A middleware calls [next()] or answers with [res.status(code).json]. *)
Inductive Outcome :=
| Next (req : Request)
| Answer (code : Z) (message : string).

Definition Middleware := Request -> Outcome.

(** A route declaration; [line] is the line of its [router.METHOD] call and
    names its handler. *)
Record Route := {
  method : Method;
  pattern : list Segment;
  chain : list Middleware;
  line : nat
}.

(** [req.params.name] *)
Fixpoint param (name : string) (ps : list (string * Piece)) : option Piece :=
  match ps with
  | [] => None
  | (n, v) :: rest => if String.eqb n name then Some v else param name rest
  end.

(** Matching a path against a route path, with the parameters it binds.
    Literals are compared without regard to case (the router's default); a
    parameter takes one segment; none of the routers' literal words is the
    text of an ObjectId. *)
Fixpoint bind (pattern : list Segment) (path : list Piece)
  : option (list (string * Piece)) :=
  match pattern, path with
  | [], [] => Some []
  | Lit s :: pattern', Text x :: path' =>
      if String.eqb (Js.toLowerCase s) (Js.toLowerCase x)
      then bind pattern' path' else None
  | Param name :: pattern', x :: path' =>
      match bind pattern' path' with
      | Some ps => Some ((name, x) :: ps)
      | None => None
      end
  | _, _ => None
  end.

(** The first route, in declaration order, of that method whose path
    matches. *)
Fixpoint dispatch (router : list Route) (m : Method) (path : list Piece)
  : option (Route * list (string * Piece)) :=
  match router with
  | [] => None
  | r :: rest =>
      if bool_decide (method r = m)
      then match bind (pattern r) path with
           | Some ps => Some (r, ps)
           | None => dispatch rest m path
           end
      else dispatch rest m path
  end.

(** The middleware of a route, in order, until one answers. *)
Fixpoint through (chain : list Middleware) (req : Request) : Outcome :=
  match chain with
  | [] => Next req
  | middleware :: rest =>
      match middleware req with
      | Next req' => through rest req'
      | Answer code message => Answer code message
      end
  end.

(** Where a request ends: at the handler of a route, with the request its
    middleware left, or at an answer given before any handler. A path no
    route matches falls to the application's 404 handler. *)
Inductive Served :=
| Reached (line : nat) (req : Request)
| Answered (code : Z) (message : string).

Definition serve (router : list Route) (m : Method) (path : list Piece)
    (authorization : option string) : Served :=
  match dispatch router m path with
  | None => Answered 404 "Route not found"
  | Some (r, ps) =>
      match through (chain r)
              {| req_authorization := authorization; req_user := None;
                 req_params := ps |} with
      | Next req => Reached (line r) req
      | Answer code message => Answered code message
      end
  end.

End Express.

Module Auth.
Import Appt Express.

(** A user document as [protect] reads it. *)
Record Account := {
  account_role : Role.t;
  isActive : bool
}.

(** What [protect] consults: [jwt.verify(token, secret)] as the id it
    decodes ([None] when it throws) and the users collection. *)
Record Session := {
  jwt_verify : string -> option nat;
  accounts : gmap nat Account
}.

(** [s.split(sep)] for a one-character separator. *)
Fixpoint split (sep : ascii) (s : string) : list string :=
  match s with
  | EmptyString => [EmptyString]
  | String c r =>
      if Ascii.eqb c sep then EmptyString :: split sep r
      else match split sep r with
           | x :: xs => String c x :: xs
           | [] => [String c EmptyString]
           end
  end.

(** [protect]. A header that starts with [Bearer] but carries no second
    word makes [jwt.verify(undefined)] throw. *)
Definition protect (s : Session) : Middleware := fun req =>
  match req_authorization req with
  | Some authorization =>
    if Js.truthy authorization && String.prefix "Bearer" authorization
    then
      match nth_error (split " " authorization) 1 with
      | None => Answer 401 "Not authorized, token failed"
      | Some token =>
        match jwt_verify s token with
        | None => Answer 401 "Not authorized, token failed"
        | Some id =>
          match accounts s !! id with
          | None => Answer 401 "User not found"
          | Some account =>
            if negb (isActive account)
            then Answer 401 "User account is deactivated"
            else Next {| req_authorization := req_authorization req;
                         req_user := Some {| user_id := id;
                                             role := account_role account |};
                         req_params := req_params req |}
          end
        end
      end
    else Answer 401 "Not authorized, no token"
  | None => Answer 401 "Not authorized, no token"
  end.

Definition roleName (r : Role.t) : string :=
  match r with
  | Role.admin => "admin"
  | Role.doctor => "doctor"
  | Role.receptionist => "receptionist"
  | Role.patient => "patient"
  end.

(** [roles.includes(role)] *)
Definition includes (roles : list Role.t) (r : Role.t) : bool :=
  bool_decide (r ∈ roles).

(** [authorize(...roles)] *)
Definition authorize (roles : list Role.t) : Middleware := fun req =>
  match req_user req with
  | None => Answer 401 "User not authenticated"
  | Some user =>
    if negb (includes roles (role user))
    then Answer 403 ("User role '" ++ roleName (role user)
                     ++ "' is not authorized to access this route")
    else Next req
  end.

Definition requireAdmin : Middleware := authorize [Role.admin].
Definition requireDoctor : Middleware := authorize [Role.admin; Role.doctor].
Definition requireReceptionist : Middleware :=
  authorize [Role.admin; Role.receptionist].
Definition requireStaff : Middleware :=
  authorize [Role.admin; Role.doctor; Role.receptionist].
Definition requirePatient : Middleware :=
  authorize [Role.admin; Role.doctor; Role.receptionist; Role.patient].

(** [protectPatientOrStaff]; without [req.user] the read of
    [req.user.role] throws and the [catch] answers 401. *)
Definition protectPatientOrStaff : Middleware := fun req =>
  match req_user req with
  | None => Answer 401 "Not authorized"
  | Some user =>
    if includes [Role.admin; Role.doctor; Role.receptionist] (role user)
    then Next req
    else if bool_decide (role user = Role.patient)
            && bool_decide (param "id" (req_params req)
                            = Some (ObjectId (user_id user)))
    then Next req
    else Answer 403 "Not authorized"
  end.

End Auth.

(** The route tables, in declaration order; the validator arrays of a
    chain always call [next()] and are left out. *)
Module Routers.
Import Express Auth.

(** [server/routes/appointments.js] *)
Definition appointmentRoutes (s : Session) : list Route :=
  [ {| method := GET; pattern := [];
       chain := [protect s; requireStaff]; line := 13 |};
    {| method := GET; pattern := [Param "id"];
       chain := [protect s; requireStaff]; line := 92 |};
    {| method := GET; pattern := [Lit "patient"; Param "patientId"];
       chain := [protect s]; line := 121 |};
    {| method := POST; pattern := [Lit "check-availability"];
       chain := [protect s]; line := 173 |};
    {| method := POST; pattern := [Lit "patient"];
       chain := [protect s]; line := 263 |};
    {| method := POST; pattern := [];
       chain := [protect s; requireStaff]; line := 349 |};
    {| method := PUT; pattern := [Param "id"];
       chain := [protect s; requireStaff]; line := 425 |};
    {| method := DELETE; pattern := [Param "id"];
       chain := [protect s; requireStaff]; line := 468 |};
    {| method := PUT; pattern := [Param "id"; Lit "cancel"];
       chain := [protect s]; line := 495 |};
    {| method := GET; pattern := [Lit "upcoming"; Param "patientId"];
       chain := [protect s]; line := 548 |};
    {| method := GET; pattern := [Lit "stats"; Lit "overview"];
       chain := [protect s; requireStaff]; line := 587 |} ].

(** [server/routes/patients.js] *)
Definition patientRoutes (s : Session) : list Route :=
  [ {| method := GET; pattern := [];
       chain := [protect s; requireStaff]; line := 11 |};
    {| method := GET; pattern := [Param "id"];
       chain := [protect s; protectPatientOrStaff]; line := 64 |};
    {| method := POST; pattern := [];
       chain := [protect s; requireStaff]; line := 92 |};
    {| method := PUT; pattern := [Param "id"];
       chain := [protect s; requireStaff]; line := 127 |};
    {| method := DELETE; pattern := [Param "id"];
       chain := [protect s; requireStaff]; line := 170 |};
    {| method := GET; pattern := [Lit "stats"; Lit "overview"];
       chain := [protect s; requireStaff]; line := 197 |};
    {| method := GET; pattern := [Lit "profile"];
       chain := [protect s]; line := 247 |} ].

(** [server/routes/doctors.js] *)
Definition doctorRoutes (s : Session) : list Route :=
  [ {| method := GET; pattern := [Lit "available"];
       chain := []; line := 11 |};
    {| method := GET; pattern := [];
       chain := [protect s; requireStaff]; line := 81 |};
    {| method := GET; pattern := [Param "id"];
       chain := [protect s; requireStaff]; line := 138 |};
    {| method := POST; pattern := [];
       chain := [protect s; requireStaff]; line := 165 |};
    {| method := PUT; pattern := [Param "id"];
       chain := [protect s; requireStaff]; line := 201 |};
    {| method := DELETE; pattern := [Param "id"];
       chain := [protect s; requireStaff]; line := 243 |};
    {| method := GET; pattern := [Lit "stats"; Lit "overview"];
       chain := [protect s; requireStaff]; line := 270 |} ].

(** [server/routes/billing.js] *)
Definition billingRoutes (s : Session) : list Route :=
  [ {| method := GET; pattern := [];
       chain := [protect s; protectPatientOrStaff]; line := 12 |};
    {| method := GET; pattern := [Param "id"];
       chain := [protect s; requireStaff]; line := 82 |};
    {| method := POST; pattern := [];
       chain := [protect s; requireStaff]; line := 112 |};
    {| method := PUT; pattern := [Param "id"];
       chain := [protect s; requireStaff]; line := 180 |};
    {| method := DELETE; pattern := [Param "id"];
       chain := [protect s; requireStaff]; line := 233 |};
    {| method := GET; pattern := [Lit "stats"; Lit "overview"];
       chain := [protect s; requireStaff]; line := 260 |} ].

(** [server/routes/dashboard.js] *)
Definition dashboardRoutes (s : Session) : list Route :=
  [ {| method := GET; pattern := [Lit "stats"];
       chain := [protect s; requireAdmin]; line := 13 |} ].

(** The [app.use('/api/<name>', router)] lines of [server/server.js] for
    the routers above. *)
Definition mounted (s : Session) : list (string * list Route) :=
  [ ("patients"%string, patientRoutes s);
    ("dashboard"%string, dashboardRoutes s);
    ("doctors"%string, doctorRoutes s);
    ("appointments"%string, appointmentRoutes s);
    ("billing"%string, billingRoutes s) ].

Fixpoint router (name : string) (mounts : list (string * list Route))
  : option (list Route) :=
  match mounts with
  | [] => None
  | (n, r) :: rest =>
      if String.eqb n (Js.toLowerCase name) then Some r else router name rest
  end.

(** A request to [/api/<name>/...] for one of the five routers; [None] for
    a path under another mount point. *)
Definition app (s : Session) (m : Method) (path : list Piece)
    (authorization : option string) : option Served :=
  match path with
  | Text api :: Text name :: rest =>
      if String.eqb (Js.toLowerCase api) "api"
      then match router name (mounted s) with
           | Some r => Some (serve r m rest authorization)
           | None => None
           end
      else None
  | _ => None
  end.

(** A path that matches the route path: its literals, and ObjectId 0 for
    each parameter. *)
Definition sample (pattern : list Segment) : list Piece :=
  map (fun seg => match seg with
                  | Lit s => Text s
                  | Param _ => ObjectId 0
                  end) pattern.

(** The one route that is declared behind a route matching all its paths:
    [GET /profile] of the patient router. *)
Definition shadowed (name : string) (r : Route) : bool :=
  String.eqb name "patients" && (line r =? 247)%nat.

(** The route is the one its own sample path is dispatched to. *)
Definition reachable (router : list Route) (r : Route) : bool :=
  match dispatch router (method r) (sample (pattern r)) with
  | Some (r', _) => (line r' =? line r)%nat
  | None => false
  end.

End Routers.

(** The write requests of the appointment router, from the request line to
    the store. *)
Module ApptApi.
Import Appt Express Auth Routers ApptOps.

(** Method and path, below [/api/appointments], of a write operation. *)
Definition target (op : Op) : Method * list Piece :=
  match op with
  | OpCreate _ => (POST, [])
  | OpBook _ _ => (POST, [Text "patient"])
  | OpUpdate id _ => (PUT, [ObjectId id])
  | OpCancel _ id => (PUT, [ObjectId id; Text "cancel"])
  | OpDelete id => (DELETE, [ObjectId id])
  end.

(** The line of the route that declares the operation's handler. *)
Definition handlerLine (op : Op) : nat :=
  match op with
  | OpCreate _ => 349
  | OpBook _ _ => 263
  | OpUpdate _ _ => 425
  | OpCancel _ _ => 495
  | OpDelete _ => 468
  end.

(** The operation with [req.user] as its caller. *)
Definition asCaller (user : User) (op : Op) : Op :=
  match op with
  | OpBook _ body => OpBook user body
  | OpCancel _ id => OpCancel user id
  | other => other
  end.

(** A write request sent with an [Authorization] header: the router's
    middleware first, then the handler with the user [protect] has set.
    A handler that reads [req.user] without one throws, which its [catch]
    reports as a 500. *)
Definition serveWrite `{Js.Host} (s : Session) (now : Z) (db : DB)
    (authorization : option string) (op : Op) : Response * DB :=
  match serve (appointmentRoutes s) (fst (target op)) (snd (target op))
          authorization with
  | Answered code message => (Json code message, db)
  | Reached _ req =>
      match req_user req, op with
      | Some user, _ => respond now db (asCaller user op)
      | None, OpBook _ _ => (Json 500 "Server error while booking appointment", db)
      | None, OpCancel _ _ =>
          (Json 500 "Server error while cancelling appointment", db)
      | None, _ => respond now db op
      end
  end.

Definition serveWrites `{Js.Host} (s : Session) (now : Z) (db : DB)
    (calls : list (option string * Op)) : DB :=
  fold_left (fun db call => snd (serveWrite s now db (fst call) (snd call))) calls db.

(** The user a header authenticates, if any. *)
Definition caller (s : Session) (authorization : option string) : option User :=
  match protect s {| req_authorization := authorization; req_user := None;
                     req_params := [] |} with
  | Next req => req_user req
  | Answer _ _ => None
  end.

End ApptApi.

(** ** [GET /api/doctors/available] *)

Module DoctorsApi.
Import Appt.

(** Lines 46-54: the date filter on the doctors the query returned; an
    absent or empty [date] leaves the list as it is. *)
Definition availableDoctors `{Js.Host} (doctors : list Doctor) (date : option string)
  : Js.Completion (list Doctor) :=
  match date with
  | None => Js.Normal doctors
  | Some date =>
    if negb (Js.truthy date) then Js.Normal doctors
    else
    match Js.toLocaleDateString_weekday (Js.Date_parse date) "long" with
    | Js.Throw e => Js.Throw e
    | Js.Normal weekday =>
      let dayOfWeek := Js.toLowerCase weekday in
      Js.Normal
        (List.filter
           (fun doctor =>
              let dayAvailability := availability doctor !! dayOfWeek in
              match dayAvailability with
              | Some day => available day
              | None => false
              end)
           doctors)
    end
  end.

End DoctorsApi.

(** ** Paginated listings

  The listing handlers of the patient, doctor, billing and appointment
  routers share these lines. *)

Module Paging.

(** [parseInt(req.query.x) || d], from the result of [parseInt] ([None] is
    NaN): NaN and 0 give the default. *)
Definition orDefault (n : option Z) (d : Z) : Z :=
  match n with
  | Some v => if v =? 0 then d else v
  | None => d
  end.

(** [Math.ceil(total / limit)] for a non-zero [limit]. *)
Definition ceilDiv (total limit : Z) : Z := - ((- total) / limit).

(** [find(query).sort(..).skip(skip).limit(limit)] on the matching
    documents in sort order. The server rejects a negative [skip]
    ([None]); a [limit] of 0 is no limit and a negative one is taken by its
    absolute value. *)
Definition skipLimit {A} (matching : list A) (skip limit : Z) : option (list A) :=
  if skip <? 0 then None
  else
    let rest := drop (Z.to_nat skip) matching in
    Some (if limit =? 0 then rest else take (Z.to_nat (Z.abs limit)) rest).

Record Page (A : Type) := {
  data : list A;
  page : Z;
  limit : Z;
  total : Z;
  pages : Z
}.
Arguments data {A}.
Arguments page {A}.
Arguments limit {A}.
Arguments total {A}.
Arguments pages {A}.

(** The listing handler, from the parsed [page] and [limit] query
    parameters; [None] is the 500 of its [catch]. *)
Definition listing {A} (matching : list A) (query_page query_limit : option Z)
  : option (Page A) :=
  let page := orDefault query_page 1 in
  let limit := orDefault query_limit 10 in
  let skip := (page - 1) * limit in
  match skipLimit matching skip limit with
  | None => None
  | Some docs =>
      let total := Z.of_nat (length matching) in
      Some {| data := docs; page := page; limit := limit; total := total;
              pages := ceilDiv total limit |}
  end.

(** The documents of page [p], nothing when the request fails. *)
Definition pageData {A} (matching : list A) (limit p : Z) : list A :=
  match listing matching (Some p) (Some limit) with
  | Some pg => data pg
  | None => []
  end.

End Paging.

(** ** Statistics *)

Module Stats.
Import Billing.

#[global] Instance BillStatus_eq_dec : EqDecision Status.
Proof. solve_decision. Defined.

Definition documents (db : DB) : list Bill := map snd (map_to_list (bills db)).

(** [Billing.countDocuments({ status })] *)
Definition countStatus (st : Status) (db : DB) : Z :=
  Z.of_nat (length (List.filter (fun b => bool_decide (status b = st)) (documents db))).

(** The four counts of [GET /api/billing/stats/overview], lines 262-265. *)
Record Overview := {
  totalBills : Z;
  pendingBills : Z;
  paidBills : Z;
  overdueBills : Z
}.

Definition overview (db : DB) : Overview :=
  {| totalBills := Z.of_nat (length (documents db));
     pendingBills := countStatus pending db;
     paidBills := countStatus paid db;
     overdueBills := countStatus overdue db |}.

(** The numeric top-level paths of a stored bill; [billingSchema] has no
    other, and strict mode stores no path outside the schema. *)
Definition numericPath (path : string) (b : Bill) : option float :=
  if String.eqb path "subtotal" then Some (subtotal b)
  else if String.eqb path "tax" then Some (tax b)
  else if String.eqb path "discount" then Some (discount b)
  else if String.eqb path "totalAmount" then Some (totalAmount b)
  else if String.eqb path "paidAmount" then Some (paidAmount b)
  else if String.eqb path "balance" then Some (balance b)
  else None.

(** [{ $sum: <expression> }] in a [$group]: the numbers the expression
    yields are added up, here in document order; a document on which it is
    not a number adds nothing, and with no number at all the sum is 0,
    which is the one case the statements below rest on. *)
Definition sum (expression : Bill -> option float) (docs : list Bill) : float :=
  fold_left PrimFloat.add (omap expression docs) 0%float.

(** [GET /api/dashboard/stats], lines 25-32: the revenue figure. *)
Definition dashboardRevenue (db : DB) : float :=
  let matched := List.filter (fun b => bool_decide (status b = paid)) (documents db) in
  match matched with
  | [] => 0%float
  | docs => sum (numericPath "total") docs
  end.

End Stats.

(** ** Client navigation ([Layout.jsx]) and page guards ([App.jsx]) *)

Module Nav.

Record Item := {
  name : string;
  href : string
}.

Definition navigation : list Item :=
  [ {| name := "Dashboard"; href := "/dashboard" |};
    {| name := "Patients"; href := "/patients" |};
    {| name := "Doctors"; href := "/doctors" |};
    {| name := "Appointments"; href := "/appointments" |};
    {| name := "Book Appointment"; href := "/book-appointment" |};
    {| name := "Billing"; href := "/billing" |} ].

Definition named (names : list string) (item : Item) : bool :=
  existsb (String.eqb (name item)) names.

(** [getNavigationByRole(user?.role)]; [None] is any value that is not one
    of the four role names. *)
Definition getNavigationByRole (role : option Appt.Role.t) : list Item :=
  match role with
  | Some Appt.Role.admin => navigation
  | Some Appt.Role.doctor =>
      List.filter (named ["Dashboard"; "Patients"; "Appointments"]%string) navigation
  | Some Appt.Role.receptionist =>
      List.filter (named ["Dashboard"; "Patients"; "Doctors"; "Appointments";
                          "Billing"]%string) navigation
  | Some Appt.Role.patient =>
      List.filter (named ["Dashboard"; "Appointments"; "Book Appointment"]%string)
        navigation
  | None => take 1 navigation
  end.

Inductive Element :=
| Children
| Navigate (to : string)
| LoadingSpinner.

(** [ProtectedRoute] *)
Definition ProtectedRoute (loading isAuthenticated : bool)
    (role : option Appt.Role.t) (allowedRoles : list Appt.Role.t) : Element :=
  if loading then LoadingSpinner
  else if negb isAuthenticated then Navigate "/login"
  else if (0 <? Z.of_nat (length allowedRoles))
          && negb (match role with
                   | Some r => bool_decide (r ∈ allowedRoles)
                   | None => false
                   end)
  then Navigate "/dashboard"
  else Children.

(** The pages nested under the layout route, with the [allowedRoles] of
    their own [ProtectedRoute] ([None]: the page is not wrapped). *)
Definition routes : list (string * option (list Appt.Role.t)) :=
  [ ("/dashboard"%string, None);
    ("/patients"%string,
     Some [Appt.Role.admin; Appt.Role.doctor; Appt.Role.receptionist]);
    ("/doctors"%string, Some [Appt.Role.admin; Appt.Role.receptionist]);
    ("/appointments"%string,
     Some [Appt.Role.admin; Appt.Role.doctor; Appt.Role.receptionist;
           Appt.Role.patient]);
    ("/book-appointment"%string, Some [Appt.Role.patient]);
    ("/billing"%string, Some [Appt.Role.admin; Appt.Role.receptionist]) ].

Fixpoint page (path : string) (table : list (string * option (list Appt.Role.t)))
  : option (option (list Appt.Role.t)) :=
  match table with
  | [] => None
  | (p, allowed) :: rest => if String.eqb p path then Some allowed else page path rest
  end.

(** What an authenticated user of that role gets at [path]: the layout's
    [ProtectedRoute] without roles, then the page's own; an unknown path is
    sent to the dashboard by the catch-all route. *)
Definition visit (role : option Appt.Role.t) (path : string) : Element :=
  match ProtectedRoute false true role [] with
  | Children =>
      match page path routes with
      | Some (Some allowedRoles) => ProtectedRoute false true role allowedRoles
      | Some None => Children
      | None => Navigate "/dashboard"
      end
  | other => other
  end.

End Nav.

(** ** A reference session and further requests *)

Module AuthCases.
Import Appt Express Auth.

(** Tokens are the decimal id; accounts 1 (admin), 2 (the receptionist
    [frontDesk]), 7 and 8 (the patients [alice] and [bob]), 9 (a
    deactivated doctor). *)
Definition session : Session :=
  {| jwt_verify := fun token =>
       match RefHost.number 0 token with
       | Some n => if Js.truthy token then Some (Z.to_nat n) else None
       | None => None
       end;
     accounts :=
       {[ 1%nat := {| account_role := Role.admin; isActive := true |};
          2%nat := {| account_role := Role.receptionist; isActive := true |};
          7%nat := {| account_role := Role.patient; isActive := true |};
          8%nat := {| account_role := Role.patient; isActive := true |};
          9%nat := {| account_role := Role.doctor; isActive := false |} ]} |}.

Definition bearer (token : string) : option string := Some ("Bearer " ++ token)%string.

(** The request an authenticated user makes on a route with parameters
    [ps]. *)
Definition requestOf (u : User) (ps : list (string * Piece)) : Request :=
  {| req_authorization := None; req_user := Some u; req_params := ps |}.

End AuthCases.

Module NumberFacts.

Local Open Scope float_scope.

Lemma zero_SF : Prim2SF 0 = S754_zero false.
Proof. vm_compute. reflexivity. Qed.

(** Two doubles that [Leibniz.eqb] tells apart are different. *)
Lemma float_neq (x y : float) : Leibniz.eqb x y = false -> x <> y.
Proof.
  intros Hne Heq. apply FloatAxioms.Leibniz.eqb_spec in Heq. congruence.
Qed.

Lemma lt_not_le (x : float) : Js.lt 0 x -> ~ Js.le x 0.
Proof.
  unfold Js.lt, Js.le. rewrite ltb_spec, leb_spec, zero_SF.
  destruct (Prim2SF x) as [s|s| |s m e]; try destruct s; cbn; congruence.
Qed.

Lemma le_not_lt (x : float) : Js.le x 0 -> ~ Js.lt 0 x.
Proof. intros Hle Hlt. exact (lt_not_le x Hlt Hle). Qed.

(** A negative number fails [isFloat({ min: 0 })] and [min: 0]. *)
Lemma negative_min0 (x : float) : Js.lt x 0 -> Js.min0 x = false.
Proof.
  unfold Js.lt, Js.min0. rewrite ltb_spec, leb_spec, zero_SF.
  destruct (Prim2SF x) as [s|s| |s m e]; try destruct s; cbn; congruence.
Qed.

Lemma negative_isFloat_min0 (x : float) : Js.lt x 0 -> Js.isFloat_min0 x = false.
Proof.
  intros H. unfold Js.isFloat_min0. fold (Js.min0 x).
  rewrite (negative_min0 x H). apply andb_false_r.
Qed.

Lemma isFloat_min0_min0 (x : float) : Js.isFloat_min0 x = true -> Js.min0 x = true.
Proof. unfold Js.isFloat_min0, Js.min0. now intros [_ H]%andb_true_iff. Qed.

(** [x > 0] makes [x && x > 0] true. *)
Lemma positive_truthy (x : float) : Js.lt 0 x -> Js.truthyNumber x = true.
Proof.
  unfold Js.lt, Js.truthyNumber.
  rewrite ltb_spec, !FloatAxioms.eqb_spec, zero_SF.
  destruct (Prim2SF x) as [s|s| |s m e]; try destruct s; cbn; try congruence;
    intros _; unfold SFeqb, SFcompare;
    rewrite ?Z.compare_refl, ?Pos.compare_refl, ?Pos.compare_cont_refl;
    reflexivity.
Qed.

End NumberFacts.

(** ** Billing: theorems *)

Module BillingFacts.
Import Billing BillingExamples NumberFacts.

Local Open Scope float_scope.

(** Closes a goal whose hypothesis [H] equates two different doubles. *)
Ltac float_absurd H :=
  vm_compute in H;
  match type of H with
  | ?x = ?y => exact (float_neq x y eq_refl H)
  end.

Lemma totals_from (its : list Item) (acc : float) :
  Forall (fun i => total i = quantity i * unitPrice i) its ->
  fold_left (fun sum i => sum + total i) its acc
  = fold_left (fun sum i => sum + quantity i * unitPrice i) its acc.
Proof.
  intros Hall. revert acc.
  induction Hall as [|i its Hi _ IH]; intros acc; simpl; [reflexivity|].
  rewrite Hi. apply IH.
Qed.

Lemma storedTotals_lineTotals (its : list Item) :
  Forall (fun i => total i = quantity i * unitPrice i) its ->
  storedTotals its = lineTotals its.
Proof. apply totals_from. Qed.

Lemma calculatedItems_totals (its : list ItemInput) :
  Forall (fun i => total i = quantity i * unitPrice i) (calculatedItems its).
Proof.
  unfold calculatedItems. induction its; simpl; constructor; auto.
Qed.

Lemma pre_save_subtotal now b : subtotal (pre_save now b) = storedTotals (items b).
Proof. reflexivity. Qed.

Lemma pre_save_totalAmount now b :
  totalAmount (pre_save now b) = subtotal (pre_save now b) + tax b - discount b.
Proof. reflexivity. Qed.

Lemma pre_save_balance now b :
  balance (pre_save now b) = totalAmount (pre_save now b) - paidAmount b.
Proof. reflexivity. Qed.

Lemma pre_save_status now b :
  status (pre_save now b) =
    if balance (pre_save now b) <=? 0 then paid
    else if 0 <? paidAmount b then partial
    else if (now >? dueDate b)%Z then overdue
    else status b.
Proof. reflexivity. Qed.

(** The hook only rewrites the derived fields. *)
Lemma pre_save_inputs now b :
  items (pre_save now b) = items b /\ tax (pre_save now b) = tax b
  /\ discount (pre_save now b) = discount b
  /\ paidAmount (pre_save now b) = paidAmount b
  /\ dueDate (pre_save now b) = dueDate b.
Proof. repeat split. Qed.

(** The hook's three assignments, in the doubles' arithmetic: [subtotal] is
    the sum of the items' stored [total] fields, which is the sum of
    quantity x unitPrice when each [total] is that product, as for the
    items built by [POST /api/billing]. *)
Lemma pre_save_derived_fields (now : Z) (b : Bill) :
  let b' := pre_save now b in
  subtotal b' = storedTotals (items b)
  /\ (Forall (fun i => total i = quantity i * unitPrice i) (items b) ->
      subtotal b' = lineTotals (items b))
  /\ (forall its, items b = calculatedItems its ->
      subtotal b' = lineTotals (items b))
  /\ totalAmount b' = subtotal b' + tax b - discount b
  /\ balance b' = totalAmount b' - paidAmount b.
Proof.
  cbv zeta. split; [reflexivity|]. split.
  { intros Hall. rewrite pre_save_subtotal. now apply storedTotals_lineTotals. }
  split; [|split; reflexivity].
  intros its Hits. rewrite pre_save_subtotal, Hits.
  apply storedTotals_lineTotals, calculatedItems_totals.
Qed.

(** An update that sends only a payment leaves every derived field as it
    was stored. *)
Lemma put_payment_keeps_derived now db id b p :
  bills db !! id = Some b -> Js.isFloat_min0 p = true ->
  exists b', fst (put_billing_id now db id (payment p)) = Ok b'
    /\ bills (snd (put_billing_id now db id (payment p))) !! id = Some b'
    /\ paidAmount b' = p
    /\ subtotal b' = subtotal b /\ totalAmount b' = totalAmount b
    /\ balance b' = balance b /\ status b' = status b.
Proof.
  intros Hb Hp. unfold put_billing_id, findByIdAndUpdate, updateValid.
  cbn [payment u_paidAmount u_items u_subtotal u_tax u_discount u_totalAmount
       optionalIsFloat_min0 optMin0].
  rewrite Hp, (isFloat_min0_min0 p Hp). cbn [negb andb]. rewrite Hb.
  eexists. split; [reflexivity|]. split; [apply lookup_insert_eq|].
  repeat split.
Qed.


(** C1 (evaluation at the failing input): [POST /api/billing] with one item
    of 10, no tax and a discount of 20 is answered 201, and the bill it
    stores has [totalAmount = -10] (and a balance of -10, status [paid])
    where the clamp of the specification gives 0. The request's document
    passes the schema, whose validators run before the hook; the stored
    document does not: [totalAmount] has [min: 0], and the same total sent
    to [PUT /api/billing/:id] is refused. *)
Theorem C1_negative_total_is_stored :
  let created := post_billing 0 db0 overDiscounted in
  exists b doc,
    fst created = Created 0 b /\ storedBill created 0 = Some b
    /\ schemaDoc overDiscounted = Some doc /\ schemaValid doc = true
    /\ b = pre_save 0 doc
    /\ subtotal b = 10 /\ tax b = 0 /\ discount b = 20
    /\ totalAmount b = -10 /\ balance b = -10 /\ status b = paid
    /\ Js.max0 (subtotal b + tax b - discount b) = 0
    /\ ~ spec_derived 0 doc
    /\ Js.min0 (totalAmount b) = false /\ schemaValid b = false
    /\ put_billing_id 0 (snd created) 0 (setTotal (-10))
       = (ServerError, snd created).
Proof.
  cbv zeta. eexists; eexists.
  split; [vm_compute; reflexivity|]. split; [vm_compute; reflexivity|].
  split; [reflexivity|]. split; [vm_compute; reflexivity|].
  split; [reflexivity|].
  split; [vm_compute; reflexivity|]. split; [reflexivity|].
  split; [reflexivity|].
  split; [vm_compute; reflexivity|]. split; [vm_compute; reflexivity|].
  split; [vm_compute; reflexivity|]. split; [vm_compute; reflexivity|].
  split.
  { intros (_ & H & _). float_absurd H. }
  split; [vm_compute; reflexivity|]. split; [vm_compute; reflexivity|].
  vm_compute. reflexivity.
Qed.

(** C2, as stated, fails: an unpaid invoice sent with status [overdue] and
    not yet due matches none of the three rules and keeps [overdue]; it is
    not reset to [pending]. *)
Lemma C2_fallthrough_keeps_status :
  exists b doc, fst (post_billing 0 db0 (invoiceWithStatus overdue None)) = Created 0 b
    /\ schemaDoc (invoiceWithStatus overdue None) = Some doc
    /\ b = pre_save 0 doc
    /\ Js.lt 0 (balance b) /\ paidAmount b = 0 /\ (0 <= dueDate b)%Z
    /\ status b = overdue
    /\ ~ spec_status 0 doc.
Proof.
  eexists; eexists. split; [vm_compute; reflexivity|].
  split; [reflexivity|]. split; [reflexivity|].
  split; [vm_compute; reflexivity|]. split; [reflexivity|].
  split; [discriminate|]. split; [vm_compute; reflexivity|].
  intros H. vm_compute in H. discriminate.
Qed.

(** C2 (amended): after [pre_save] has recomputed the derived fields the
    status is [paid] when balance <= 0; else [partial] when paidAmount > 0;
    else [overdue] when the current time is past dueDate; otherwise the
    status is left as it was, which is [pending] for a document built from
    a request that sent no status. The comparisons are those of doubles:
    "else" is the failure of the test before it, which for a balance or a
    payment that is not a number is neither [0 < balance] nor
    [paidAmount <= 0]. *)
Theorem C2_status_first_match (now : Z) (b : Bill) :
  let b' := pre_save now b in
  (Js.le (balance b') 0 -> status b' = paid)
  /\ (~ Js.le (balance b') 0 -> Js.lt 0 (paidAmount b) -> status b' = partial)
  /\ (~ Js.le (balance b') 0 -> ~ Js.lt 0 (paidAmount b) -> (dueDate b < now)%Z ->
      status b' = overdue)
  /\ (~ Js.le (balance b') 0 -> ~ Js.lt 0 (paidAmount b) -> (now <= dueDate b)%Z ->
      status b' = status b)
  /\ (forall body, schemaDoc body = Some b -> c_status body = None ->
      status b = pending).
Proof.
  cbv zeta. rewrite pre_save_status. unfold Js.le, Js.lt.
  repeat split.
  - intros H. now rewrite H.
  - intros H1 H2. destruct (_ <=? 0); [now destruct H1|]. now rewrite H2.
  - intros H1 H2 H3. destruct (_ <=? 0); [now destruct H1|].
    destruct (0 <? _); [now destruct H2|].
    destruct (Z.gtb_spec now (dueDate b)); [reflexivity|lia].
  - intros H1 H2 H3. destruct (_ <=? 0); [now destruct H1|].
    destruct (0 <? _); [now destruct H2|].
    destruct (Z.gtb_spec now (dueDate b)); [lia|reflexivity].
  - intros body Hdoc Hst. unfold schemaDoc in Hdoc.
    destruct (c_subtotal body), (c_totalAmount body); try discriminate.
    injection Hdoc as <-. simpl. now rewrite Hst.
Qed.

(** The invoice fully paid, half paid, unpaid after the due date and unpaid
    before it. *)
Lemma C2_status_first_match_witness :
  exists paidBill partialBill lateBill freshBill,
    schemaDoc (invoiceWithStatus pending (Some 110)) = Some paidBill
    /\ status (pre_save 0 paidBill) = paid
    /\ schemaDoc (invoiceWithStatus pending (Some 50)) = Some partialBill
    /\ status (pre_save 0 partialBill) = partial
    /\ schemaDoc invoice = Some lateBill
    /\ status (pre_save 2000 lateBill) = overdue
    /\ schemaDoc invoice = Some freshBill
    /\ status (pre_save 0 freshBill) = status freshBill
    /\ status freshBill = pending.
Proof.
  do 4 eexists.
  split; [reflexivity|].
  split; [apply C2_status_first_match; vm_compute; reflexivity|].
  split; [reflexivity|].
  split; [apply C2_status_first_match; vm_compute; (reflexivity || discriminate)|].
  split; [reflexivity|].
  split; [apply C2_status_first_match; vm_compute; (reflexivity || discriminate)|].
  split; [reflexivity|].
  split; [apply C2_status_first_match; vm_compute; (reflexivity || discriminate)|].
  match goal with |- status ?b = pending =>
    destruct (C2_status_first_match 0 b) as (_ & _ & _ & _ & H)
  end.
  apply (H invoice); reflexivity.
Defined.

(** C3, as stated, fails: an invoice sent as [cancelled] and fully paid is
    stored as [paid]. *)
Lemma C3_cancelled_is_overwritten :
  exists b doc,
    fst (post_billing 0 db0 (invoiceWithStatus cancelled (Some 110))) = Created 0 b
    /\ schemaDoc (invoiceWithStatus cancelled (Some 110)) = Some doc
    /\ b = pre_save 0 doc
    /\ status doc = cancelled /\ status b = paid
    /\ ~ spec_cancelled_kept 0 doc.
Proof.
  eexists; eexists. split; [vm_compute; reflexivity|].
  split; [reflexivity|]. split; [reflexivity|].
  split; [reflexivity|]. split; [vm_compute; reflexivity|].
  intros H. specialize (H eq_refl). vm_compute in H. discriminate.
Qed.

(** C3 (amended): [pre_save] has no exemption for [cancelled]. A cancelled
    bill is still [cancelled] afterwards exactly when none of the three
    rules fires: the recomputed balance is not at or below 0, no positive
    amount has been paid and the due date has not passed. Otherwise its
    status is overwritten by [paid], [partial] or [overdue]. *)
Theorem C3_cancelled_kept_iff (now : Z) (b : Bill) :
  status b = cancelled ->
  (status (pre_save now b) = cancelled
   <-> ~ Js.le (balance (pre_save now b)) 0 /\ ~ Js.lt 0 (paidAmount b)
       /\ (now <= dueDate b)%Z).
Proof.
  intros Hc. rewrite pre_save_status, Hc. unfold Js.le, Js.lt.
  destruct (_ <=? 0).
  { split; [discriminate|]. now intros [H _]. }
  destruct (0 <? _).
  { split; [discriminate|]. now intros (_ & H & _). }
  destruct (Z.gtb_spec now (dueDate b)).
  { split; [discriminate|lia]. }
  split; [|reflexivity]. intros _. repeat split; [discriminate|discriminate|lia].
Qed.

(** An unpaid cancelled invoice that is not yet due stays cancelled. *)
Lemma C3_cancelled_kept_iff_witness :
  exists doc, schemaDoc (invoiceWithStatus cancelled None) = Some doc
    /\ status doc = cancelled
    /\ status (pre_save 0 doc) = cancelled.
Proof.
  eexists. split; [reflexivity|]. split; [reflexivity|].
  apply C3_cancelled_kept_iff; [reflexivity|].
  vm_compute. repeat split; discriminate.
Defined.

(** C4 (evaluation at the failing input): the invoice is created, then
    [PUT /api/billing/:id] records a payment of 110. The stored bill has
    [paidAmount = 110] while [balance] is still 110 and the status still
    [pending]: the update query does not run the pre-save hook, so the
    derived fields no longer agree with the inputs. *)
Theorem C4_update_skips_recompute :
  let created := post_billing 0 db0 invoice in
  let updated := put_billing_id 5 (snd created) 0 (payment 110) in
  exists b0 b1,
    storedBill created 0 = Some b0 /\ consistent b0
    /\ fst updated = Ok b1 /\ storedBill updated 0 = Some b1
    /\ paidAmount b1 = 110 /\ totalAmount b1 = 110 /\ balance b1 = 110
    /\ status b1 = pending
    /\ balance b1 <> totalAmount b1 - paidAmount b1
    /\ ~ consistent b1.
Proof.
  cbv zeta. eexists; eexists.
  split; [vm_compute; reflexivity|].
  split; [vm_compute; repeat split|].
  split; [vm_compute; reflexivity|].
  split; [vm_compute; reflexivity|].
  split; [reflexivity|]. split; [vm_compute; reflexivity|].
  split; [vm_compute; reflexivity|].
  split; [vm_compute; reflexivity|].
  split; [intros H; float_absurd H|].
  intros (_ & _ & H). float_absurd H.
Qed.

End BillingFacts.

(** ** Appointments: theorems *)

Module ApptFacts.
Import Appt Client ApptExamples.

(** *** Queries *)

Lemma findOne_Some (f : Appointment -> bool) (db : DB) i a :
  findOne f db = Some (i, a) -> appointments db !! i = Some a /\ f a = true.
Proof.
  unfold findOne. intros H. apply find_some in H as [Hin Hf].
  split; [|exact Hf].
  apply elem_of_map_to_list. now apply list_elem_of_In.
Qed.

Lemma findOne_None (f : Appointment -> bool) (db : DB) :
  findOne f db = None <-> forall i a, appointments db !! i = Some a -> f a = false.
Proof.
  unfold findOne. split.
  - intros H i a Hia.
    apply (find_none _ _ H (i, a)).
    apply list_elem_of_In. now apply elem_of_map_to_list.
  - intros H. destruct (find _ _) as [[i a]|] eqn:E; [|reflexivity].
    apply find_some in E as [Hin Hf]. simpl in Hf.
    apply list_elem_of_In, elem_of_map_to_list in Hin.
    rewrite (H _ _ Hin) in Hf. discriminate.
Qed.

Lemma findOne_is_Some (f : Appointment -> bool) (db : DB) :
  is_Some (findOne f db) <-> exists i a, appointments db !! i = Some a /\ f a = true.
Proof.
  split.
  - intros [[i a] H]. exists i, a. now apply findOne_Some.
  - intros (i & a & Hia & Hf).
    destruct (findOne f db) eqn:E; [eauto|].
    rewrite findOne_None in E. rewrite (E _ _ Hia) in Hf. discriminate.
Qed.

Lemma sameSlot_spec d date time a :
  sameSlot d date time a = true
  <-> doctorId a = d /\ appointmentDate a = date /\ appointmentTime a = time.
Proof.
  unfold sameSlot. rewrite !andb_true_iff, Nat.eqb_eq, Z.eqb_eq, String.eqb_eq.
  tauto.
Qed.

Lemma sameSlot_sym a b :
  sameSlot (doctorId a) (appointmentDate a) (appointmentTime a) b
  = sameSlot (doctorId b) (appointmentDate b) (appointmentTime b) a.
Proof.
  unfold sameSlot.
  rewrite (Nat.eqb_sym (doctorId b)), (Z.eqb_sym (appointmentDate b)),
    (String.eqb_sym (appointmentTime b)). reflexivity.
Qed.

Lemma nin_cancelled_completed_spec s :
  nin_cancelled_completed s = true <-> s <> cancelled /\ s <> completed.
Proof.
  destruct s; simpl; split; try discriminate; try tauto;
    intros; split; discriminate.
Qed.

Lemma in_scheduled_confirmed_spec s :
  in_scheduled_confirmed s = true <-> s = scheduled \/ s = confirmed.
Proof.
  destruct s; simpl; split; auto; try discriminate; intros [?|?]; discriminate.
Qed.

Lemma fresh_unused (db : DB) : appointments db !! fresh (dom (appointments db)) = None.
Proof. apply not_elem_of_dom, is_fresh. Qed.

(** *** The uniqueness invariant under the operations that check it *)

Lemma insert_keeps_uniqueSlots db id a :
  uniqueSlots db ->
  appointments db !! id = None ->
  (nonTerminal a = true ->
   conflictingAppointment db (doctorId a) (appointmentDate a) (appointmentTime a) = None) ->
  uniqueSlots (withAppointments db (<[id := a]> (appointments db))).
Proof.
  intros Hu Hfresh Hfree i j x y Hi Hj Hne Hx Hy. simpl in Hi, Hj.
  destruct (decide (i = id)) as [->|Hi'], (decide (j = id)) as [->|Hj'];
    try congruence.
  - rewrite lookup_insert_eq in Hi. injection Hi as <-.
    rewrite lookup_insert_ne in Hj by congruence.
    specialize (Hfree Hx). unfold conflictingAppointment in Hfree.
    rewrite findOne_None in Hfree. specialize (Hfree _ _ Hj).
    apply andb_false_iff in Hfree as [H|H]; [exact H|].
    unfold nonTerminal in Hy. congruence.
  - rewrite lookup_insert_eq in Hj. injection Hj as <-.
    rewrite lookup_insert_ne in Hi by congruence.
    specialize (Hfree Hy). unfold conflictingAppointment in Hfree.
    rewrite findOne_None in Hfree. specialize (Hfree _ _ Hi).
    rewrite sameSlot_sym.
    apply andb_false_iff in Hfree as [H|H]; [exact H|].
    unfold nonTerminal in Hx. congruence.
  - rewrite lookup_insert_ne in Hi, Hj by congruence. eauto.
Qed.

Lemma terminal_keeps_uniqueSlots db id a :
  uniqueSlots db -> nonTerminal a = false ->
  uniqueSlots (withAppointments db (<[id := a]> (appointments db))).
Proof.
  intros Hu Ht i j x y Hi Hj Hne Hx Hy. simpl in Hi, Hj.
  destruct (decide (i = id)) as [->|Hi'].
  { rewrite lookup_insert_eq in Hi. congruence. }
  destruct (decide (j = id)) as [->|Hj'].
  { rewrite lookup_insert_eq in Hj. congruence. }
  rewrite lookup_insert_ne in Hi, Hj by congruence. eauto.
Qed.

Lemma delete_keeps_uniqueSlots db id :
  uniqueSlots db -> uniqueSlots (withAppointments db (delete id (appointments db))).
Proof.
  intros Hu i j x y Hi Hj Hne Hx Hy. simpl in Hi, Hj.
  apply lookup_delete_Some in Hi as [_ Hi], Hj as [_ Hj]. eauto.
Qed.

Section Routes.
Context `{Js.Host}.

Lemma book_created_inv db user body id a db' :
  post_appointments_patient db user body = (JsonData 201 id a, db') ->
  exists d ds t r date doctor,
    b_doctorId body = Some d /\ b_appointmentDate body = Some ds
    /\ b_appointmentTime body = Some t /\ b_reason body = Some r
    /\ (Js.isISO8601 ds && Js.truthy t && Js.truthy (Js.trim r)
        && optionalIsIn types (b_type body)
        && optionalIsIn priorities (b_priority body)) = true
    /\ role user = Role.patient
    /\ doctors db !! d = Some doctor /\ status doctor = active
    /\ Js.Date_parse ds = Some date
    /\ conflictingAppointment db d date t = None
    /\ a = bookedDoc user body d date t r
    /\ id = fresh (dom (appointments db))
    /\ db' = withAppointments db (<[id := a]> (appointments db)).
Proof.
  unfold post_appointments_patient.
  destruct (b_doctorId body) as [d|]; [|discriminate].
  destruct (b_appointmentDate body) as [ds|]; [|discriminate].
  destruct (b_appointmentTime body) as [t|]; [|discriminate].
  destruct (b_reason body) as [r|]; [|discriminate].
  destruct (_ && _ && _ && _ && _) eqn:Hv; [|discriminate]. simpl.
  case_bool_decide as Hrole; [|discriminate]. simpl.
  destruct (doctors db !! d) as [doctor|] eqn:Hdoc; [|discriminate].
  case_bool_decide as Hact; [|discriminate]. simpl.
  destruct (Js.Date_parse ds) as [date|] eqn:Hdate; [|discriminate].
  destruct (conflictingAppointment db d date t) eqn:Hc; [discriminate|].
  destruct (schemaValid _); [|discriminate]. cbn [negb].
  unfold create. intros [= <- <- <-].
  exists d, ds, t, r, date, doctor. repeat split; auto.
Qed.

(** A document that a booking route has stored passed the schema. *)
Lemma book_created_valid db user body id a db' :
  post_appointments_patient db user body = (JsonData 201 id a, db') ->
  schemaValid a = true.
Proof.
  unfold post_appointments_patient.
  repeat case_match; try discriminate.
  unfold create. intros [= <- <- <-].
  match goal with H : negb (schemaValid _) = false |- _ =>
    now apply negb_false_iff in H end.
Qed.

(** The schema does not look at who books. *)
Lemma schemaValid_bookedDoc user user' body d date t r :
  schemaValid (bookedDoc user body d date t r)
  = schemaValid (bookedDoc user' body d date t r).
Proof. reflexivity. Qed.

Lemma book_created db user body d ds t r date doctor :
  b_doctorId body = Some d -> b_appointmentDate body = Some ds ->
  b_appointmentTime body = Some t -> b_reason body = Some r ->
  (Js.isISO8601 ds && Js.truthy t && Js.truthy (Js.trim r)
   && optionalIsIn types (b_type body)
   && optionalIsIn priorities (b_priority body)) = true ->
  role user = Role.patient ->
  doctors db !! d = Some doctor -> status doctor = active ->
  Js.Date_parse ds = Some date ->
  schemaValid (bookedDoc user body d date t r) = true ->
  post_appointments_patient db user body =
    match conflictingAppointment db d date t with
    | Some _ => (Json 400 "Time slot is already booked for this doctor", db)
    | None =>
        let id := fresh (dom (appointments db)) in
        let a := bookedDoc user body d date t r in
        (JsonData 201 id a, withAppointments db (<[id := a]> (appointments db)))
    end.
Proof.
  intros Hd Hds Ht Hr Hv Hrole Hdoc Hact Hdate Hschema.
  unfold post_appointments_patient.
  rewrite Hd, Hds, Ht, Hr, Hv. simpl.
  rewrite bool_decide_true by assumption. simpl.
  rewrite Hdoc. rewrite bool_decide_true by assumption. simpl.
  rewrite Hdate. destruct (conflictingAppointment db d date t); [reflexivity|].
  unfold bookedDoc in Hschema. now rewrite Hschema.
Qed.

Lemma cancel_ok_inv now db user id id' a' db' :
  put_appointments_id_cancel now db user id = (JsonData 200 id' a', db') ->
  exists a, appointments db !! id = Some a
    /\ a_status a <> completed /\ a_status a <> cancelled
    /\ a' = cancelledDoc now user a /\ id' = id
    /\ db' = withAppointments db (<[id := a']> (appointments db)).
Proof.
  unfold put_appointments_id_cancel.
  destruct (appointments db !! id) as [a|]; [|discriminate].
  destruct (_ && _); [discriminate|].
  destruct (_ && _); [discriminate|].
  destruct (_ || _) eqn:Hst; [discriminate|].
  apply orb_false_iff in Hst as [H1 H2].
  apply bool_decide_eq_false in H1, H2.
  intros [= <- <- <-]. exists a. repeat split; auto.
Qed.

(** A handler other than the update either leaves the store as it is,
    inserts a document at a fresh id after the conflict query found
    nothing, replaces a document by its cancelled copy, or deletes one. *)
Lemma step_shape now db op :
  isUpdate op = false ->
  let db' := step now db op in
  db' = db
  \/ (exists a, conflictingAppointment db (doctorId a) (appointmentDate a)
                  (appointmentTime a) = None
        /\ db' = withAppointments db
                   (<[fresh (dom (appointments db)) := a]> (appointments db)))
  \/ (exists id a, nonTerminal a = false
        /\ db' = withAppointments db (<[id := a]> (appointments db)))
  \/ (exists id, db' = withAppointments db (delete id (appointments db))).
Proof.
  intros Hop. destruct op as [body|user body|id body|user id|id];
    try discriminate; cbv zeta; simpl.
  - unfold post_appointments, create.
    repeat case_match; simpl; auto;
      right; left; eexists; (split; [|reflexivity]); simpl; assumption.
  - unfold post_appointments_patient, create.
    repeat case_match; simpl; auto;
      right; left; eexists; (split; [|reflexivity]); simpl; assumption.
  - unfold put_appointments_id_cancel.
    repeat case_match; simpl; auto;
      right; right; left; do 2 eexists; (split; [|reflexivity]); reflexivity.
  - unfold delete_appointments_id.
    repeat case_match; simpl; auto;
      right; right; right; eexists; reflexivity.
Qed.

(** Creation, self-booking, cancellation and deletion keep the invariant. *)
Lemma step_keeps_uniqueSlots now db op :
  isUpdate op = false -> uniqueSlots db -> uniqueSlots (step now db op).
Proof.
  intros Hop Hu.
  destruct (step_shape now db op Hop)
    as [->|[(a & Hfree & ->)|[(id & a & Ht & ->)|(id & ->)]]].
  - exact Hu.
  - apply insert_keeps_uniqueSlots; auto using fresh_unused.
  - now apply terminal_keeps_uniqueSlots.
  - now apply delete_keeps_uniqueSlots.
Qed.

Lemma run_keeps_uniqueSlots now ops db :
  forallb (fun op => negb (isUpdate op)) ops = true ->
  uniqueSlots db -> uniqueSlots (run now db ops).
Proof.
  unfold run. revert db. induction ops as [|op ops IH]; intros db Hops Hu; simpl.
  - exact Hu.
  - simpl in Hops. apply andb_true_iff in Hops as [Hop Hops].
    apply IH; [exact Hops|].
    apply step_keeps_uniqueSlots; [|exact Hu].
    now destruct (isUpdate op).
Qed.

(** *** The availability check *)

Lemma dayOfWeek_server_throws (t : Z) :
  dayOfWeek_server (Some t) = Js.Throw Js.RangeError.
Proof. reflexivity. Qed.

(** Whatever the request, the availability check never answers 200: a
    valid instant makes line 203 throw, an invalid one is looked up under
    the key "Invalid Date". *)
Lemma check_availability_never_approves now db body :
  (forall d doctor, doctors db !! d = Some doctor ->
     availability doctor !! "Invalid Date"%string = None) ->
  forall msg, post_check_availability now db body <> Json 200 msg.
Proof.
  intros Hkeys msg. unfold post_check_availability.
  destruct (b_doctorId body) as [d|]; [|discriminate].
  destruct (b_appointmentDate body) as [ds|]; [|discriminate].
  destruct (b_appointmentTime body) as [t|]; [|discriminate].
  destruct (negb _); [discriminate|].
  destruct (doctors db !! d) as [doctor|] eqn:Hdoc; [|discriminate].
  destruct (negb _); [discriminate|].
  destruct (Js.Date_parse (ds ++ "T" ++ t)) as [tv|].
  - destruct (Js.date_le _ _); [discriminate|].
    rewrite dayOfWeek_server_throws. discriminate.
  - simpl. rewrite (Hkeys _ _ Hdoc). discriminate.
Qed.

Lemma check_availability_valid_instant now db body d ds t doctor tv :
  b_doctorId body = Some d -> b_appointmentDate body = Some ds ->
  b_appointmentTime body = Some t ->
  Js.truthy ds = true -> Js.truthy t = true ->
  doctors db !! d = Some doctor -> status doctor = active ->
  Js.Date_parse (ds ++ "T" ++ t) = Some tv -> now < tv ->
  post_check_availability now db body
  = Json 500 "Server error while checking availability".
Proof.
  intros Hd Hds Ht Hds' Ht' Hdoc Hact Hparse Hfuture.
  unfold post_check_availability.
  rewrite Hd, Hds, Ht, Hds', Ht', Hdoc. simpl.
  rewrite bool_decide_true by assumption. simpl.
  rewrite Hparse. simpl.
  destruct (Z.leb_spec tv now); [lia|]. reflexivity.
Qed.

(** *** The slot loop *)

Lemma slotStep_pos : 0 < slotStep.
Proof. reflexivity. Qed.

Lemma slotCount_lt start end_ :
  start < end_ -> slotCount start end_ = S (slotCount (start + slotStep) end_).
Proof.
  intros Hlt. unfold slotCount.
  replace (end_ - start + slotStep - 1)
    with ((end_ - (start + slotStep) + slotStep - 1) + 1 * slotStep) by lia.
  rewrite Z.div_add by (pose proof slotStep_pos; lia).
  rewrite Z2Nat.inj_add; [simpl; lia| |lia].
  apply Z.div_pos; [lia|apply slotStep_pos].
Qed.

Lemma slotCount_ge start end_ : end_ <= start -> slotCount start end_ = 0%nat.
Proof.
  intros Hge. unfold slotCount. pose proof slotStep_pos.
  assert ((end_ - start + slotStep - 1) / slotStep < 1); [|lia].
  apply Z.div_lt_upper_bound; lia.
Qed.

Lemma grid_S start n : grid start (S n) = start :: grid (start + slotStep) n.
Proof.
  unfold grid. simpl. f_equal; [lia|].
  rewrite <- seq_shift, map_map. apply map_ext. intros k. lia.
Qed.

Lemma slotLoop_grid start end_ : slotLoop start end_ = grid start (slotCount start end_).
Proof.
  funelim (slotLoop start end_).
  - rewrite slotCount_lt by assumption. rewrite grid_S. now f_equal.
  - rewrite slotCount_ge by lia. reflexivity.
Qed.

Lemma slotLoop_elem start end_ t :
  In t (slotLoop start end_)
  <-> exists k, 0 <= k /\ t = start + k * slotStep /\ t < end_.
Proof.
  funelim (slotLoop start end_).
  - simpl. rewrite H0. split.
    + intros [<-|(k & Hk & -> & Hlt)].
      * exists 0. lia.
      * exists (k + 1). lia.
    + intros (k & Hk & -> & Hlt).
      destruct (Z.eq_dec k 0) as [->|]; [left; lia|].
      right. exists (k - 1). lia.
  - simpl. split; [tauto|]. intros (k & Hk & -> & Hlt).
    pose proof slotStep_pos. nia.
Qed.

Lemma toLocaleDateString_long (t : Z) :
  Js.toLocaleDateString_weekday (Some t) "long"
  = Js.Normal (Js.weekdayLong (Js.getDay t)).
Proof. reflexivity. Qed.

(** The booking page's lookup never throws, and an absent weekday key
    gives no slot. *)
Lemma getAvailableTimeSlots_total (doctor : option Doctor) (date : string) :
  exists slots, getAvailableTimeSlots doctor date = Js.Normal slots.
Proof.
  unfold getAvailableTimeSlots.
  destruct doctor as [doctor|]; [|eauto].
  destruct (negb _); [eauto|].
  destruct (Js.Date_parse date) as [dv|]; simpl.
  - repeat case_match; eauto.
  - repeat case_match; eauto.
Qed.

(** A time string the host cannot parse passes the window test: both
    comparisons with the NaN time value are false. *)
Lemma withinWorkingHours_unparsed day time :
  Js.Date_parse ("2000-01-01T" ++ time) = None ->
  withinWorkingHours day time = true.
Proof.
  intros Ht. unfold withinWorkingHours, Js.date_ge, Js.date_le. rewrite Ht.
  destruct (Js.Date_parse ("2000-01-01T" ++ end_ day)); reflexivity.
Qed.

Lemma withinWorkingHours_spec day time s e t :
  Js.Date_parse ("2000-01-01T" ++ start day) = Some s ->
  Js.Date_parse ("2000-01-01T" ++ end_ day) = Some e ->
  Js.Date_parse ("2000-01-01T" ++ time) = Some t ->
  withinWorkingHours day time = true <-> s <= t < e.
Proof.
  intros Hs He Ht. unfold withinWorkingHours. rewrite Hs, He, Ht.
  unfold Js.date_ge, Js.date_le, Js.date_lt.
  rewrite negb_true_iff, orb_false_iff, Z.ltb_ge, Z.leb_gt. tauto.
Qed.

(** *** Claims on the booking routes *)

(** C7 (amended): the conflict query of the two booking routes finds an
    appointment exactly when some stored appointment has the same
    (doctorId, appointmentDate, appointmentTime) and a status other than
    cancelled and completed, so scheduled, confirmed, in_progress and also
    no_show block; the query of the availability check blocks only on
    scheduled and confirmed. Both compare the time by equality, with no
    reasoning on durations. Consequently, a second self-booking of the same
    request is refused as a slot conflict while the first appointment is
    scheduled, and succeeds once the first has been cancelled. *)
Theorem C7_conflict_exact_slot (db : DB) (d : nat) (date : Z) (time : string) :
  (is_Some (conflictingAppointment db d date time)
   <-> exists i a, appointments db !! i = Some a
         /\ doctorId a = d /\ appointmentDate a = date /\ appointmentTime a = time
         /\ a_status a <> cancelled /\ a_status a <> completed)
  /\ (is_Some (existingAppointment db d date time)
      <-> exists i a, appointments db !! i = Some a
            /\ doctorId a = d /\ appointmentDate a = date /\ appointmentTime a = time
            /\ (a_status a = scheduled \/ a_status a = confirmed))
  /\ (forall user body id a db1,
        post_appointments_patient db user body = (JsonData 201 id a, db1) ->
        a_status a = scheduled
        /\ (forall user2, role user2 = Role.patient ->
              post_appointments_patient db1 user2 body
              = (Json 400 "Time slot is already booked for this doctor", db1))
        /\ (forall now canceller a' db2,
              put_appointments_id_cancel now db1 canceller id
              = (JsonData 200 id a', db2) ->
              forall user2, role user2 = Role.patient ->
              exists id2 a2 db3,
                post_appointments_patient db2 user2 body = (JsonData 201 id2 a2, db3)
                /\ a_status a2 = scheduled
                /\ doctorId a2 = doctorId a
                /\ appointmentDate a2 = appointmentDate a
                /\ appointmentTime a2 = appointmentTime a)).
Proof.
  split; [|split].
  - unfold conflictingAppointment. rewrite findOne_is_Some.
    split; intros (i & a & Hia & Hf); exists i, a; (split; [exact Hia|]).
    + apply andb_true_iff in Hf as [Hs Hn].
      apply sameSlot_spec in Hs. apply nin_cancelled_completed_spec in Hn. tauto.
    + apply andb_true_iff. rewrite sameSlot_spec, nin_cancelled_completed_spec. tauto.
  - unfold existingAppointment. rewrite findOne_is_Some.
    split; intros (i & a & Hia & Hf); exists i, a; (split; [exact Hia|]).
    + apply andb_true_iff in Hf as [Hs Hn].
      apply sameSlot_spec in Hs. apply in_scheduled_confirmed_spec in Hn. tauto.
    + apply andb_true_iff. rewrite sameSlot_spec, in_scheduled_confirmed_spec. tauto.
  - intros user body id a db1 Hbook.
    pose proof (book_created_valid _ _ _ _ _ _ Hbook) as Hschema.
    apply book_created_inv in Hbook
      as (d0 & ds & t & r & date0 & doctor & Hd & Hds & Ht & Hr & Hv & Hrole
          & Hdoc & Hact & Hdate & Hfree & -> & -> & ->).
    set (id := fresh (dom (appointments db))).
    set (a := bookedDoc user body d0 date0 t r).
    set (db1 := withAppointments db (<[id := a]> (appointments db))).
    split; [reflexivity|]. split.
    + intros user2 Hrole2.
      rewrite (book_created db1 user2 body d0 ds t r date0 doctor)
        by first [assumption | exact Hschema].
      destruct (conflictingAppointment db1 d0 date0 t) eqn:Hc; [reflexivity|].
      exfalso. unfold conflictingAppointment in Hc. rewrite findOne_None in Hc.
      specialize (Hc id a). simpl in Hc. rewrite lookup_insert_eq in Hc.
      specialize (Hc eq_refl). apply andb_false_iff in Hc as [Hc|Hc]; [|discriminate].
      assert (sameSlot d0 date0 t a = true) as Hs by (apply sameSlot_spec; auto).
      congruence.
    + intros now canceller a' db2 Hcancel user2 Hrole2.
      apply cancel_ok_inv in Hcancel as (a0 & Ha0 & _ & _ & -> & _ & ->).
      simpl in Ha0. rewrite lookup_insert_eq in Ha0. injection Ha0 as <-.
      set (db2 := withAppointments db1 _).
      rewrite (book_created db2 user2 body d0 ds t r date0 doctor)
        by first [assumption | exact Hschema].
      destruct (conflictingAppointment db2 d0 date0 t) as [[j x]|] eqn:Hc.
      * exfalso. unfold conflictingAppointment in Hc.
        apply findOne_Some in Hc as [Hj Hf]. simpl in Hj.
        unfold conflictingAppointment in Hfree. rewrite findOne_None in Hfree.
        destruct (decide (j = id)) as [->|Hne].
        -- rewrite lookup_insert_eq in Hj. injection Hj as <-.
           apply andb_true_iff in Hf as [_ Hf]. discriminate.
        -- rewrite !lookup_insert_ne in Hj by congruence.
           rewrite (Hfree _ _ Hj) in Hf. discriminate.
      * do 3 eexists. split; [reflexivity|]. repeat split.
Qed.

(** C10: the appointment created by the patient self-booking route has
    [patientId] equal to the authenticated user's id and status
    [scheduled], whatever [patientId] and [status] the body carries: two
    requests that differ only in those two fields get the same response
    and leave the same store. *)
Theorem C10_self_booking_ignores_body_identity (db : DB) (user : User)
    (body : Body) (p1 p2 : option nat) (s1 s2 : option string) :
  post_appointments_patient db user (withPatientStatus body p1 s1)
  = post_appointments_patient db user (withPatientStatus body p2 s2)
  /\ (forall id a db',
        post_appointments_patient db user (withPatientStatus body p1 s1)
        = (JsonData 201 id a, db') ->
        patientId a = user_id user /\ a_status a = scheduled
        /\ appointments db' !! id = Some a).
Proof.
  split; [reflexivity|].
  intros id a db' Hbook.
  apply book_created_inv in Hbook
    as (d0 & ds & t & r & date0 & doctor & _ & _ & _ & _ & _ & _
        & _ & _ & _ & _ & -> & -> & ->).
  repeat split. simpl. apply lookup_insert_eq.
Qed.

End Routes.

(** *** Evaluations on the reference host *)

Section Evaluations.
#[local] Existing Instance RefHost.host.

Ltac evaluated := vm_compute; reflexivity.

Lemma uniqueSlots_db0 : uniqueSlots db0.
Proof. intros i j a b Hi. simpl in Hi. rewrite lookup_empty in Hi. discriminate. Qed.

(** Alice books Monday 10:00, Bob is refused the same slot, the front desk
    cancels Alice's appointment, Bob books it. *)
Lemma C7_conflict_exact_slot_witness :
  let req := request monday "10:00" in
  let first := post_appointments_patient db0 alice req in
  let cancel := put_appointments_id_cancel now0 (snd first) frontDesk 0 in
  fst first = JsonData 201 0 aliceAt10
  /\ a_status aliceAt10 = scheduled
  /\ post_appointments_patient (snd first) bob req
     = (Json 400 "Time slot is already booked for this doctor", snd first)
  /\ exists id2 a2 db3,
       post_appointments_patient (snd cancel) bob req = (JsonData 201 id2 a2, db3)
       /\ a_status a2 = scheduled.
Proof.
  cbv zeta.
  set (req := request monday "10:00").
  set (first := post_appointments_patient db0 alice req).
  assert (first = (JsonData 201 0%nat aliceAt10, snd first)) as Hfirst
    by (vm_compute; reflexivity).
  destruct (C7_conflict_exact_slot db0 1 mondayDate "10:00") as (_ & _ & Hseq).
  destruct (Hseq alice req 0%nat aliceAt10 (snd first) Hfirst) as (Hst & Hdup & Hre).
  split; [vm_compute; reflexivity|]. split; [exact Hst|].
  split; [apply Hdup; reflexivity|].
  set (cancel := put_appointments_id_cancel now0 (snd first) frontDesk 0).
  assert (cancel = (JsonData 200 0%nat (cancelledDoc now0 frontDesk aliceAt10),
                    snd cancel)) as Hcancel by (vm_compute; reflexivity).
  destruct (Hre now0 frontDesk _ _ Hcancel bob eq_refl)
    as (id2 & a2 & db3 & Hbook & Hst2 & _).
  exists id2, a2, db3. split; [exact Hbook|exact Hst2].
Defined.

(** C7, as stated, fails on the blocking set: an appointment marked
    [no_show] still blocks its slot in the booking routes, although the
    stated set {scheduled, confirmed, in_progress} does not contain it; and
    an [in_progress] appointment, which the stated set contains, is not
    seen by the query of the availability check. *)
Lemma C7_blocking_sets_differ :
  let req := request monday "10:00" in
  let missed := run now0 db0 [OpBook alice req; OpUpdate 0 (setStatus "no_show")] in
  let started := run now0 db0 [OpBook alice req; OpUpdate 0 (setStatus "in_progress")] in
  map a_status (stored missed) = [no_show]
  /\ spec_checkConflict (stored missed) 1 mondayDate "10:00" = false
  /\ is_Some (conflictingAppointment missed 1 mondayDate "10:00")
  /\ fst (post_appointments_patient missed bob req)
     = Json 400 "Time slot is already booked for this doctor"
  /\ map a_status (stored started) = [in_progress]
  /\ spec_checkConflict (stored started) 1 mondayDate "10:00" = true
  /\ existingAppointment started 1 mondayDate "10:00" = None
  /\ ~ (is_Some (conflictingAppointment missed 1 mondayDate "10:00")
        <-> spec_checkConflict (stored missed) 1 mondayDate "10:00" = true).
Proof.
  cbv zeta.
  assert (is_Some (conflictingAppointment
            (run now0 db0 [OpBook alice (request monday "10:00");
                           OpUpdate 0 (setStatus "no_show")]) 1 mondayDate "10:00"))
    as Hsome by (eexists; vm_compute; reflexivity).
  repeat split; try (vm_compute; reflexivity); try exact Hsome.
  intros [Hiff _]. specialize (Hiff Hsome). vm_compute in Hiff. discriminate.
Qed.

(** Alice sends [patientId: 999] and [status: 'completed'] in the body and
    still gets her own scheduled appointment. *)
Lemma C10_self_booking_ignores_body_identity_witness :
  let req := request monday "10:00" in
  let forged := withPatientStatus req (Some 999%nat) (Some "completed"%string) in
  post_appointments_patient db0 alice forged = post_appointments_patient db0 alice req
  /\ exists a db', post_appointments_patient db0 alice forged = (JsonData 201 0 a, db')
       /\ patientId a = 7%nat /\ a_status a = scheduled
       /\ appointments db' !! 0%nat = Some a.
Proof.
  cbv zeta.
  destruct (C10_self_booking_ignores_body_identity db0 alice (request monday "10:00")
              (Some 999%nat) None (Some "completed"%string) None) as [Hsame Hfields].
  split; [exact Hsame|].
  eexists; eexists. split; [vm_compute; reflexivity|].
  apply Hfields. vm_compute. reflexivity.
Defined.

(** The slot strings of the booking page carry an AM/PM suffix. On a host
    whose parser rejects such a time the requested instant is an invalid
    date: the past-date test lets it through and the day is looked up
    under "Invalid Date". *)
Example handleSubmit_slot_string :
  handleSubmit now0 db0 alice (Some 1%nat) monday "10:00 AM" "checkup"
    "consultation" "medium"
  = (Some (Json 400 "Doctor is not available on this day"), db0).
Proof. vm_compute. reflexivity. Qed.

(** C5 (evaluation at the failing input): two self-bookings of one doctor
    at 10:00 and 10:30 keep the invariant; [PUT /api/appointments/:id]
    then moves the second to 10:00 without reading any other appointment,
    and the store holds two scheduled appointments on one (doctorId,
    appointmentDate, appointmentTime). The same happens when a cancelled
    appointment is set back to scheduled after its slot was booked again. *)
Theorem C5_update_breaks_uniqueness :
  let r10 := request monday "10:00" in
  let booked := run now0 db0 [OpBook alice r10; OpBook bob (request monday "10:30")] in
  let moved := step now0 booked (OpUpdate 1 (setTime "10:00")) in
  let rebooked := run now0 db0 [OpBook alice r10; OpCancel frontDesk 0; OpBook bob r10] in
  let revived := step now0 rebooked (OpUpdate 0 (setStatus "scheduled")) in
  uniqueSlots booked
  /\ appointments moved !! 0%nat = Some aliceAt10
  /\ appointments moved !! 1%nat = Some bobAt10
  /\ ~ uniqueSlots moved
  /\ uniqueSlots rebooked
  /\ map a_status (stored revived) = [scheduled; scheduled]
  /\ ~ uniqueSlots revived.
Proof.
  cbv zeta.
  assert (forall db a b,
            appointments db !! 0%nat = Some a -> appointments db !! 1%nat = Some b ->
            nonTerminal a = true -> nonTerminal b = true ->
            sameSlot (doctorId a) (appointmentDate a) (appointmentTime a) b = true ->
            ~ uniqueSlots db) as Hbreak.
  { intros db a b Ha Hb Hna Hnb Hs Hu.
    rewrite (Hu 0%nat 1%nat a b Ha Hb) in Hs by (assumption || discriminate).
    discriminate. }
  split.
  { apply run_keeps_uniqueSlots; [reflexivity|apply uniqueSlots_db0]. }
  split; [vm_compute; reflexivity|]. split; [vm_compute; reflexivity|].
  split.
  { apply (Hbreak _ aliceAt10 bobAt10); vm_compute; reflexivity. }
  split.
  { apply run_keeps_uniqueSlots; [reflexivity|apply uniqueSlots_db0]. }
  split; [vm_compute; reflexivity|].
  eapply Hbreak; vm_compute; reflexivity.
Qed.

(** C6 (evaluation at the failing inputs): for an active doctor and a
    future Monday the availability check answers 500 whether the time is
    outside the working hours, already booked or free, so the booking page
    never sends the booking; and the self-booking route, which runs only
    the doctor check and the conflict check, creates a scheduled
    appointment for a date in the past and for a time outside the working
    hours. *)
Theorem C6_checks_not_run_in_order :
  let booked := snd (post_appointments_patient db0 alice (request monday "10:00")) in
  post_check_availability now0 db0 (request monday "18:00")
  = Json 500 "Server error while checking availability"
  /\ (exists day, availability drGrey !! "monday"%string = Some day
        /\ dayIsAvailable (Some day) = true
        /\ withinWorkingHours day "18:00" = false)
  /\ post_check_availability now0 booked (request monday "10:00")
     = Json 500 "Server error while checking availability"
  /\ is_Some (existingAppointment booked 1 mondayDate "10:00")
  /\ post_check_availability now0 db0 (request monday "10:00")
     = Json 500 "Server error while checking availability"
  /\ handleSubmit now0 db0 alice (Some 1%nat) monday "10:00" "checkup"
       "consultation" "medium"
     = (Some (Json 500 "Server error while checking availability"), db0)
  /\ (exists a, fst (post_appointments_patient db0 alice (request lastMonday "10:00"))
                = JsonData 201 0 a
        /\ a_status a = scheduled /\ appointmentDate a < now0)
  /\ (exists a, fst (post_appointments_patient db0 alice (request monday "18:00"))
                = JsonData 201 0 a
        /\ a_status a = scheduled /\ appointmentTime a = "18:00"%string).
Proof.
  cbv zeta.
  split; [evaluated|].
  split; [exists officeHours; repeat split; evaluated|].
  split; [evaluated|].
  split; [eexists; evaluated|].
  split; [evaluated|]. split; [evaluated|].
  split; eexists; (split; [evaluated|]); split; reflexivity.
Qed.

(** C9 (evaluation at the failing input): on the server the weekday key is
    asked with [weekday: 'lowercase'], which is not a weekday style, so for
    every valid instant the lookup throws a RangeError before the day's
    entry is read. The check answers 500 on a Monday, where the entry is
    available, and on a Sunday, where it is not; a key the entries do not
    have, such as the "Invalid Date" of an unparsable request, reads as
    not available. The booking page, which asks for [weekday: 'long'] and
    lowercases the name, returns the Monday slots and the empty list. *)
Theorem C9_server_weekday_lookup_throws :
  (forall (host : Js.Host) (t : Z),
     @dayOfWeek_server host (Some t) = Js.Throw Js.RangeError)
  /\ dayIsAvailable (availability drGrey !! "monday"%string) = true
  /\ post_check_availability now0 db0 (request monday "10:00")
     = Json 500 "Server error while checking availability"
  /\ availability drGrey !! "sunday"%string = Some weekend
  /\ dayIsAvailable (availability drGrey !! "sunday"%string) = false
  /\ availability drGrey !! "Invalid Date"%string = None
  /\ dayIsAvailable (availability drGrey !! "Invalid Date"%string) = false
  /\ post_check_availability now0 db0 (request "2030-01-06" "10:00")
     = Json 500 "Server error while checking availability"
  /\ (exists slots, getAvailableTimeSlots (Some drGrey) monday = Js.Normal slots
        /\ length slots = 16%nat)
  /\ getAvailableTimeSlots (Some drGrey) "2030-01-06" = Js.Normal [].
Proof.
  split; [intros host t; reflexivity|].
  split; [evaluated|]. split; [evaluated|]. split; [evaluated|].
  split; [evaluated|]. split; [evaluated|]. split; [evaluated|].
  split; [evaluated|].
  split; [eexists; split; evaluated|].
  evaluated.
Qed.

(** C8 (evaluation at the failing inputs): the doctor works on Mondays from
    09:00 to 17:00. The window test of lines 214-218 is half-open on that
    entry: it passes 09:00 and 16:59 and fails 08:59 and 17:00. The handler
    never reaches it: for each of these times on a future Monday it
    answers 500, so it reports neither a bookable slot nor a time outside
    the working hours. An entry without hours passes the test at any time.
    The booking page, on a host in the UTC zone, offers the sixteen
    half-hour slots from 09:00 to 16:30 as 12-hour strings; on a host five
    hours behind UTC it reads the same Monday as a Sunday and offers
    nothing, and offers the Monday slots on the Tuesday. *)
Theorem C8_window_is_not_reached :
  let slots := ["09:00 AM"; "09:30 AM"; "10:00 AM"; "10:30 AM"; "11:00 AM";
                "11:30 AM"; "12:00 PM"; "12:30 PM"; "01:00 PM"; "01:30 PM";
                "02:00 PM"; "02:30 PM"; "03:00 PM"; "03:30 PM"; "04:00 PM";
                "04:30 PM"]%string in
  availability drGrey !! "monday"%string = Some officeHours
  /\ dayIsAvailable (Some officeHours) = true
  /\ withinWorkingHours officeHours "08:59" = false
  /\ withinWorkingHours officeHours "09:00" = true
  /\ withinWorkingHours officeHours "16:59" = true
  /\ withinWorkingHours officeHours "17:00" = false
  /\ (forall time, In time ["08:59"; "09:00"; "16:59"; "17:00"]%string ->
        post_check_availability now0 db0 (request monday time)
        = Json 500 "Server error while checking availability")
  /\ withinWorkingHours noHours "03:00" = true
  /\ withinWorkingHours noHours "23:59" = true
  /\ getAvailableTimeSlots (Some drGrey) monday = Js.Normal slots
  /\ length slots = 16%nat
  /\ @Js.toLocaleDateString_weekday RefHost.newYork
        (@Js.Date_parse RefHost.newYork monday) "long" = Js.Normal "Sunday"%string
  /\ @getAvailableTimeSlots RefHost.newYork (Some drGrey) monday = Js.Normal []
  /\ @getAvailableTimeSlots RefHost.newYork (Some drGrey) "2030-01-08"
     = Js.Normal slots
  /\ @getAvailableTimeSlots RefHost.newYork (Some drGrey) "2030-01-12"
     = Js.Normal slots.
Proof.
  cbv zeta.
  split; [evaluated|]. split; [evaluated|]. split; [evaluated|].
  split; [evaluated|]. split; [evaluated|]. split; [evaluated|].
  split.
  { intros time Hin. simpl in Hin.
    repeat (destruct Hin as [<-|Hin]; [evaluated|]). destruct Hin. }
  split; [evaluated|]. split; [evaluated|]. split; [evaluated|].
  split; [reflexivity|]. split; [evaluated|]. split; [evaluated|].
  split; evaluated.
Qed.

End Evaluations.

End ApptFacts.

(** ** Billing: further properties of the routes *)

Module BillingCoverage.
Import Billing BillingExamples NumberFacts BillingFacts BillingCases.

Local Open Scope float_scope.

Lemma post_billing_created_inv now db body id b db' :
  post_billing now db body = (Created id b, db') ->
  exists doc, schemaDoc body = Some doc /\ schemaValid doc = true
    /\ validCreate body = true /\ c_patientId body ∈ patients db
    /\ b = pre_save now doc /\ id = fresh (dom (bills db))
    /\ db' = {| patients := patients db; bills := <[id := b]> (bills db) |}.
Proof.
  unfold post_billing, create.
  destruct (validCreate body); [|discriminate]. simpl.
  case_bool_decide as Hp; [|discriminate]. simpl.
  destruct (schemaDoc body) as [doc|]; [|discriminate].
  destruct (schemaValid doc) eqn:Hv; [|discriminate].
  intros [= <- <- <-]. exists doc. repeat split; auto.
Qed.

(** What [PUT /api/billing/:id] has done when it answers 200. *)
Lemma put_billing_ok_inv now db id body b' db' :
  put_billing_id now db id body = (Ok b', db') ->
  exists b, bills db !! id = Some b
    /\ optionalIsFloat_min0 (u_paidAmount body) = true
    /\ updateValid body = true
    /\ b' = applyUpdate now body b
    /\ db' = {| patients := patients db; bills := <[id := b']> (bills db) |}.
Proof.
  unfold put_billing_id, findByIdAndUpdate.
  destruct (optionalIsFloat_min0 _); [|discriminate].
  destruct (updateValid body); [|discriminate]. cbn [negb].
  destruct (bills db !! id) as [b|]; [|discriminate].
  intros [= <- <-]. now exists b.
Qed.



(** X2: saving a bill through the hook again at the same or a later time
    gives what a single save at the later time gives; in particular the
    hook is idempotent. *)
Theorem X2_pre_save_twice now now' b :
  (now <= now')%Z -> pre_save now' (pre_save now b) = pre_save now' b.
Proof.
  intros Hle. unfold pre_save. simpl. f_equal.
  destruct (_ <=? 0); [reflexivity|].
  destruct (0 <? paidAmount b); [reflexivity|].
  destruct (Z.gtb_spec now' (dueDate b)); [reflexivity|].
  destruct (Z.gtb_spec now (dueDate b)); [lia|reflexivity].
Qed.

Lemma X2_pre_save_twice_witness :
  exists doc, schemaDoc invoice = Some doc
    /\ pre_save 2000 (pre_save 0 doc) = pre_save 2000 doc
    /\ status (pre_save 0 doc) = pending
    /\ status (pre_save 2000 doc) = overdue.
Proof.
  eexists. split; [reflexivity|].
  split; [apply X2_pre_save_twice; vm_compute; discriminate|].
  split; vm_compute; reflexivity.
Defined.

(** X3: the billing routes write only on success. An empty [items] array
    is answered 400 and an unknown patient 404. On
    [PUT /api/billing/:id] a negative [paidAmount] is answered 400; an
    update that passes the route's check but not the schema's update
    validators is answered 500, whether or not a bill has that id; an
    update that passes both and names no bill is answered 404. A deletion
    of an unknown bill is answered 404. Whatever the request, a response
    other than the 201, the 200 with the bill or the deletion message
    leaves the store as it was. *)
Theorem X3_billing_failures_do_not_write now db :
  (forall body, c_items body = [] -> post_billing now db body = (BadRequest, db))
  /\ (forall body, validCreate body = true -> c_patientId body ∉ patients db ->
        post_billing now db body = (NotFound, db))
  /\ (forall id body p, u_paidAmount body = Some p -> Js.lt p 0 ->
        put_billing_id now db id body = (BadRequest, db))
  /\ (forall id body, optionalIsFloat_min0 (u_paidAmount body) = true ->
        updateValid body = false ->
        put_billing_id now db id body = (ServerError, db))
  /\ (forall id body, optionalIsFloat_min0 (u_paidAmount body) = true ->
        updateValid body = true -> bills db !! id = None ->
        put_billing_id now db id body = (NotFound, db))
  /\ (forall id, bills db !! id = None -> delete_billing_id db id = (NotFound, db))
  /\ (forall body, (forall id b, fst (post_billing now db body) <> Created id b) ->
        snd (post_billing now db body) = db)
  /\ (forall id body, (forall b, fst (put_billing_id now db id body) <> Ok b) ->
        snd (put_billing_id now db id body) = db)
  /\ (forall id, fst (delete_billing_id db id) <> Deleted ->
        snd (delete_billing_id db id) = db).
Proof.
  split; [|split; [|split; [|split; [|split; [|split; [|split; [|split]]]]]]].
  - intros body Hnil. unfold post_billing, validCreate. now rewrite Hnil.
  - intros body Hv Hp. unfold post_billing. rewrite Hv. simpl.
    now rewrite bool_decide_false.
  - intros id body p Hp Hneg. unfold put_billing_id. rewrite Hp.
    cbn [optionalIsFloat_min0]. now rewrite (negative_isFloat_min0 p Hneg).
  - intros id body Hp Hv. unfold put_billing_id, findByIdAndUpdate.
    now rewrite Hp, Hv.
  - intros id body Hp Hv Hid. unfold put_billing_id, findByIdAndUpdate.
    now rewrite Hp, Hv, Hid.
  - intros id Hid. unfold delete_billing_id. now rewrite Hid.
  - intros body. unfold post_billing.
    destruct (negb (validCreate body)); [reflexivity|].
    destruct (negb _); [reflexivity|].
    destruct (create now db body) as [[[id b] db']|]; [|reflexivity].
    intros Hno. exfalso. exact (Hno id b eq_refl).
  - intros id body. unfold put_billing_id.
    destruct (negb _); [reflexivity|].
    destruct (findByIdAndUpdate now db id body) as [[[b|] db']|]; try reflexivity.
    intros Hno. exfalso. exact (Hno b eq_refl).
  - intros id. unfold delete_billing_id.
    destruct (bills db !! id) as [b|]; [|reflexivity].
    intros Hno. exfalso. exact (Hno eq_refl).
Qed.

Lemma X3_billing_failures_do_not_write_witness :
  post_billing 0 db0 strangerInvoice = (NotFound, db0)
  /\ put_billing_id 0 db0 3 (payment (-1)) = (BadRequest, db0)
  /\ put_billing_id 0 db0 3 (setTotal (-5)) = (ServerError, db0)
  /\ put_billing_id 0 db0 3 (payment 10) = (NotFound, db0)
  /\ delete_billing_id db0 3 = (NotFound, db0).
Proof.
  destruct (X3_billing_failures_do_not_write 0 db0)
    as (_ & Hpatient & Hneg & Hinvalid & Hput & Hdel & _).
  split; [apply Hpatient; [reflexivity|unfold db0; simpl; set_solver]|].
  split; [apply (Hneg 3%nat (payment (-1)) (-1)); reflexivity|].
  split; [apply Hinvalid; reflexivity|].
  split; [apply Hput; reflexivity|].
  apply Hdel. reflexivity.
Defined.

(** X4: deleting the bill that [POST /api/billing] has just created is
    answered with the deletion message and gives back the store the
    creation started from. *)
Theorem X4_create_then_delete now db body id b db' :
  post_billing now db body = (Created id b, db') ->
  delete_billing_id db' id = (Deleted, db).
Proof.
  intros Hpost.
  pose proof (post_billing_created_inv _ _ _ _ _ _ Hpost)
    as (doc & _ & _ & _ & _ & -> & -> & ->).
  unfold delete_billing_id. simpl. rewrite lookup_insert_eq. f_equal.
  rewrite delete_insert_eq.
  rewrite delete_id by apply not_elem_of_dom, is_fresh.
  now destruct db.
Qed.

Lemma X4_create_then_delete_witness :
  exists b db', post_billing 0 db0 invoice = (Created 0 b, db')
    /\ delete_billing_id db' 0 = (Deleted, db0).
Proof.
  eexists; eexists. split; [vm_compute; reflexivity|].
  eapply (X4_create_then_delete 0 db0 invoice). vm_compute. reflexivity.
Defined.

(** X5: an update answered 200 rewrites the addressed bill only. That bill
    existed; no other bill is added, removed or changed; every path the
    body sends, [patientId] included, takes the sent value, and every path
    it does not send keeps its stored value, except [paymentDate]: a
    positive [paidAmount] sets it to the current time, whatever
    [paymentDate] the body sends, and otherwise it is the one sent, or the
    stored one when none is sent. *)
Theorem X5_update_touches_one_bill now db id body b' db' :
  put_billing_id now db id body = (Ok b', db') ->
  exists b, bills db !! id = Some b
    /\ bills db' !! id = Some b'
    /\ (forall j, j <> id -> bills db' !! j = bills db !! j)
    /\ dom (bills db') = dom (bills db)
    /\ patientId b' = default (patientId b) (u_patientId body)
    /\ dueDate b' = default (dueDate b) (u_dueDate body)
    /\ items b' = default (items b) (u_items body)
    /\ subtotal b' = default (subtotal b) (u_subtotal body)
    /\ tax b' = default (tax b) (u_tax body)
    /\ discount b' = default (discount b) (u_discount body)
    /\ totalAmount b' = default (totalAmount b) (u_totalAmount body)
    /\ paidAmount b' = default (paidAmount b) (u_paidAmount body)
    /\ balance b' = default (balance b) (u_balance body)
    /\ status b' = default (status b) (u_status body)
    /\ (forall p, u_paidAmount body = Some p -> Js.lt 0 p ->
          paymentDate b' = Some now)
    /\ ((forall p, u_paidAmount body = Some p -> ~ Js.lt 0 p) ->
          paymentDate b' = match u_paymentDate body with
                           | Some d => Some d
                           | None => paymentDate b
                           end).
Proof.
  intros Hput.
  destruct (put_billing_ok_inv _ _ _ _ _ _ Hput) as (b & Hb & _ & _ & -> & ->).
  exists b. cbn [bills applyUpdate patientId dueDate items subtotal tax discount
                 totalAmount paidAmount balance status paymentDate].
  split; [exact Hb|]. split; [apply lookup_insert_eq|].
  split; [intros j Hj; now apply lookup_insert_ne|].
  split.
  { rewrite dom_insert_L. apply (elem_of_dom_2 (D := gset nat)) in Hb. set_solver. }
  do 10 (split; [reflexivity|]).
  split.
  - intros p Hp Hpos. rewrite Hp, (positive_truthy p Hpos).
    unfold Js.lt in Hpos. now rewrite Hpos.
  - intros Hnone. destruct (u_paidAmount body) as [p|]; [|reflexivity].
    specialize (Hnone p eq_refl). unfold Js.lt in Hnone.
    destruct (0 <? p); [now destruct Hnone|]. now rewrite andb_false_r.
Qed.

(** A payment of 40 on the invoice; then the bill is moved to patient 9
    with a payment date of 77. *)
Lemma X5_update_touches_one_bill_witness :
  exists b' db' b'' db'',
    put_billing_id 5 (snd (post_billing 0 db0 invoice)) 0 (payment 40) = (Ok b', db')
    /\ paidAmount b' = 40 /\ paymentDate b' = Some 5%Z
    /\ patientId b' = 1%nat /\ status b' = pending /\ balance b' = 110
    /\ put_billing_id 6 db' 0 (reassign 9 77) = (Ok b'', db'')
    /\ patientId b'' = 9%nat /\ paymentDate b'' = Some 77%Z.
Proof.
  assert (exists b' db',
    put_billing_id 5 (snd (post_billing 0 db0 invoice)) 0 (payment 40) = (Ok b', db'))
    as (b' & db' & H1) by (eexists; eexists; vm_compute; reflexivity).
  assert (exists b'' db'', put_billing_id 6 db' 0 (reassign 9 77) = (Ok b'', db''))
    as (b'' & db'' & H2).
  { vm_compute in H1. injection H1 as <- <-. eexists; eexists.
    vm_compute. reflexivity. }
  exists b', db', b'', db''.
  destruct (X5_update_touches_one_bill _ _ _ _ _ _ H1)
    as (b & Hb & _ & _ & _ & Hpat & _ & _ & _ & _ & _ & _ & Hpaid & Hbal & Hst
        & Hdate & _).
  vm_compute in Hb. injection Hb as <-.
  destruct (X5_update_touches_one_bill _ _ _ _ _ _ H2)
    as (b0 & Hb0 & Hb'' & _ & _ & Hpat' & _ & _ & _ & _ & _ & _ & _ & _ & _
        & _ & Hdate').
  split; [exact H1|]. split; [exact Hpaid|].
  split; [apply (Hdate 40); reflexivity|].
  split; [exact Hpat|]. split; [exact Hst|]. split; [exact Hbal|].
  split; [exact H2|]. split; [exact Hpat'|].
  apply Hdate'. intros p Hp. discriminate Hp.
Defined.

End BillingCoverage.

(** ** Appointments: further properties of the routes *)

Module ApptCoverage.
Import Appt Client ApptExamples ApptFacts ApptOps ApptCases.

Section Handlers.
Context `{Js.Host}.

(** X6: an appointment handler that answers with a failure (a validation
    error array or a status of 400 and above) leaves the store exactly as
    it was: creation, self-booking, update, cancellation and deletion
    write only when they answer 200 or 201. *)
Theorem X6_failed_requests_do_not_write now db op :
  isFailure (fst (respond now db op)) = true -> snd (respond now db op) = db.
Proof.
  destruct op as [body|user body|id body|user id|id]; simpl.
  - unfold post_appointments, create.
    repeat case_match; simpl; (reflexivity || discriminate).
  - unfold post_appointments_patient, create.
    repeat case_match; simpl; (reflexivity || discriminate).
  - unfold put_appointments_id.
    repeat case_match; simpl; (reflexivity || discriminate).
  - unfold put_appointments_id_cancel.
    repeat case_match; simpl; (reflexivity || discriminate).
  - unfold delete_appointments_id.
    repeat case_match; simpl; (reflexivity || discriminate).
Qed.

Lemma update_neutral_keeps_uniqueSlots db id body :
  slotNeutral (OpUpdate id body) = true ->
  uniqueSlots db -> uniqueSlots (snd (put_appointments_id db id body)).
Proof.
  simpl. rewrite !andb_true_iff, !bool_decide_eq_true.
  intros [[[Hd Hdate] Ht] Hs] Hu.
  unfold put_appointments_id, findByIdAndUpdate. rewrite Hs, Hdate. simpl.
  destruct (negb _); [exact Hu|].
  destruct (appointments db !! id) as [a|] eqn:Ha; [|exact Hu].
  unfold applyUpdate. rewrite Hd, Ht. simpl.
  intros i j x y Hi Hj Hne Hx Hy. simpl in Hi, Hj.
  destruct (decide (i = id)) as [->|Hi'], (decide (j = id)) as [->|Hj'];
    try congruence.
  - rewrite lookup_insert_eq in Hi. injection Hi as <-.
    rewrite lookup_insert_ne in Hj by congruence.
    exact (Hu id j a y Ha Hj Hne Hx Hy).
  - rewrite lookup_insert_eq in Hj. injection Hj as <-.
    rewrite lookup_insert_ne in Hi by congruence.
    exact (Hu i id x a Hi Ha Hne Hx Hy).
  - rewrite lookup_insert_ne in Hi, Hj by congruence. eauto.
Qed.

(** X7: the uniqueness of (doctorId, appointmentDate, appointmentTime)
    among non-terminal appointments is kept by every sequence of creations,
    self-bookings, cancellations, deletions and of updates that set none of
    doctorId, appointmentDate, appointmentTime and status. *)
Theorem X7_slot_neutral_writes_keep_uniqueSlots now ops db :
  forallb slotNeutral ops = true ->
  uniqueSlots db -> uniqueSlots (run now db ops).
Proof.
  unfold run. revert db. induction ops as [|op ops IH]; intros db Hops Hu; simpl.
  - exact Hu.
  - simpl in Hops. apply andb_true_iff in Hops as [Hop Hops].
    apply IH; [exact Hops|].
    destruct (isUpdate op) eqn:Hupd.
    + destruct op; try discriminate. now apply update_neutral_keeps_uniqueSlots.
    + now apply step_keeps_uniqueSlots.
Qed.

Lemma staff_created_inv db body id a db' :
  post_appointments db body = (JsonData 201 id a, db') ->
  exists p d ds t r date doctor st,
    b_patientId body = Some p /\ b_doctorId body = Some d
    /\ b_appointmentDate body = Some ds
    /\ b_appointmentTime body = Some t /\ b_reason body = Some r
    /\ (Js.isISO8601 ds && Js.truthy t && Js.truthy (Js.trim r)
        && optionalIsIn types (b_type body)
        && optionalIsIn priorities (b_priority body)) = true
    /\ p ∈ patients db /\ doctors db !! d = Some doctor
    /\ Js.Date_parse ds = Some date
    /\ conflictingAppointment db d date t = None
    /\ match b_status body with
       | Some s => statusOfString s
       | None => Some scheduled
       end = Some st
    /\ a = createdDoc body p d date t r st
    /\ id = fresh (dom (appointments db))
    /\ db' = withAppointments db (<[id := a]> (appointments db)).
Proof.
  unfold post_appointments.
  destruct (b_patientId body) as [p|]; [|discriminate].
  destruct (b_doctorId body) as [d|]; [|discriminate].
  destruct (b_appointmentDate body) as [ds|]; [|discriminate].
  destruct (b_appointmentTime body) as [t|]; [|discriminate].
  destruct (b_reason body) as [r|]; [|discriminate].
  destruct (_ && _ && _ && _ && _) eqn:Hv; [|discriminate]. simpl.
  case_bool_decide as Hp; [|discriminate]. simpl.
  destruct (doctors db !! d) as [doctor|] eqn:Hdoc; [|discriminate].
  destruct (Js.Date_parse ds) as [date|] eqn:Hdate; [|discriminate].
  destruct (conflictingAppointment db d date t) eqn:Hc; [discriminate|].
  destruct (match b_status body with Some s => statusOfString s | None => Some scheduled end)
    as [st|] eqn:Hst; [|discriminate].
  destruct (schemaValid _); [|discriminate]. cbn [negb].
  unfold create. intros [= <- <- <-].
  exists p, d, ds, t, r, date, doctor, st. repeat split; auto.
Qed.

Lemma staff_created_valid db body id a db' :
  post_appointments db body = (JsonData 201 id a, db') ->
  schemaValid a = true.
Proof.
  unfold post_appointments.
  repeat case_match; try discriminate;
    unfold create; intros [= <- <- <-];
    match goal with H : negb (schemaValid _) = false |- _ =>
      now apply negb_false_iff in H end.
Qed.

(** What the schema still checks once the route's validators have passed:
    the length of the trimmed reason. *)
Lemma schemaValid_createdDoc body p d ds date t r st :
  (Js.isISO8601 ds && Js.truthy t && Js.truthy (Js.trim r)
   && optionalIsIn types (b_type body)
   && optionalIsIn priorities (b_priority body)) = true ->
  schemaValid (createdDoc body p d date t r st) = Js.maxlength 500 (Js.trim r).
Proof.
  rewrite !andb_true_iff. intros [[[[_ Ht] Hr] Hty] Hpr].
  unfold schemaValid, createdDoc.
  cbn [appointmentTime type_ priority reason].
  rewrite Ht, Hr.
  assert (isIn types (default "consultation"%string (b_type body)) = true) as ->
    by (destruct (b_type body); [exact Hty|reflexivity]).
  assert (isIn priorities (default "medium"%string (b_priority body)) = true) as ->
    by (destruct (b_priority body); [exact Hpr|reflexivity]).
  reflexivity.
Qed.

Lemma staff_created db body p d ds t r date doctor st :
  b_patientId body = Some p -> b_doctorId body = Some d ->
  b_appointmentDate body = Some ds ->
  b_appointmentTime body = Some t -> b_reason body = Some r ->
  (Js.isISO8601 ds && Js.truthy t && Js.truthy (Js.trim r)
   && optionalIsIn types (b_type body)
   && optionalIsIn priorities (b_priority body)) = true ->
  p ∈ patients db -> doctors db !! d = Some doctor ->
  Js.Date_parse ds = Some date ->
  match b_status body with
  | Some s => statusOfString s
  | None => Some scheduled
  end = Some st ->
  schemaValid (createdDoc body p d date t r st) = true ->
  post_appointments db body =
    match conflictingAppointment db d date t with
    | Some _ => (Json 400 "Time slot is already booked for this doctor", db)
    | None =>
        let id := fresh (dom (appointments db)) in
        let a := createdDoc body p d date t r st in
        (JsonData 201 id a, withAppointments db (<[id := a]> (appointments db)))
    end.
Proof.
  intros Hp Hd Hds Ht Hr Hv Hin Hdoc Hdate Hst Hschema.
  unfold post_appointments.
  rewrite Hp, Hd, Hds, Ht, Hr, Hv. simpl.
  rewrite bool_decide_true by assumption. simpl.
  rewrite Hdoc, Hdate.
  destruct (conflictingAppointment db d date t); [reflexivity|].
  rewrite Hst. unfold createdDoc in Hschema. now rewrite Hschema.
Qed.

(** X8: an appointment created by staff through [POST /api/appointments]
    is for a known patient and an existing doctor on a slot no non-terminal
    appointment held. When it is created non-terminal the same request is
    then refused as a slot conflict; when it is created with status
    cancelled or completed it does not hold the slot, and the same request
    is accepted again under a new id. *)
Theorem X8_staff_creation_and_its_repeat db body id a db1 :
  post_appointments db body = (JsonData 201 id a, db1) ->
  patientId a ∈ patients db
  /\ is_Some (doctors db !! doctorId a)
  /\ conflictingAppointment db (doctorId a) (appointmentDate a) (appointmentTime a) = None
  /\ appointments db !! id = None /\ appointments db1 !! id = Some a
  /\ (nonTerminal a = true ->
      post_appointments db1 body
      = (Json 400 "Time slot is already booked for this doctor", db1))
  /\ (nonTerminal a = false ->
      exists id2 db2, post_appointments db1 body = (JsonData 201 id2 a, db2)
        /\ id2 <> id /\ appointments db2 !! id = Some a
        /\ appointments db2 !! id2 = Some a).
Proof.
  intros Hpost.
  pose proof (staff_created_valid _ _ _ _ _ Hpost) as Hschema.
  apply staff_created_inv in Hpost
    as (p & d & ds & t & r & date & doctor & st & Hp & Hd & Hds & Ht & Hr & Hv
        & Hin & Hdoc & Hdate & Hfree & Hst & -> & -> & ->).
  set (id := fresh (dom (appointments db))).
  set (a := createdDoc body p d date t r st).
  set (db1 := withAppointments db (<[id := a]> (appointments db))).
  assert (appointments db !! id = None) as Hid by apply fresh_unused.
  split; [exact Hin|]. split; [simpl; eauto|]. split; [exact Hfree|].
  split; [exact Hid|]. split; [simpl; apply lookup_insert_eq|].
  assert (p ∈ patients db1) as Hin1 by exact Hin.
  assert (doctors db1 !! d = Some doctor) as Hdoc1 by exact Hdoc.
  split.
  - intros Hnt.
    rewrite (staff_created db1 body p d ds t r date doctor st) by assumption.
    destruct (conflictingAppointment db1 d date t) eqn:Hc; [reflexivity|].
    exfalso. unfold conflictingAppointment in Hc. rewrite findOne_None in Hc.
    specialize (Hc id a). simpl in Hc. rewrite lookup_insert_eq in Hc.
    specialize (Hc eq_refl). apply andb_false_iff in Hc as [Hc|Hc].
    + assert (sameSlot d date t a = true) as Hs by (apply sameSlot_spec; auto).
      congruence.
    + unfold nonTerminal in Hnt. simpl in Hnt, Hc. congruence.
  - intros Hterm.
    rewrite (staff_created db1 body p d ds t r date doctor st) by assumption.
    destruct (conflictingAppointment db1 d date t) as [[j x]|] eqn:Hc.
    + exfalso. unfold conflictingAppointment in Hc.
      apply findOne_Some in Hc as [Hj Hf]. simpl in Hj.
      unfold conflictingAppointment in Hfree. rewrite findOne_None in Hfree.
      destruct (decide (j = id)) as [->|Hne].
      * rewrite lookup_insert_eq in Hj. injection Hj as <-.
        apply andb_true_iff in Hf as [_ Hf].
        unfold nonTerminal in Hterm. simpl in Hterm, Hf. congruence.
      * rewrite lookup_insert_ne in Hj by congruence.
        rewrite (Hfree _ _ Hj) in Hf. discriminate.
    + cbv zeta. do 2 eexists. split; [reflexivity|].
      assert (fresh (dom (appointments db1)) <> id) as Hne.
      { intros Heq. pose proof (fresh_unused db1) as Hf. rewrite Heq in Hf.
        simpl in Hf. rewrite lookup_insert_eq in Hf. discriminate. }
      split; [exact Hne|]. simpl. split.
      * rewrite lookup_insert_ne by exact Hne. apply lookup_insert_eq.
      * apply lookup_insert_eq.
Qed.

(** X9: for a request that passes the validators of both routes,
    self-booking answers 404 and writes nothing when the doctor is unknown
    or not active, whereas the staff route only asks that the doctor
    exists: with the slot free it goes on to [Appointment.create] whatever
    the doctor's status, which stores the appointment when the trimmed
    reason has at most 500 characters and is answered 500, with nothing
    written, when it has more. *)
Theorem X9_doctor_check_differs db user body p d ds t r date :
  b_patientId body = Some p -> b_doctorId body = Some d ->
  b_appointmentDate body = Some ds ->
  b_appointmentTime body = Some t -> b_reason body = Some r ->
  (Js.isISO8601 ds && Js.truthy t && Js.truthy (Js.trim r)
   && optionalIsIn types (b_type body)
   && optionalIsIn priorities (b_priority body)) = true ->
  role user = Role.patient ->
  p ∈ patients db -> Js.Date_parse ds = Some date ->
  b_status body = None ->
  conflictingAppointment db d date t = None ->
  (doctors db !! d = None ->
     post_appointments_patient db user body
     = (Json 404 "Doctor not found or not available", db)
     /\ post_appointments db body = (Json 404 "Doctor not found", db))
  /\ (forall doctor, doctors db !! d = Some doctor -> status doctor <> active ->
        post_appointments_patient db user body
        = (Json 404 "Doctor not found or not available", db)
        /\ ((String.length (Js.trim r) <= 500)%nat ->
            exists id a db', post_appointments db body = (JsonData 201 id a, db')
              /\ doctorId a = d /\ a_status a = scheduled
              /\ reason a = Js.trim r)
        /\ ((500 < String.length (Js.trim r))%nat ->
            post_appointments db body
            = (Json 500 "Server error while creating appointment", db))).
Proof.
  intros Hp Hd Hds Ht Hr Hv Hrole Hin Hdate Hst Hfree.
  pose proof (schemaValid_createdDoc body p d ds date t r scheduled Hv) as Hschema.
  split.
  - intros Hnone. split.
    + unfold post_appointments_patient. rewrite Hd, Hds, Ht, Hr, Hv. simpl.
      rewrite bool_decide_true by assumption. simpl. now rewrite Hnone.
    + unfold post_appointments. rewrite Hp, Hd, Hds, Ht, Hr, Hv. simpl.
      rewrite bool_decide_true by assumption. simpl. now rewrite Hnone.
  - intros doctor Hdoc Hna. split; [|split].
    + unfold post_appointments_patient. rewrite Hd, Hds, Ht, Hr, Hv. simpl.
      rewrite bool_decide_true by assumption. simpl. rewrite Hdoc.
      now rewrite bool_decide_false.
    + intros Hlen.
      assert (schemaValid (createdDoc body p d date t r scheduled) = true) as Hok.
      { rewrite Hschema. unfold Js.maxlength. now apply Nat.leb_le. }
      rewrite (staff_created db body p d ds t r date doctor scheduled)
        by (try assumption; now rewrite Hst).
      rewrite Hfree. cbv zeta. do 3 eexists. split; [reflexivity|].
      repeat split; reflexivity.
    + intros Hlen.
      assert (schemaValid (createdDoc body p d date t r scheduled) = false) as Hbad.
      { rewrite Hschema. unfold Js.maxlength. now apply Nat.leb_gt. }
      unfold post_appointments. rewrite Hp, Hd, Hds, Ht, Hr, Hv. simpl.
      rewrite bool_decide_true by assumption. simpl.
      rewrite Hdoc, Hdate, Hfree, Hst.
      unfold createdDoc in Hbad. now rewrite Hbad.
Qed.

(** X10: a cancellation that succeeds changes one appointment only: its
    status becomes cancelled, [cancelledBy] and [cancelledAt] record the
    caller and the time, and patient, doctor, date and time stay. The
    appointment is then terminal for this route: cancelling it again is a
    failure that writes nothing, answered 400 to staff. *)
Theorem X10_cancel_once now db user id a' db' :
  put_appointments_id_cancel now db user id = (JsonData 200 id a', db') ->
  exists a, appointments db !! id = Some a
    /\ a_status a <> cancelled /\ a_status a <> completed
    /\ a' = cancelledDoc now user a
    /\ appointments db' !! id = Some a'
    /\ (forall j, j <> id -> appointments db' !! j = appointments db !! j)
    /\ (forall now' user',
          isFailure (fst (put_appointments_id_cancel now' db' user' id)) = true
          /\ snd (put_appointments_id_cancel now' db' user' id) = db')
    /\ (forall now' user', role user' <> Role.patient ->
          put_appointments_id_cancel now' db' user' id
          = (Json 400 "This appointment cannot be cancelled", db')).
Proof.
  intros Hc.
  apply cancel_ok_inv in Hc as (a & Ha & Hnc & Hncan & -> & _ & ->).
  exists a. split; [exact Ha|]. split; [exact Hncan|]. split; [exact Hnc|].
  split; [reflexivity|]. split; [simpl; apply lookup_insert_eq|].
  split; [intros j Hj; simpl; now apply lookup_insert_ne|].
  split.
  - intros now' user'. unfold put_appointments_id_cancel. simpl.
    rewrite lookup_insert_eq. simpl.
    repeat case_match; simpl; auto.
  - intros now' user' Hrole. unfold put_appointments_id_cancel. simpl.
    rewrite lookup_insert_eq. simpl.
    rewrite (bool_decide_false (role user' = Role.patient)) by exact Hrole.
    reflexivity.
Qed.

(** X11: a patient who calls the cancel route on an appointment whose
    [patientId] is not the caller's id never changes the store. *)
Theorem X11_patient_cannot_cancel_for_others now db user id a :
  role user = Role.patient ->
  appointments db !! id = Some a -> patientId a <> user_id user ->
  isFailure (fst (put_appointments_id_cancel now db user id)) = true
  /\ snd (put_appointments_id_cancel now db user id) = db.
Proof.
  intros Hrole Ha Hne. unfold put_appointments_id_cancel. rewrite Ha.
  rewrite (bool_decide_true (role user = Role.patient)) by exact Hrole. simpl.
  destruct (negb (bool_decide (patientId a ∈ patients db))); [split; reflexivity|].
  destruct (Nat.eqb_spec (patientId a) (user_id user)); [contradiction|].
  split; reflexivity.
Qed.

(** X12: [PUT /api/appointments/:id] enforces no transition rule: for every
    stored appointment, whatever its current status (cancelled and
    completed included), a body that carries only a valid status stores
    that status and changes nothing else, neither in the appointment nor
    in the rest of the store. *)
Theorem X12_update_sets_any_status db id a s st :
  appointments db !! id = Some a -> statusOfString s = Some st ->
  put_appointments_id db id (setStatus s)
  = (JsonData 200 id (withStatus a st),
     withAppointments db (<[id := withStatus a st]> (appointments db))).
Proof.
  intros Ha Hs. unfold put_appointments_id, findByIdAndUpdate. simpl.
  rewrite Hs. simpl. rewrite Ha. reflexivity.
Qed.

(** X13: deleting a stored appointment removes it and nothing else; in a
    store that satisfies the uniqueness of slots, deleting a non-terminal
    appointment leaves its slot free for the conflict query. *)
Theorem X13_delete_frees_the_slot db id a :
  appointments db !! id = Some a ->
  exists db', delete_appointments_id db id
              = (Json 200 "Appointment deleted successfully", db')
    /\ appointments db' !! id = None
    /\ (forall j, j <> id -> appointments db' !! j = appointments db !! j)
    /\ (uniqueSlots db -> nonTerminal a = true ->
        conflictingAppointment db' (doctorId a) (appointmentDate a)
          (appointmentTime a) = None).
Proof.
  intros Ha. unfold delete_appointments_id. rewrite Ha. eexists.
  split; [reflexivity|]. simpl.
  split; [apply lookup_delete_eq|].
  split; [intros j Hj; now apply lookup_delete_ne|].
  intros Hu Hnt. unfold conflictingAppointment. apply findOne_None.
  intros j x Hj. simpl in Hj. apply lookup_delete_Some in Hj as [Hne Hj].
  destruct (nin_cancelled_completed (a_status x)) eqn:Hx;
    [|apply andb_false_r].
  rewrite (Hu id j a x Ha Hj) by (auto; congruence). reflexivity.
Qed.

(** X14: deleting the appointment a self-booking has just created gives
    back the store the booking started from. *)
Theorem X14_book_then_delete db user body id a db' :
  post_appointments_patient db user body = (JsonData 201 id a, db') ->
  delete_appointments_id db' id = (Json 200 "Appointment deleted successfully", db).
Proof.
  intros Hbook.
  apply book_created_inv in Hbook
    as (d0 & ds & t & r & date0 & doctor & _ & _ & _ & _ & _ & _
        & _ & _ & _ & _ & -> & -> & ->).
  unfold delete_appointments_id. simpl. rewrite lookup_insert_eq. f_equal.
  unfold withAppointments. simpl.
  rewrite delete_insert_eq, delete_id by apply fresh_unused.
  now destruct db.
Qed.

(** X15: the booking page never creates an appointment. Its availability
    request is answered 200 by no store whose doctors carry the seven
    weekday keys only, so [handleSubmit] stops before the booking request:
    the store is unchanged and no 201 comes back. *)
Theorem X15_booking_page_never_books now db user selectedDoctor
    selectedDate selectedTime reason appointmentType priority :
  (forall d doctor, doctors db !! d = Some doctor ->
     availability doctor !! "Invalid Date"%string = None) ->
  snd (handleSubmit now db user selectedDoctor selectedDate selectedTime reason
         appointmentType priority) = db
  /\ forall id a,
       fst (handleSubmit now db user selectedDoctor selectedDate selectedTime
              reason appointmentType priority) <> Some (JsonData 201 id a).
Proof.
  intros Hkeys. unfold handleSubmit.
  destruct selectedDoctor as [doctorId|]; [|split; [reflexivity|discriminate]].
  destruct (negb _); [split; [reflexivity|discriminate]|].
  set (body := {| b_patientId := None; b_doctorId := Some doctorId;
                  b_appointmentDate := Some selectedDate;
                  b_appointmentTime := Some selectedTime;
                  b_status := None; b_type := None; b_priority := None;
                  b_reason := None |}).
  pose proof (check_availability_never_approves now db body Hkeys) as Hno.
  assert (forall id a, post_check_availability now db body <> JsonData 201 id a)
    as Hjson.
  { intros id a. unfold post_check_availability. repeat case_match; discriminate. }
  destruct (post_check_availability now db body) as [code msg|code id a|code] eqn:Hc.
  - destruct (Z.eq_dec code 200) as [->|Hne]; [now destruct (Hno msg)|].
    assert (match code with
            | 200 =>
                let (response, db') :=
                  post_appointments_patient db user
                    {| b_patientId := Some (user_id user);
                       b_doctorId := Some doctorId;
                       b_appointmentDate := Some selectedDate;
                       b_appointmentTime := Some selectedTime;
                       b_status := None; b_type := Some appointmentType;
                       b_priority := Some priority;
                       b_reason := Some (Js.trim reason) |} in
                (Some response, db')
            | _ => (Some (Json code msg), db)
            end = (Some (Json code msg), db)) as ->.
    { destruct code as [|p|p]; try reflexivity.
      do 8 (destruct p as [p|p|]; try reflexivity). congruence. }
    split; [reflexivity|discriminate].
  - split; [reflexivity|]. intros id' a' [= -> -> ->]. now destruct (Hjson id' a').
  - split; [reflexivity|discriminate].
Qed.

(** X16: the answers of the availability check. Whatever the request, the
    answer is one of five: the three early 400s (fields required, doctor not
    found or not available, date not in the future), 400 for a day without
    availability, or 500; it never reports a time outside the working hours
    or a slot already booked. For an active doctor and non-empty date and
    time the answer depends on the requested instant alone: 400 when it is
    not after [now], 500 when it is, and 400 for the day when the host
    cannot parse it. *)
Theorem X16_check_availability_answers now db body :
  (forall d doctor, doctors db !! d = Some doctor ->
     availability doctor !! "Invalid Date"%string = None) ->
  In (post_check_availability now db body)
     [Json 400 "Doctor ID, appointment date, and time are required";
      Json 400 "Doctor not found or not available";
      Json 400 "Appointment date and time must be in the future";
      Json 400 "Doctor is not available on this day";
      Json 500 "Server error while checking availability"]
  /\ forall d ds t doctor,
       b_doctorId body = Some d -> b_appointmentDate body = Some ds ->
       b_appointmentTime body = Some t ->
       Js.truthy ds = true -> Js.truthy t = true ->
       doctors db !! d = Some doctor -> status doctor = active ->
       post_check_availability now db body
       = match Js.Date_parse (ds ++ "T" ++ t) with
         | Some instant =>
             if instant <=? now
             then Json 400 "Appointment date and time must be in the future"
             else Json 500 "Server error while checking availability"
         | None => Json 400 "Doctor is not available on this day"
         end.
Proof.
  intros Hkeys. split.
  - unfold post_check_availability.
    destruct (b_doctorId body) as [d|]; [|simpl; auto].
    destruct (b_appointmentDate body) as [ds|]; [|simpl; auto].
    destruct (b_appointmentTime body) as [t|]; [|simpl; auto].
    destruct (negb _); [simpl; auto|].
    destruct (doctors db !! d) as [doctor|] eqn:Hdoc; [|simpl; auto].
    destruct (negb _); [simpl; auto|].
    destruct (Js.Date_parse (ds ++ "T" ++ t)) as [instant|].
    + destruct (Js.date_le _ _); [simpl; auto|].
      rewrite dayOfWeek_server_throws. simpl. auto 6.
    + simpl. rewrite (Hkeys _ _ Hdoc). simpl. auto 6.
  - intros d ds t doctor Hd Hds Ht Hds' Ht' Hdoc Hact.
    unfold post_check_availability.
    rewrite Hd, Hds, Ht, Hds', Ht', Hdoc. simpl.
    rewrite bool_decide_true by assumption. simpl.
    destruct (Js.Date_parse (ds ++ "T" ++ t)) as [instant|]; simpl.
    + destruct (instant <=? now); reflexivity.
    + rewrite (Hkeys _ _ Hdoc). reflexivity.
Qed.

(** X17: the booking page offers slots only inside an available day's
    window. When [getAvailableTimeSlots] returns a non-empty list, a doctor
    is selected, the date is non-empty, the doctor's entry under the
    lowercased weekday name exists and is available, its two times parse
    with start before end, and the list is the 30-minute grid from start,
    one entry per loop pass. *)
Theorem X17_slots_only_inside_a_window doctor date slots :
  getAvailableTimeSlots doctor date = Js.Normal slots -> slots <> [] ->
  exists d weekday day cs ce,
    doctor = Some d /\ Js.truthy date = true
    /\ Js.toLocaleDateString_weekday (Js.Date_parse date) "long" = Js.Normal weekday
    /\ availability d !! Js.toLowerCase weekday = Some day
    /\ available day = true
    /\ Js.Date_parse ("2000-01-01 " ++ start day) = Some cs
    /\ Js.Date_parse ("2000-01-01 " ++ end_ day) = Some ce
    /\ cs < ce
    /\ slots = map Js.toLocaleTimeString_hm12 (grid cs (slotCount cs ce))
    /\ length slots = slotCount cs ce.
Proof.
  unfold getAvailableTimeSlots. intros Hslots Hne.
  destruct doctor as [d|]; [|now injection Hslots as <-].
  destruct (Js.truthy date) eqn:Hdate; simpl in Hslots;
    [|now injection Hslots as <-].
  destruct (Js.toLocaleDateString_weekday (Js.Date_parse date) "long")
    as [weekday|e] eqn:Hw; [|discriminate].
  destruct (availability d !! Js.toLowerCase weekday) as [day|] eqn:Hday;
    [|now injection Hslots as <-].
  destruct (available day) eqn:Hav; simpl in Hslots;
    [|now injection Hslots as <-].
  destruct (Js.Date_parse ("2000-01-01 " ++ start day)) as [cs|] eqn:Hcs;
    [|now injection Hslots as <-].
  destruct (Js.Date_parse ("2000-01-01 " ++ end_ day)) as [ce|] eqn:Hce;
    [|now injection Hslots as <-].
  injection Hslots as <-.
  exists d, weekday, day, cs, ce.
  rewrite slotLoop_grid in *.
  repeat (split; [solve [auto]|]).
  split.
  - destruct (Z_lt_dec cs ce) as [Hlt|Hge]; [exact Hlt|].
    rewrite slotCount_ge in Hne by lia. now destruct Hne.
  - split; [reflexivity|].
    unfold grid. now rewrite !length_map, length_seq.
Qed.

End Handlers.

Section HandlerEvaluations.
#[local] Existing Instance RefHost.host.

Lemma X6_failed_requests_do_not_write_witness :
  respond now0 db0 (OpBook frontDesk (request monday "10:00"))
  = (Json 403 "Only patients can book appointments using this route", db0)
  /\ snd (respond now0 db0 (OpUpdate 3 (setTime "10:00"))) = db0.
Proof.
  split; [vm_compute; reflexivity|].
  apply X6_failed_requests_do_not_write. vm_compute. reflexivity.
Defined.

Lemma X7_slot_neutral_writes_keep_uniqueSlots_witness :
  uniqueSlots (run now0 db0 [OpBook alice (request monday "10:00");
                             OpUpdate 0 (setReason "migraine");
                             OpBook bob (request monday "10:30");
                             OpCancel frontDesk 0;
                             OpBook bob (request monday "10:00");
                             OpDelete 1]).
Proof.
  apply X7_slot_neutral_writes_keep_uniqueSlots; [reflexivity|].
  intros i j a b Hi. simpl in Hi. rewrite lookup_empty in Hi. discriminate.
Defined.

Lemma X8_staff_creation_and_its_repeat_witness :
  (exists a db2, post_appointments db1 (staffRequest 1 "10:00" None) = (JsonData 201 0 a, db2)
     /\ post_appointments db2 (staffRequest 1 "10:00" None)
        = (Json 400 "Time slot is already booked for this doctor", db2))
  /\ (exists a db2 id2 db3,
        post_appointments db1 (staffRequest 1 "10:00" (Some "completed"%string))
        = (JsonData 201 0 a, db2)
        /\ post_appointments db2 (staffRequest 1 "10:00" (Some "completed"%string))
           = (JsonData 201 id2 a, db3)
        /\ id2 <> 0%nat).
Proof.
  split.
  - eexists; eexists. split; [vm_compute; reflexivity|].
    match goal with
    | |- post_appointments ?d ?b = _ =>
        assert (post_appointments db1 b
                = (JsonData 201 0%nat
                     (createdDoc b 5 1 mondayDate "10:00" "follow-up" scheduled), d))
          as Hpost by (vm_compute; reflexivity)
    end.
    destruct (X8_staff_creation_and_its_repeat _ _ _ _ _ Hpost)
      as (_ & _ & _ & _ & _ & Hdup & _).
    apply Hdup. reflexivity.
  - eexists; eexists.
    match goal with
    | |- exists id2 db3, post_appointments db1 ?b = (_, ?d) /\ _ =>
        assert (post_appointments db1 b
                = (JsonData 201 0%nat
                     (createdDoc b 5 1 mondayDate "10:00" "follow-up" completed), d))
          as Hpost by (vm_compute; reflexivity)
    end.
    destruct (X8_staff_creation_and_its_repeat _ _ _ _ _ Hpost)
      as (_ & _ & _ & _ & _ & _ & Hagain).
    destruct (Hagain eq_refl) as (id2 & db3 & Hpost2 & Hne & _).
    exists id2, db3. split; [exact Hpost|].
    split; [exact Hpost2|exact Hne].
Defined.

Lemma X9_doctor_check_differs_witness :
  post_appointments_patient db1 alice (staffRequest 2 "10:00" None)
  = (Json 404 "Doctor not found or not available", db1)
  /\ (exists id a db', post_appointments db1 (staffRequest 2 "10:00" None)
                       = (JsonData 201 id a, db')
        /\ doctorId a = 2%nat /\ a_status a = scheduled
        /\ reason a = "follow-up"%string)
  /\ post_appointments db1 (withReason (staffRequest 2 "10:00" None) longReason)
     = (Json 500 "Server error while creating appointment", db1).
Proof.
  destruct (X9_doctor_check_differs db1 alice (staffRequest 2 "10:00" None)
              5 2 monday "10:00" "follow-up" mondayDate)
    as (_ & Hleave); try (vm_compute; reflexivity).
  destruct (Hleave drHouse) as (H404 & Hstaff & _);
    [vm_compute; reflexivity|discriminate|].
  destruct (X9_doctor_check_differs db1 alice
              (withReason (staffRequest 2 "10:00" None) longReason)
              5 2 monday "10:00" longReason mondayDate)
    as (_ & Hlong); try (vm_compute; reflexivity).
  destruct (Hlong drHouse) as (_ & _ & H500);
    [vm_compute; reflexivity|discriminate|].
  split; [exact H404|]. split.
  - apply Hstaff. vm_compute. lia.
  - apply H500. vm_compute. lia.
Defined.

(** A reason of 510 characters, and one that is a vertical tab, sent to the
    self-booking route: the first passes the route's validators and is
    refused by the schema, the second is empty once trimmed. *)
Example reason_length_and_white_space :
  post_appointments_patient db0 alice (withReason (request monday "10:00") longReason)
  = (Json 500 "Server error while booking appointment", db0)
  /\ post_appointments_patient db0 alice
       (withReason (request monday "10:00") (String (ascii_of_nat 11) ""))
     = (JsonErrors 400, db0).
Proof. split; vm_compute; reflexivity. Qed.

Lemma X10_cancel_once_witness :
  let booked := snd (post_appointments_patient db0 alice (request monday "10:00")) in
  exists a' db', put_appointments_id_cancel now0 booked frontDesk 0 = (JsonData 200 0 a', db')
    /\ a_status a' = cancelled /\ cancelledBy a' = Some 2%nat
    /\ put_appointments_id_cancel (now0 + 1) db' frontDesk 0
       = (Json 400 "This appointment cannot be cancelled", db').
Proof.
  cbv zeta. eexists; eexists. split; [vm_compute; reflexivity|].
  match goal with
  | |- a_status ?a' = _ /\ _ /\ put_appointments_id_cancel _ ?d _ _ = _ =>
      assert (put_appointments_id_cancel now0
                (snd (post_appointments_patient db0 alice (request monday "10:00")))
                frontDesk 0%nat = (JsonData 200 0%nat a', d))
        as Hcancel by (vm_compute; reflexivity)
  end.
  destruct (X10_cancel_once _ _ _ _ _ _ Hcancel)
    as (a & _ & _ & _ & _ & _ & _ & _ & Hagain).
  split; [reflexivity|]. split; [reflexivity|].
  apply Hagain. discriminate.
Defined.

Lemma X11_patient_cannot_cancel_for_others_witness :
  let booked := snd (post_appointments_patient db0 alice (request monday "10:00")) in
  snd (put_appointments_id_cancel now0 booked bob 0) = booked.
Proof.
  cbv zeta.
  apply (X11_patient_cannot_cancel_for_others now0 _ bob 0%nat aliceAt10);
    [reflexivity|vm_compute; reflexivity|discriminate].
Defined.

Lemma X12_update_sets_any_status_witness :
  let cancelled_ := run now0 db0 [OpBook alice (request monday "10:00");
                                  OpCancel frontDesk 0] in
  exists a, appointments cancelled_ !! 0%nat = Some a /\ a_status a = cancelled
    /\ fst (put_appointments_id cancelled_ 0 (setStatus "confirmed"))
       = JsonData 200 0 (withStatus a confirmed).
Proof.
  cbv zeta. eexists. split; [vm_compute; reflexivity|]. split; [reflexivity|].
  erewrite X12_update_sets_any_status; [reflexivity|vm_compute; reflexivity|reflexivity].
Defined.

Lemma X13_delete_frees_the_slot_witness :
  let booked := snd (post_appointments_patient db0 alice (request monday "10:00")) in
  exists db', delete_appointments_id booked 0
              = (Json 200 "Appointment deleted successfully", db')
    /\ conflictingAppointment db' 1 mondayDate "10:00" = None.
Proof.
  cbv zeta.
  assert (appointments
            (snd (post_appointments_patient db0 alice (request monday "10:00")))
          !! 0%nat = Some aliceAt10) as Hstored by (vm_compute; reflexivity).
  destruct (X13_delete_frees_the_slot _ _ _ Hstored)
    as (db' & Hdel & _ & _ & Hfree).
  exists db'. split; [exact Hdel|].
  apply Hfree; [|reflexivity].
  apply (run_keeps_uniqueSlots now0 [OpBook alice (request monday "10:00")] db0);
    [reflexivity|apply uniqueSlots_db0].
Defined.

Lemma X14_book_then_delete_witness :
  exists a db', post_appointments_patient db0 alice (request monday "10:00")
                = (JsonData 201 0 a, db')
    /\ delete_appointments_id db' 0
       = (Json 200 "Appointment deleted successfully", db0).
Proof.
  eexists; eexists. split; [vm_compute; reflexivity|].
  eapply (X14_book_then_delete db0 alice (request monday "10:00")).
  vm_compute. reflexivity.
Defined.

Lemma X15_booking_page_never_books_witness :
  snd (handleSubmit now0 db0 alice (Some 1%nat) monday "10:00" "checkup"
         "consultation" "medium") = db0.
Proof.
  apply X15_booking_page_never_books.
  intros d doctor Hd. unfold db0 in Hd. simpl in Hd.
  apply lookup_singleton_Some in Hd as [_ <-]. vm_compute. reflexivity.
Defined.

Lemma X16_check_availability_answers_witness :
  post_check_availability now0 db0 (request monday "18:00")
  = Json 500 "Server error while checking availability"
  /\ post_check_availability now0 db0 (request lastMonday "10:00")
     = Json 400 "Appointment date and time must be in the future".
Proof.
  assert (forall d doctor, doctors db0 !! d = Some doctor ->
            availability doctor !! "Invalid Date"%string = None) as Hkeys.
  { intros d doctor Hd. unfold db0 in Hd. simpl in Hd.
    apply lookup_singleton_Some in Hd as [_ <-]. vm_compute. reflexivity. }
  split.
  - destruct (X16_check_availability_answers now0 db0 (request monday "18:00") Hkeys)
      as [_ Htable].
    rewrite (Htable 1%nat monday "18:00"%string drGrey); vm_compute; reflexivity.
  - destruct (X16_check_availability_answers now0 db0 (request lastMonday "10:00") Hkeys)
      as [_ Htable].
    rewrite (Htable 1%nat lastMonday "10:00"%string drGrey); vm_compute; reflexivity.
Defined.

Lemma X17_slots_only_inside_a_window_witness :
  exists slots cs ce,
    getAvailableTimeSlots (Some drGrey) monday = Js.Normal slots
    /\ Js.Date_parse "2000-01-01 09:00" = Some cs
    /\ Js.Date_parse "2000-01-01 17:00" = Some ce
    /\ cs < ce /\ length slots = slotCount cs ce.
Proof.
  destruct (getAvailableTimeSlots (Some drGrey) monday) as [slots|e] eqn:Hslots;
    [|vm_compute in Hslots; discriminate].
  destruct (X17_slots_only_inside_a_window (Some drGrey) monday slots Hslots)
    as (d & weekday & day & cs & ce & Hd & _ & Hw & Hday & _ & Hcs & Hce & Hlt & _ & Hlen).
  { vm_compute in Hslots. injection Hslots as <-. discriminate. }
  injection Hd as <-.
  vm_compute in Hw. injection Hw as <-.
  vm_compute in Hday. injection Hday as <-.
  exists slots, cs, ce. auto.
Defined.

End HandlerEvaluations.

End ApptCoverage.

(** ** Routing and access control: properties *)

Module AccessCoverage.
Import Appt Client ApptExamples ApptFacts ApptOps ApptCases.
Import Express Auth Routers ApptApi AuthCases.

Lemma protect_inv s req req' :
  protect s req = Next req' ->
  exists authorization token id account,
    req_authorization req = Some authorization
    /\ nth_error (split " " authorization) 1 = Some token
    /\ jwt_verify s token = Some id
    /\ accounts s !! id = Some account /\ isActive account = true
    /\ req' = {| req_authorization := req_authorization req;
                 req_user := Some {| user_id := id; role := account_role account |};
                 req_params := req_params req |}.
Proof.
  unfold protect. intros Hp.
  destruct (req_authorization req) as [authorization|]; [|discriminate].
  destruct (_ && _); [|discriminate].
  destruct (nth_error _ 1) as [token|] eqn:Htoken; [|discriminate].
  destruct (jwt_verify s token) as [id|] eqn:Hid; [|discriminate].
  destruct (accounts s !! id) as [account|] eqn:Hacc; [|discriminate].
  destruct (isActive account) eqn:Hact; [|discriminate].
  injection Hp as <-. exists authorization, token, id, account. auto 10.
Qed.

Lemma protect_params s h u ps :
  caller s h = Some u ->
  protect s {| req_authorization := h; req_user := None; req_params := ps |}
  = Next {| req_authorization := h; req_user := Some u; req_params := ps |}.
Proof.
  unfold caller, protect. cbn [req_authorization req_user req_params].
  destruct h as [authorization|]; [|discriminate].
  destruct (_ && _); [|discriminate].
  destruct (nth_error _ 1) as [token|]; [|discriminate].
  destruct (jwt_verify s token) as [id|]; [|discriminate].
  destruct (accounts s !! id) as [account|]; [|discriminate].
  destruct (isActive account); [|discriminate].
  simpl. now intros [= <-].
Qed.

Lemma protect_refuses s h ps :
  caller s h = None ->
  exists message,
    protect s {| req_authorization := h; req_user := None; req_params := ps |}
    = Answer 401 message.
Proof.
  unfold caller, protect. cbn [req_authorization req_user req_params].
  destruct h as [authorization|]; [|eauto].
  destruct (_ && _); [|eauto].
  destruct (nth_error _ 1) as [token|]; [|eauto].
  destruct (jwt_verify s token) as [id|]; [|eauto].
  destruct (accounts s !! id) as [account|]; [|eauto].
  destruct (isActive account); [|eauto].
  discriminate.
Qed.

(** X18: [protect] lets a request through exactly when the
    [Authorization] header starts with [Bearer], its second
    space-separated word is a token that [jwt.verify] accepts, the id it
    decodes is that of a stored user, and that user's [isActive] is set;
    the request then goes on with [req.user] set to that user and nothing
    else changed. Every refusal is a 401. *)
Theorem X18_protect_passes_active_accounts_only (s : Session) (req : Request) :
  (forall req',
     protect s req = Next req'
     <-> exists authorization token id account,
           req_authorization req = Some authorization
           /\ String.prefix "Bearer" authorization = true
           /\ nth_error (split " " authorization) 1 = Some token
           /\ jwt_verify s token = Some id
           /\ accounts s !! id = Some account /\ isActive account = true
           /\ req' = {| req_authorization := req_authorization req;
                        req_user := Some {| user_id := id;
                                            role := account_role account |};
                        req_params := req_params req |})
  /\ (forall code message, protect s req = Answer code message -> code = 401).
Proof.
  split.
  - intros req'. unfold protect. split.
    + intros Hp.
      destruct (req_authorization req) as [authorization|]; [|discriminate].
      destruct (Js.truthy authorization); [|discriminate]. cbn [andb] in Hp.
      destruct (String.prefix "Bearer" authorization) eqn:Hpre; [|discriminate].
      destruct (nth_error _ 1) as [token|] eqn:Htoken; [|discriminate].
      destruct (jwt_verify s token) as [id|] eqn:Hid; [|discriminate].
      destruct (accounts s !! id) as [account|] eqn:Hacc; [|discriminate].
      destruct (isActive account) eqn:Hact; [|discriminate].
      injection Hp as <-. exists authorization, token, id, account. auto 10.
    + intros (authorization & token & id & account & Hh & Hpre & Htoken & Hid
              & Hacc & Hact & ->).
      rewrite Hh, Hpre.
      assert (Js.truthy authorization = true) as ->
        by (destruct authorization; [discriminate Hpre|reflexivity]).
      cbn [andb]. now rewrite Htoken, Hid, Hacc, Hact.
  - intros code message Hp. unfold protect in Hp. repeat case_match; congruence.
Qed.

(** X19: [authorize(...roles)] lets through exactly the users whose role
    is listed and answers 403 to the others. Hence the derived middleware
    form a hierarchy: whoever passes [requireAdmin] passes [requireDoctor]
    and [requireReceptionist]; whoever passes one of these passes
    [requireStaff]; [requireStaff] stops the patients only; and
    [requirePatient] lets every authenticated user through. *)
Theorem X19_authorize_hierarchy (req : Request) (u : User) :
  req_user req = Some u ->
  (forall roles, authorize roles req = Next req <-> role u ∈ roles)
  /\ (forall roles, role u ∉ roles ->
        exists message, authorize roles req = Answer 403 message)
  /\ (requireAdmin req = Next req ->
      requireDoctor req = Next req /\ requireReceptionist req = Next req)
  /\ (requireDoctor req = Next req \/ requireReceptionist req = Next req ->
      requireStaff req = Next req)
  /\ (requireStaff req = Next req <-> role u <> Role.patient)
  /\ requirePatient req = Next req.
Proof.
  intros Hu.
  assert (forall roles, authorize roles req = Next req <-> role u ∈ roles) as Hiff.
  { intros roles. unfold authorize, includes. rewrite Hu.
    case_bool_decide; simpl; split; auto; try discriminate; contradiction. }
  split; [exact Hiff|]. split.
  { intros roles Hnot. unfold authorize, includes. rewrite Hu.
    rewrite bool_decide_false by exact Hnot. simpl. eauto. }
  unfold requireAdmin, requireDoctor, requireReceptionist, requireStaff,
    requirePatient.
  rewrite !Hiff. destruct (role u); set_solver.
Qed.

(** X20: [protectPatientOrStaff] lets an authenticated user through
    exactly when the role is a staff role, or the role is patient and the
    route's [:id] is the user's own id; otherwise it answers 403. On a
    route without an [:id] parameter every patient is refused, and whoever
    passes [requireStaff] passes it. *)
Theorem X20_patient_or_staff (req : Request) (u : User) :
  req_user req = Some u ->
  (protectPatientOrStaff req = Next req <->
     role u <> Role.patient
     \/ param "id" (req_params req) = Some (ObjectId (user_id u)))
  /\ (protectPatientOrStaff req = Next req
      \/ protectPatientOrStaff req = Answer 403 "Not authorized")
  /\ (role u = Role.patient -> param "id" (req_params req) = None ->
      protectPatientOrStaff req = Answer 403 "Not authorized")
  /\ (requireStaff req = Next req -> protectPatientOrStaff req = Next req).
Proof.
  intros Hu.
  unfold protectPatientOrStaff, requireStaff, authorize, includes. rewrite Hu.
  destruct (role u) eqn:Hrole; simpl.
  all: try (repeat split; auto; try discriminate; intros _; left; discriminate).
  case_bool_decide as Hid; simpl.
  - repeat split; auto; try discriminate. intros _ Hnone. congruence.
  - repeat split; auto; try discriminate.
    intros [Hne|Heq]; [now destruct Hne|contradiction].
Qed.

(** X21: [GET /api/patients/profile] has no reachable handler. In
    [patients.js] the route [GET /:id] is declared before [GET /profile]
    and matches every one-segment path, so no path is ever dispatched to
    the handler of line 247; the path [/profile] goes to the handler of
    line 64 with [req.params.id = 'profile']. Every other route of the five
    routers is the one its own path is dispatched to. *)
Theorem X21_profile_route_is_shadowed (s : Session) :
  (forall m path r ps,
     dispatch (patientRoutes s) m path = Some (r, ps) -> line r <> 247%nat)
  /\ (exists r, dispatch (patientRoutes s) GET [Text "profile"]
                = Some (r, [("id"%string, Text "profile")])
        /\ line r = 64%nat)
  /\ Forall (fun mount =>
               Forall (fun r => reachable (snd mount) r
                                = negb (shadowed (fst mount) r))
                      (snd mount))
            (mounted s).
Proof.
  split; [|split].
  - intros m path r ps Hd Hline.
    destruct m; destruct path as [|x [|y [|z rest]]];
      cbn -[String.eqb Js.toLowerCase] in Hd;
      repeat case_match; try discriminate;
      injection Hd as <- <-; simpl in Hline; discriminate.
  - eexists. split; reflexivity.
  - repeat constructor.
Qed.

Lemma target_dispatch s op :
  exists r, dispatch (appointmentRoutes s) (fst (target op)) (snd (target op))
            = Some (r, match op with
                       | OpUpdate id _ | OpCancel _ id | OpDelete id =>
                           [("id"%string, ObjectId id)]
                       | _ => []
                       end)
    /\ line r = handlerLine op
    /\ chain r = match op with
                 | OpBook _ _ | OpCancel _ _ => [protect s]
                 | _ => [protect s; requireStaff]
                 end.
Proof. destruct op; eexists; (split; [reflexivity|split; reflexivity]). Qed.

Lemma serve_chain router m path h r ps :
  dispatch router m path = Some (r, ps) ->
  serve router m path h
  = match through (chain r)
            {| req_authorization := h; req_user := None; req_params := ps |} with
    | Next req => Reached (line r) req
    | Answer code message => Answered code message
    end.
Proof. unfold serve. now intros ->. Qed.

Lemma through_protect s h u ps rest :
  caller s h = Some u ->
  through (protect s :: rest)
    {| req_authorization := h; req_user := None; req_params := ps |}
  = through rest {| req_authorization := h; req_user := Some u; req_params := ps |}.
Proof. intros Hc. cbn [through]. now rewrite (protect_params _ _ _ _ Hc). Qed.

Lemma through_protect_refuses s h ps rest :
  caller s h = None ->
  exists message,
    through (protect s :: rest)
      {| req_authorization := h; req_user := None; req_params := ps |}
    = Answer 401 message.
Proof.
  intros Hc. destruct (protect_refuses s h ps Hc) as [message Hp].
  exists message. cbn [through]. now rewrite Hp.
Qed.

(** X22: the three requests of the patient dashboard
    ([PatientDashboard.jsx], lines 36-41) are all refused to a patient.
    For a caller whom [protect] authenticates as a patient,
    [GET /api/patients/profile] is answered 403 by the middleware of
    [GET /:id], [GET /api/appointments] by [requireStaff], and
    [GET /api/billing] by [protectPatientOrStaff], whose route has no [:id]
    to compare with. *)
Theorem X22_patient_dashboard_is_refused (s : Session)
    (authorization : option string) (u : User) :
  caller s authorization = Some u -> role u = Role.patient ->
  app s GET [Text "api"; Text "patients"; Text "profile"] authorization
  = Some (Answered 403 "Not authorized")
  /\ app s GET [Text "api"; Text "appointments"] authorization
     = Some (Answered 403
               "User role 'patient' is not authorized to access this route")
  /\ app s GET [Text "api"; Text "billing"] authorization
     = Some (Answered 403 "Not authorized").
Proof.
  intros Hcaller Hrole.
  split; [|split].
  - assert (app s GET [Text "api"; Text "patients"; Text "profile"] authorization
            = Some (serve (patientRoutes s) GET [Text "profile"] authorization))
      as -> by reflexivity.
    f_equal. erewrite serve_chain by reflexivity.
    cbn [chain line]. rewrite (through_protect _ _ _ _ _ Hcaller).
    cbn [through]. unfold protectPatientOrStaff. cbn [req_user req_params].
    rewrite Hrole. reflexivity.
  - assert (app s GET [Text "api"; Text "appointments"] authorization
            = Some (serve (appointmentRoutes s) GET [] authorization))
      as -> by reflexivity.
    f_equal. erewrite serve_chain by reflexivity.
    cbn [chain line]. rewrite (through_protect _ _ _ _ _ Hcaller).
    cbn [through]. unfold requireStaff, authorize. cbn [req_user].
    rewrite Hrole. reflexivity.
  - assert (app s GET [Text "api"; Text "billing"] authorization
            = Some (serve (billingRoutes s) GET [] authorization))
      as -> by reflexivity.
    f_equal. erewrite serve_chain by reflexivity.
    cbn [chain line]. rewrite (through_protect _ _ _ _ _ Hcaller).
    cbn [through]. unfold protectPatientOrStaff. cbn [req_user req_params].
    rewrite Hrole. reflexivity.
Qed.

Section Writes.
Context `{Js.Host}.

(** X23: what the router lets through to the write handlers of
    [appointments.js]. Without a header that [protect] accepts every write
    is answered 401 and the store is left alone. A patient reaches the
    self-booking and the cancel handler only, with [req.user] as the
    caller; creation, update and deletion are answered 403 without a
    write. A caller of any other role reaches the handler of the
    operation. *)
Theorem X23_router_guards_appointment_writes (s : Session) (now : Z) (db : DB)
    (authorization : option string) (op : Op) :
  match caller s authorization with
  | None => exists message, serveWrite s now db authorization op = (Json 401 message, db)
  | Some u =>
      if bool_decide (role u = Role.patient)
      then match op with
           | OpBook _ _ | OpCancel _ _ =>
               serveWrite s now db authorization op = respond now db (asCaller u op)
           | _ => exists message,
                    serveWrite s now db authorization op = (Json 403 message, db)
           end
      else serveWrite s now db authorization op = respond now db (asCaller u op)
  end.
Proof.
  unfold serveWrite.
  destruct (target_dispatch s op) as (r & Hd & _ & Hc).
  rewrite (serve_chain _ _ _ authorization _ _ Hd), Hc.
  destruct (caller s authorization) as [u|] eqn:Hcaller.
  - case_bool_decide as Hrole.
    + destruct op;
        rewrite (through_protect _ _ _ _ _ Hcaller); cbn [through];
        unfold requireStaff, authorize; cbn [req_user];
        rewrite ?Hrole; simpl; eauto.
    + assert (includes [Role.admin; Role.doctor; Role.receptionist] (role u) = true)
        as Hstaff.
      { unfold includes. destruct (role u); try reflexivity. now destruct Hrole. }
      destruct op;
        rewrite (through_protect _ _ _ _ _ Hcaller); cbn [through];
        unfold requireStaff, authorize; cbn [req_user];
        rewrite ?Hstaff; reflexivity.
  - destruct (through_protect_refuses s authorization
                  match op with
                  | OpUpdate id _ | OpCancel _ id | OpDelete id =>
                      [("id"%string, ObjectId id)]
                  | _ => []
                  end
                  match op with
                  | OpBook _ _ | OpCancel _ _ => []
                  | _ => [requireStaff]
                  end Hcaller) as [message Hp].
    exists message. destruct op; cbn [through] in *; now rewrite Hp.
Qed.
Lemma request_unauthenticated (s : Session) now db h op :
  caller s h = None -> snd (serveWrite s now db h op) = db.
Proof.
  intros Hcaller. unfold serveWrite.
  destruct (target_dispatch s op) as (r & Hd & _ & Hc).
  rewrite (serve_chain _ _ _ h _ _ Hd), Hc.
  destruct (through_protect_refuses s h
              match op with
              | OpUpdate id _ | OpCancel _ id | OpDelete id =>
                  [("id"%string, ObjectId id)]
              | _ => []
              end
              match op with
              | OpBook _ _ | OpCancel _ _ => []
              | _ => [requireStaff]
              end Hcaller) as [message Hp].
  destruct op; cbn [through] in *; now rewrite Hp.
Qed.

Lemma request_by_patient (s : Session) now db h op u :
  caller s h = Some u -> role u = Role.patient ->
  snd (serveWrite s now db h op) = db
  \/ (exists body, snd (serveWrite s now db h op) = step now db (OpBook u body))
  \/ (exists id, snd (serveWrite s now db h op) = step now db (OpCancel u id)).
Proof.
  intros Hcaller Hrole. unfold serveWrite.
  destruct (target_dispatch s op) as (r & Hd & _ & Hc).
  rewrite (serve_chain _ _ _ h _ _ Hd), Hc.
  destruct op;
    rewrite (through_protect _ _ _ _ _ Hcaller); cbn [through];
    unfold requireStaff, authorize; cbn [req_user];
    rewrite ?Hrole; simpl; eauto.
Qed.

Lemma book_keeps_existing db u body j a :
  appointments db !! j = Some a ->
  appointments (snd (post_appointments_patient db u body)) !! j = Some a.
Proof.
  intros Hj. unfold post_appointments_patient, create.
  repeat case_match; simpl; auto.
  rewrite lookup_insert_ne; [exact Hj|].
  intros Heq. pose proof (fresh_unused db) as Hf. rewrite Heq in Hf. congruence.
Qed.

Lemma cancel_keeps_others now db u id j a :
  role u = Role.patient -> patientId a <> user_id u ->
  appointments db !! j = Some a ->
  appointments (snd (put_appointments_id_cancel now db u id)) !! j = Some a.
Proof.
  intros Hrole Hne Hj. unfold put_appointments_id_cancel.
  destruct (appointments db !! id) as [x|] eqn:Hid; [|exact Hj].
  rewrite (bool_decide_true (role u = Role.patient)) by exact Hrole. simpl.
  destruct (negb (bool_decide (patientId x ∈ patients db))); [exact Hj|].
  destruct (Nat.eqb_spec (patientId x) (user_id u)) as [Heq|Hneq]; simpl;
    [|exact Hj].
  destruct (_ || _); [exact Hj|]. simpl.
  rewrite lookup_insert_ne; [exact Hj|].
  intros <-. rewrite Hid in Hj. injection Hj as <-. contradiction.
Qed.

(** X24: what patients can do to the appointment store through the
    router. After any sequence of write requests whose authenticated
    callers are all patients (requests without a valid token included),
    no two non-terminal appointments share a slot if none did before, and
    an appointment of a patient who is none of the callers is still stored
    unchanged. *)
Theorem X24_patients_cannot_disturb_others (s : Session) (now : Z)
    (calls : list (option string * Op)) (db : DB) :
  (forall h op u, In (h, op) calls -> caller s h = Some u ->
                  role u = Role.patient) ->
  (uniqueSlots db -> uniqueSlots (serveWrites s now db calls))
  /\ forall j a,
       appointments db !! j = Some a ->
       (forall h op u, In (h, op) calls -> caller s h = Some u ->
                       user_id u <> patientId a) ->
       appointments (serveWrites s now db calls) !! j = Some a.
Proof.
  unfold serveWrites. revert db.
  induction calls as [|[h op] calls IH]; intros db Hpatients; simpl.
  - split; auto.
  - assert (forall h' op' u, In (h', op') calls -> caller s h' = Some u ->
                             role u = Role.patient) as Hrest
      by (intros h' op' u' Hin; apply (Hpatients h' op'); now right).
    destruct (IH (snd (serveWrite s now db h op)) Hrest) as [IHu IHk].
    split.
    + intros Hu. apply IHu.
      destruct (caller s h) as [u|] eqn:Hcaller.
      * destruct (request_by_patient s now db h op u Hcaller)
          as [->|[[body ->]|[id ->]]];
          [eapply Hpatients; [now left|exact Hcaller]|exact Hu| |];
          now apply step_keeps_uniqueSlots.
      * now rewrite request_unauthenticated.
    + intros j a Hj Hother. apply IHk.
      * destruct (caller s h) as [u|] eqn:Hcaller.
        -- assert (role u = Role.patient) as Hrole
             by (eapply Hpatients; [now left|exact Hcaller]).
           assert (patientId a <> user_id u) as Hne.
           { intros Heq. eapply Hother; [now left|exact Hcaller|]. now symmetry. }
           destruct (request_by_patient s now db h op u Hcaller Hrole)
             as [->|[[body ->]|[id ->]]]; [exact Hj| |].
           ++ now apply book_keeps_existing.
           ++ now apply cancel_keeps_others.
        -- now rewrite request_unauthenticated.
      * intros h' op' u' Hin. apply (Hother h' op'). now right.
Qed.

End Writes.

Section AccessEvaluations.
#[local] Existing Instance RefHost.host.

(** Alice's token is let through; the token of the deactivated account 9
    is not. *)
Lemma X18_protect_passes_active_accounts_only_witness :
  protect session {| req_authorization := bearer "7"; req_user := None;
                     req_params := [] |}
  = Next {| req_authorization := bearer "7"; req_user := Some alice;
            req_params := [] |}
  /\ forall req',
       protect session {| req_authorization := bearer "9"; req_user := None;
                          req_params := [] |} <> Next req'.
Proof.
  split.
  - apply (proj1 (X18_protect_passes_active_accounts_only session _)).
    exists "Bearer 7"%string, "7"%string, 7%nat,
      {| account_role := Role.patient; isActive := true |}.
    repeat split; vm_compute; reflexivity.
  - intros req' Hp.
    apply (proj1 (X18_protect_passes_active_accounts_only session _)) in Hp
      as (authorization & token & id & account & Hh & _ & Htoken & Hid & Hacc
          & Hact & _).
    cbn in Hh. injection Hh as <-.
    vm_compute in Htoken. injection Htoken as <-.
    vm_compute in Hid. injection Hid as <-.
    vm_compute in Hacc. injection Hacc as <-.
    discriminate Hact.
Defined.

Lemma X19_authorize_hierarchy_witness :
  requireStaff (requestOf frontDesk []) = Next (requestOf frontDesk [])
  /\ requirePatient (requestOf alice []) = Next (requestOf alice [])
  /\ exists message, requireStaff (requestOf alice []) = Answer 403 message.
Proof.
  destruct (X19_authorize_hierarchy (requestOf frontDesk []) frontDesk eq_refl)
    as (_ & _ & _ & _ & Hstaff & _).
  destruct (X19_authorize_hierarchy (requestOf alice []) alice eq_refl)
    as (_ & Hrefused & _ & _ & _ & Hpatient).
  split; [apply Hstaff; discriminate|]. split; [exact Hpatient|].
  apply Hrefused. cbn. set_solver.
Defined.

Lemma X20_patient_or_staff_witness :
  protectPatientOrStaff (requestOf alice [("id"%string, ObjectId 7)])
  = Next (requestOf alice [("id"%string, ObjectId 7)])
  /\ protectPatientOrStaff (requestOf alice []) = Answer 403 "Not authorized".
Proof.
  destruct (X20_patient_or_staff (requestOf alice [("id"%string, ObjectId 7)])
              alice eq_refl) as (Hiff & _).
  destruct (X20_patient_or_staff (requestOf alice []) alice eq_refl)
    as (_ & _ & Hnone & _).
  split; [apply Hiff; right; reflexivity|].
  apply Hnone; reflexivity.
Defined.

Lemma X22_patient_dashboard_is_refused_witness :
  app session GET [Text "api"; Text "patients"; Text "profile"] (bearer "7")
  = Some (Answered 403 "Not authorized").
Proof.
  apply (X22_patient_dashboard_is_refused session (bearer "7") alice);
    [vm_compute; reflexivity|reflexivity].
Defined.

Lemma X24_patients_cannot_disturb_others_witness :
  let booked := snd (post_appointments_patient db0 alice (request monday "10:00")) in
  let calls := [ (bearer "8", OpCancel bob 0);
                 (bearer "8", OpDelete 0);
                 (bearer "8", OpUpdate 0 (setTime "11:00"));
                 (None, OpDelete 0);
                 (bearer "8", OpBook bob (request monday "10:30")) ] in
  appointments (serveWrites session now0 booked calls) !! 0%nat = Some aliceAt10.
Proof.
  cbv zeta.
  eapply X24_patients_cannot_disturb_others.
  - intros h op u Hin Hcaller. simpl in Hin.
    repeat (destruct Hin as [Heq|Hin];
            [injection Heq as <- <-; vm_compute in Hcaller;
             first [discriminate|injection Hcaller as <-; reflexivity]|]).
    destruct Hin.
  - vm_compute. reflexivity.
  - intros h op u Hin Hcaller. simpl in Hin.
    repeat (destruct Hin as [Heq|Hin];
            [injection Heq as <- <-; vm_compute in Hcaller;
             first [discriminate|injection Hcaller as <-; discriminate]|]).
    destruct Hin.
Defined.

End AccessEvaluations.

End AccessCoverage.

(** ** Listings: the date filter and pagination *)

Module ListingCoverage.
Import Appt Client ApptExamples ApptFacts DoctorsApi Paging.

Section DateFilter.
Context (server browser : Js.Host).

(** X25: the date filter of [GET /api/doctors/available], run on the
    server, against the booking page, run in the browser. For a non-empty
    date the filter never throws and keeps a sublist of the doctors. When
    the browser names the same weekday for the date as the server does,
    every doctor for whom the page's [getAvailableTimeSlots] offers a slot
    on that date is kept, and a doctor the filter drops has no slot on the
    page. *)
Theorem X25_date_filter_agrees_with_booking_page (doctors : list Doctor)
    (date : string) :
  Js.truthy date = true ->
  exists kept,
    @availableDoctors server doctors (Some date) = Js.Normal kept
    /\ (forall doctor, In doctor kept -> In doctor doctors)
    /\ (@Js.toLocaleDateString_weekday browser (@Js.Date_parse browser date) "long"
        = @Js.toLocaleDateString_weekday server (@Js.Date_parse server date) "long" ->
        (forall doctor slots, In doctor doctors ->
           @getAvailableTimeSlots browser (Some doctor) date = Js.Normal slots ->
           slots <> [] -> In doctor kept)
        /\ (forall doctor, In doctor doctors -> ~ In doctor kept ->
              @getAvailableTimeSlots browser (Some doctor) date = Js.Normal [])).
Proof.
  intros Hdate. unfold availableDoctors, getAvailableTimeSlots.
  rewrite Hdate. cbn [negb].
  destruct (@Js.toLocaleDateString_weekday server (@Js.Date_parse server date) "long")
    as [weekday|e] eqn:Hw.
  2: { destruct (@Js.Date_parse server date); discriminate. }
  eexists. split; [reflexivity|].
  split; [intros doctor Hin; now apply filter_In in Hin|].
  intros ->. split.
  - intros doctor slots Hin Hslots Hne. apply filter_In. split; [exact Hin|].
    cbv zeta.
    destruct (availability doctor !! Js.toLowerCase weekday) as [day|];
      [|now injection Hslots as <-].
    destruct (available day); [reflexivity|]. now injection Hslots as <-.
  - intros doctor Hin Hnot.
    destruct (availability doctor !! Js.toLowerCase weekday) as [day|] eqn:Hday;
      [|reflexivity].
    destruct (available day) eqn:Hav; [|reflexivity].
    destruct Hnot. apply filter_In. split; [exact Hin|].
    cbv zeta. now rewrite Hday.
Qed.

End DateFilter.

Lemma take_add {A} (l : list A) (a b : nat) :
  take (a + b) l = take a l ++ take b (drop a l).
Proof.
  revert l. induction a as [|a IH]; intros [|x l]; simpl; auto.
  - now destruct b.
  - now rewrite IH.
Qed.

Lemma chunks {A} (l : list A) (n k : nat) :
  concat (map (fun p => take n (drop ((p - 1) * n) l)) (seq 1 k)) = take (k * n) l.
Proof.
  induction k as [|k IH]; [reflexivity|].
  rewrite seq_S, map_app, concat_app, IH. simpl.
  rewrite app_nil_r. replace (k - 0)%nat with k by lia.
  replace (n + k * n)%nat with (k * n + n)%nat by lia.
  now rewrite take_add.
Qed.

Lemma ceilDiv_bounds total limit :
  1 <= limit ->
  (ceilDiv total limit - 1) * limit < total <= ceilDiv total limit * limit.
Proof.
  intros Hl. unfold ceilDiv.
  pose proof (Z.div_mod (- total) limit ltac:(lia)) as Hdm.
  pose proof (Z.mod_pos_bound (- total) limit ltac:(lia)) as Hmod.
  nia.
Qed.

Lemma pageData_eq {A} (matching : list A) (limit p : Z) :
  1 <= limit -> 1 <= p ->
  listing matching (Some p) (Some limit)
  = Some {| data := take (Z.to_nat limit)
                      (drop (Z.to_nat ((p - 1) * limit)) matching);
            page := p; limit := limit;
            total := Z.of_nat (length matching);
            pages := ceilDiv (Z.of_nat (length matching)) limit |}.
Proof.
  intros Hl Hp. unfold listing, orDefault, skipLimit.
  assert ((p =? 0) = false) as -> by lia.
  assert ((limit =? 0) = false) as Hl0 by lia. rewrite Hl0.
  destruct (Z.ltb_spec ((p - 1) * limit) 0); [nia|].
  rewrite Hl0. now rewrite Z.abs_eq by lia.
Qed.

(** X26: the pages of a listing partition it. For a limit of at least 1
    every page from 1 on is served, with at most [limit] documents and the
    same [total] and [pages]; a page holds a document exactly when its
    number is at most [pages]; and pages 1 to [pages], one after the
    other, are the matching documents in their order. *)
Theorem X26_pages_partition_the_listing {A} (matching : list A) (limit : Z) :
  1 <= limit ->
  let count := ceilDiv (Z.of_nat (length matching)) limit in
  (forall p, 1 <= p ->
     exists pg, listing matching (Some p) (Some limit) = Some pg
       /\ page pg = p /\ Paging.limit pg = limit
       /\ total pg = Z.of_nat (length matching) /\ pages pg = count
       /\ Z.of_nat (length (data pg)) <= limit
       /\ (p <= count <-> data pg <> []))
  /\ concat (map (pageData matching limit) (map Z.of_nat (seq 1 (Z.to_nat count))))
     = matching.
Proof.
  intros Hl count.
  pose proof (ceilDiv_bounds (Z.of_nat (length matching)) limit Hl) as Hb.
  fold count in Hb.
  split.
  - intros p Hp. eexists. split; [apply pageData_eq; assumption|]. cbn.
    repeat split; try reflexivity.
    + rewrite length_take. lia.
    + intros Hle Hnil.
      apply (f_equal (@length A)) in Hnil.
      rewrite length_take, length_drop in Hnil. simpl in Hnil. nia.
    + intros Hne. destruct (Z_le_gt_dec p count) as [Hle|Hgt]; [exact Hle|].
      destruct Hne. rewrite drop_ge; [now destruct (Z.to_nat limit)|]. nia.
  - assert (0 <= count) as Hc by nia.
    transitivity (concat (map (fun p => take (Z.to_nat limit)
                                          (drop ((p - 1) * Z.to_nat limit) matching))
                              (seq 1 (Z.to_nat count)))).
    + f_equal. rewrite map_map. apply map_ext_in. intros p Hin.
      apply in_seq in Hin. unfold pageData.
      rewrite pageData_eq by lia. cbn. do 2 f_equal. nia.
    + rewrite chunks. apply take_ge. nia.
Qed.

Lemma X25_date_filter_agrees_with_booking_page_witness :
  @availableDoctors RefHost.host [drGrey; ApptCases.drHouse] (Some "2030-01-06"%string)
  = Js.Normal []
  /\ @getAvailableTimeSlots RefHost.host (Some drGrey) "2030-01-06" = Js.Normal [].
Proof.
  destruct (X25_date_filter_agrees_with_booking_page RefHost.host RefHost.host
              [drGrey; ApptCases.drHouse] "2030-01-06" eq_refl)
    as (kept & Hkept & _ & Hsame).
  destruct (Hsame eq_refl) as (_ & Hdropped).
  vm_compute in Hkept. injection Hkept as <-.
  split; [vm_compute; reflexivity|].
  apply Hdropped; [now left|]. intros [].
Defined.

(** With the server in the UTC zone and the browser five hours behind it,
    the two disagree on Saturday 2030-01-12, which the browser reads as a
    Friday: the filter drops the doctor and the page offers sixteen
    slots. *)
Example date_filter_across_zones :
  @availableDoctors RefHost.host [drGrey] (Some "2030-01-12"%string) = Js.Normal []
  /\ exists slots,
       @getAvailableTimeSlots RefHost.newYork (Some drGrey) "2030-01-12"
       = Js.Normal slots /\ length slots = 16%nat.
Proof. split; [|eexists; split]; vm_compute; reflexivity. Qed.

Lemma X26_pages_partition_the_listing_witness :
  concat (map (pageData [1; 2; 3; 4; 5; 6; 7] 3) [1; 2; 3]) = [1; 2; 3; 4; 5; 6; 7]
  /\ ceilDiv 7 3 = 3.
Proof.
  split; [|reflexivity].
  exact (proj2 (X26_pages_partition_the_listing [1; 2; 3; 4; 5; 6; 7] 3
                  ltac:(lia))).
Defined.

End ListingCoverage.

(** ** Statistics *)

Module StatsCoverage.
Import Billing BillingExamples BillingFacts BillingCoverage Stats.

Lemma documents_insert (db : DB) (id : nat) (b : Bill) :
  bills db !! id = None ->
  documents {| patients := patients db; bills := <[id := b]> (bills db) |}
  ≡ₚ b :: documents db.
Proof.
  intros Hid. unfold documents. simpl.
  rewrite (map_to_list_insert _ _ _ Hid). reflexivity.
Qed.

Lemma count_perm (f : Bill -> bool) (l l' : list Bill) :
  l ≡ₚ l' -> length (List.filter f l) = length (List.filter f l').
Proof.
  induction 1 as [|x l l' _ IH|x y l|l l' l'' _ IH1 _ IH2].
  - reflexivity.
  - cbn [List.filter]. destruct (f x); cbn [length]; now rewrite IH.
  - cbn [List.filter]. now destruct (f x), (f y).
  - now rewrite IH1.
Qed.


Lemma path_total b : numericPath "total" b = None.
Proof. reflexivity. Qed.


(** X28: a bill created by [POST /api/billing] moves the counts of the
    overview by one bill: [totalBills] grows by one, the count of the
    status it was stored with grows by one, and the count of every other
    status stays. *)
Theorem X28_creation_moves_the_counts (now : Z) (db : DB) (body : CreateBody)
    (id : nat) (b : Bill) (db' : DB) :
  post_billing now db body = (Created id b, db') ->
  totalBills (overview db') = totalBills (overview db) + 1
  /\ countStatus (status b) db' = countStatus (status b) db + 1
  /\ (forall st, st <> status b -> countStatus st db' = countStatus st db).
Proof.
  intros Hpost.
  pose proof (post_billing_created_inv _ _ _ _ _ _ Hpost)
    as (doc & _ & _ & _ & _ & _ & Hid & Hdb).
  assert (bills db !! id = None) as Hfree
    by (rewrite Hid; apply not_elem_of_dom, is_fresh).
  pose proof (documents_insert db id b Hfree) as Hperm. rewrite <- Hdb in Hperm.
  cbn [overview totalBills]. unfold countStatus.
  split; [rewrite (Permutation_length Hperm); cbn [length]; lia|].
  split.
  - rewrite (count_perm _ _ _ Hperm). cbn [List.filter].
    rewrite bool_decide_true by reflexivity. cbn [length]. lia.
  - intros st Hst. rewrite (count_perm _ _ _ Hperm). cbn [List.filter].
    rewrite bool_decide_false by congruence. reflexivity.
Qed.

(** X29: the revenue figure of [GET /api/dashboard/stats] is 0 for every
    store. The pipeline sums the path [total] over the paid bills, and a
    stored bill has no such top-level path (its amount is [totalAmount]),
    so every document adds nothing. *)
Theorem X29_dashboard_revenue_is_zero (db : DB) :
  dashboardRevenue db = 0%float.
Proof.
  unfold dashboardRevenue.
  destruct (List.filter _ (documents db)) as [|b docs]; [reflexivity|].
  unfold sum. generalize (b :: docs). intros l.
  replace (omap (numericPath "total") l) with (@nil float); [reflexivity|].
  induction l as [|x l IH]; [reflexivity|].
  cbn [omap list_omap]. now rewrite path_total.
Qed.

Lemma X28_creation_moves_the_counts_witness :
  exists b db', post_billing 0 db0 invoice = (Created 0 b, db')
    /\ status b = pending
    /\ totalBills (overview db') = 1
    /\ pendingBills (overview db') = 1.
Proof.
  eexists; eexists. split; [vm_compute; reflexivity|].
  split; [vm_compute; reflexivity|].
  match goal with
  | |- totalBills (overview ?d) = _ /\ _ =>
      destruct (X28_creation_moves_the_counts 0 db0 invoice 0%nat _ d
                  ltac:(vm_compute; reflexivity)) as (Htotal & Hcount & _)
  end.
  split; [exact Htotal|exact Hcount].
Defined.

End StatsCoverage.

(** ** Client navigation *)

Module NavCoverage.
Import Nav.

(** X30: the navigation bar and the page guards agree except in one
    place. For each of the four roles, an entry of the bar is shown exactly
    when the page behind it renders for that role, apart from the
    administrator's "Book Appointment" entry: it is shown, and the page
    sends the administrator back to the dashboard. Without a known role
    only the dashboard is shown. *)
Theorem X30_navigation_matches_page_guards (role : Appt.Role.t) (item : Item) :
  In item navigation ->
  (visit (Some role) (href item) = Children ->
   In item (getNavigationByRole (Some role)))
  /\ (In item (getNavigationByRole (Some role)) ->
      visit (Some role) (href item) = Children
      \/ (role = Appt.Role.admin /\ name item = "Book Appointment"%string
          /\ visit (Some role) (href item) = Navigate "/dashboard"))
  /\ In item (getNavigationByRole (Some Appt.Role.admin))
  /\ (In item (getNavigationByRole None) <-> name item = "Dashboard"%string).
Proof.
  intros Hin. simpl in Hin.
  repeat (destruct Hin as [<-|Hin]; [destruct role; vm_compute; intuition discriminate|]).
  destruct Hin.
Qed.

Lemma X30_navigation_matches_page_guards_witness :
  In {| name := "Book Appointment"; href := "/book-appointment" |}
     (getNavigationByRole (Some Appt.Role.admin))
  /\ visit (Some Appt.Role.admin) "/book-appointment" = Navigate "/dashboard".
Proof.
  destruct (X30_navigation_matches_page_guards Appt.Role.admin
              {| name := "Book Appointment"; href := "/book-appointment" |})
    as (_ & Hshown & Hadmin & _).
  { simpl. auto 10. }
  split; [exact Hadmin|].
  destruct (Hshown Hadmin) as [Hpage|(_ & _ & Hback)]; [discriminate Hpage|exact Hback].
Defined.

End NavCoverage.
